(** * erbasign: the two data pipelines, embedded and verified

    Sources embedded here:
    - [scripts/data_pipeline.py]  (commerce family: customers, products, orders)
    - [myapp/data_pipeline.py]    (catalog family: authors, books, reviews)
    - [core/models.py], [myapp/models.py] (the row shapes)

    Modelling conventions.
    - A Python [str] is a [string] of ASCII characters; [str.strip] and
      [str.lower] are the ASCII restrictions of the Python methods.
    - A pandas cell is an [option string]: [None] is a missing value (NaN),
      [Some s] the text of the cell.
    - A file is an [option] of the list of its rows: [None] when the file does
      not exist.  CSV quoting and the type inference of [read_csv] are below
      the level of the model.
    - A database table is the list of its rows in insertion order.
      [bulk_create(..., ignore_conflicts=True)] skips a row whose unique key
      is already taken; column-level failures of the engine are not modelled.
    - Python floats are IEEE binary64 values, taken from [SpecFloat] with
      [prec = 53] and [emax = 1024]. *)

From Stdlib Require Import ZArith List String Ascii Bool Lia Arith.
From Stdlib Require Import Floats.SpecFloat.
From Stdlib Require Decimal DecimalString DecimalPos.
Import ListNotations.

Open Scope string_scope.
Open Scope Z_scope.

(** ** Python text primitives *)

Module PyStr.

(** [str.isspace] on the ASCII range: TAB..CR, FS..US and the blank. *)
Definition is_space (c : ascii) : bool :=
  let n := nat_of_ascii c in
  ((9 <=? n) && (n <=? 13) || (28 <=? n) && (n <=? 32))%nat.

Definition is_digit (c : ascii) : bool :=
  let n := nat_of_ascii c in ((48 <=? n) && (n <=? 57))%nat.

Definition digit_value (c : ascii) : Z := Z.of_nat (nat_of_ascii c) - 48.

Definition digit_char (d : Z) : ascii := ascii_of_nat (Z.to_nat (48 + d)).

Fixpoint lstrip (s : string) : string :=
  match s with
  | String c r => if is_space c then lstrip r else s
  | EmptyString => EmptyString
  end.

Fixpoint rstrip (s : string) : string :=
  match s with
  | String c r =>
      match rstrip r with
      | EmptyString => if is_space c then EmptyString else String c EmptyString
      | r' => String c r'
      end
  | EmptyString => EmptyString
  end.

Definition strip (s : string) : string := rstrip (lstrip s).

Definition lower_char (c : ascii) : ascii :=
  let n := nat_of_ascii c in
  if ((65 <=? n) && (n <=? 90))%nat then ascii_of_nat (n + 32) else c.

Fixpoint lower (s : string) : string :=
  match s with
  | String c r => String (lower_char c) (lower r)
  | EmptyString => EmptyString
  end.

Fixpoint filter_chars (keep : ascii -> bool) (s : string) : string :=
  match s with
  | String c r => if keep c then String c (filter_chars keep r) else filter_chars keep r
  | EmptyString => EmptyString
  end.

(** [s[-n:]] *)
Definition last_chars (n : nat) (s : string) : string :=
  substring (String.length s - n) n s.

(** [s[:n]] *)
Definition first_chars (n : nat) (s : string) : string := substring 0 n s.

(** [s.replace(pat, "")] for a non-empty [pat]: occurrences are removed from
    left to right without overlap; [skip] counts the characters of the
    occurrence still to be dropped. *)
Fixpoint remove_from (pat : string) (skip : nat) (s : string) : string :=
  match s with
  | EmptyString => EmptyString
  | String c r =>
      match skip with
      | S k => remove_from pat k r
      | O =>
          if prefix pat s
          then remove_from pat (String.length pat - 1) r
          else String c (remove_from pat 0 r)
      end
  end.

Definition remove_all (pat s : string) : string := remove_from pat 0 s.

(** [str(n)] for an integer. *)
Definition str_of_Z (n : Z) : string := DecimalString.NilZero.string_of_int (Z.to_int n).

(** [" ".join(parts)] and friends. *)
Fixpoint join (sep : string) (parts : list string) : string :=
  match parts with
  | [] => EmptyString
  | [p] => p
  | p :: rest => p ++ sep ++ join sep rest
  end.

Definition nonempty (s : string) : bool :=
  match s with EmptyString => false | _ => true end.

(** [a or b] on strings. *)
Definition or_else (a b : string) : string := if nonempty a then a else b.

End PyStr.

(** Membership tests of the pipeline. *)
Definition mem_string (x : string) (l : list string) : bool :=
  existsb (String.eqb x) l.

Definition mem_Z (x : Z) (l : list Z) : bool := existsb (Z.eqb x) l.

(** ** Calendar dates ([datetime.date]) and [datetime.strptime] *)

Module PyDate.

Record date := mkDate { year : Z; month : Z; day : Z }.

Definition date_eqb (a b : date) : bool :=
  (year a =? year b) && (month a =? month b) && (day a =? day b).

Definition is_leap (y : Z) : bool :=
  (y mod 4 =? 0) && (negb (y mod 100 =? 0) || (y mod 400 =? 0)).

Definition days_in_month (y m : Z) : Z :=
  match m with
  | 2 => if is_leap y then 29 else 28
  | 4 | 6 | 9 | 11 => 30
  | _ => 31
  end.

(** The constructor [date(y, m, d)]: [None] stands for its [ValueError]. *)
Definition make_date (y m d : Z) : option date :=
  if (1 <=? y) && (y <=? 9999) && (1 <=? m) && (m <=? 12)
     && (1 <=? d) && (d <=? days_in_month y m)
  then Some (mkDate y m d) else None.

Definition two_digits (n : Z) : string :=
  String (PyStr.digit_char (n / 10 mod 10))
    (String (PyStr.digit_char (n mod 10)) EmptyString).

Definition four_digits (n : Z) : string :=
  String (PyStr.digit_char (n / 1000 mod 10))
    (String (PyStr.digit_char (n / 100 mod 10)) (two_digits n)).

(** [date.isoformat()] *)
Definition isoformat (d : date) : string :=
  four_digits (year d) ++ "-" ++ two_digits (month d) ++ "-" ++ two_digits (day d).

(** The directives that occur in the four formats of [clean_date]. *)
Inductive directive := dir_Y | dir_m | dir_d | dir_lit (c : ascii).

(** What the regular expression has captured so far. *)
Record fields := mkFields { f_year : Z; f_month : Z; f_day : Z }.

Definition in_range (lo hi : nat) (c : ascii) : bool :=
  let n := nat_of_ascii c in ((lo <=? n) && (n <=? hi))%nat.

(** One alternative of a directive's pattern that reads two characters, the
    first constrained by [p1] and the second by [p2]. *)
Definition two_chars (p1 p2 : ascii -> bool) (s : string) : list (Z * string) :=
  match s with
  | String a (String b r) =>
      if p1 a && p2 b
      then [(10 * PyStr.digit_value a + PyStr.digit_value b, r)] else []
  | _ => []
  end.

Definition one_char (p : ascii -> bool) (s : string) : list (Z * string) :=
  match s with
  | String a r => if p a then [(PyStr.digit_value a, r)] else []
  | _ => []
  end.

(** The alternative [" [1-9]"] of the day pattern. *)
Definition blank_then (p : ascii -> bool) (s : string) : list (Z * string) :=
  match s with
  | String a (String b r) =>
      if Ascii.eqb a " " && p b then [(PyStr.digit_value b, r)] else []
  | _ => []
  end.

Definition is_char (x : nat) : ascii -> bool := in_range x x.

(** The alternatives of each directive, in the order in which the regular
    expression engine tries them:
    - [%Y] is [\d\d\d\d];
    - [%m] is [1[0-2]|0[1-9]|[1-9]];
    - [%d] is [3[0-1]|[1-2]\d|0[1-9]|[1-9]| [1-9]]. *)
Definition alternatives (d : directive) (s : string) (f : fields)
  : list (fields * string) :=
  match d with
  | dir_Y =>
      match s with
      | String a (String b (String c (String e r))) =>
          if PyStr.is_digit a && PyStr.is_digit b && PyStr.is_digit c && PyStr.is_digit e
          then [(mkFields (1000 * PyStr.digit_value a + 100 * PyStr.digit_value b
                           + 10 * PyStr.digit_value c + PyStr.digit_value e)
                          (f_month f) (f_day f), r)]
          else []
      | _ => []
      end
  | dir_m =>
      map (fun '(v, r) => (mkFields (f_year f) v (f_day f), r))
        (two_chars (is_char 49) (in_range 48 50) s
         ++ two_chars (is_char 48) (in_range 49 57) s
         ++ one_char (in_range 49 57) s)
  | dir_d =>
      map (fun '(v, r) => (mkFields (f_year f) (f_month f) v, r))
        (two_chars (is_char 51) (in_range 48 49) s
         ++ two_chars (in_range 49 50) PyStr.is_digit s
         ++ two_chars (is_char 48) (in_range 49 57) s
         ++ one_char (in_range 49 57) s
         ++ blank_then (in_range 49 57) s)
  | dir_lit c =>
      match s with
      | String a r => if Ascii.eqb a c then [(f, r)] else []
      | _ => []
      end
  end.

Fixpoint first_some {A B} (k : A -> option B) (l : list A) : option B :=
  match l with
  | [] => None
  | x :: r => match k x with Some y => Some y | None => first_some k r end
  end.

(** [format_regex.match(data_string)]: leftmost alternative first, with
    backtracking; the result is the captured fields and the unread rest. *)
Fixpoint regex_match (fmt : list directive) (s : string) (f : fields)
  : option (fields * string) :=
  match fmt with
  | [] => Some (f, s)
  | d :: fmt' =>
      first_some (fun '(f', r) => regex_match fmt' r f') (alternatives d s f)
  end.

(** [datetime.strptime(s, fmt).date()]; [None] stands for [ValueError]
    (no match, unconverted data remaining, or no such calendar day). *)
Definition strptime (fmt : list directive) (s : string) : option date :=
  match regex_match fmt s (mkFields 1900 1 1) with
  | Some (f, EmptyString) => make_date (f_year f) (f_month f) (f_day f)
  | _ => None
  end.

Definition fmt_Ymd_dash := [dir_Y; dir_lit "-"; dir_m; dir_lit "-"; dir_d].
Definition fmt_Ymd_slash := [dir_Y; dir_lit "/"; dir_m; dir_lit "/"; dir_d].
Definition fmt_dmY_dash := [dir_d; dir_lit "-"; dir_m; dir_lit "-"; dir_Y].
Definition fmt_dmY_slash := [dir_d; dir_lit "/"; dir_m; dir_lit "/"; dir_Y].

End PyDate.

(** ** Exceptions and commands

    A command threads a state (the files of a stage, or the database) and
    either returns or raises; the state reached when an exception is raised
    is kept, as nothing in the pipeline rolls back. *)

Inductive exn :=
| FileNotFoundError (name : string)
| ValueError
| InvalidOperation
| OverflowError
| ZeroDivisionError.

Inductive result (A : Type) :=
| Ok (a : A)
| Raise (e : exn).
Arguments Ok {A} a.
Arguments Raise {A} e.

Definition Cmd (S A : Type) : Type := S -> S * result A.

Definition ret {S A} (a : A) : Cmd S A := fun s => (s, Ok a).

Definition raise {S A} (e : exn) : Cmd S A := fun s => (s, Raise e).

Definition bind {S A B} (c : Cmd S A) (k : A -> Cmd S B) : Cmd S B :=
  fun s =>
    match c s with
    | (s', Ok a) => k a s'
    | (s', Raise e) => (s', Raise e)
    end.

Definition gets {S A} (f : S -> A) : Cmd S A := fun s => (s, Ok (f s)).

Definition modify {S} (f : S -> S) : Cmd S unit := fun s => (f s, Ok tt).

(** A pure computation that may raise, run inside a command. *)
Definition lift {S A} (r : result A) : Cmd S A := fun s => (s, r).

Notation "x <- c ;; k" := (bind c (fun x => k))
  (at level 61, c at next level, right associativity).
Notation "c ;;; k" := (bind c (fun _ => k))
  (at level 61, right associativity).

(** [for x in l: ...] where the body may raise: the results are collected in
    order, and the first exception ends the loop. *)
Fixpoint collect {A B} (body : A -> result (option B)) (l : list A)
  : result (list B) :=
  match l with
  | [] => Ok []
  | x :: r =>
      match body x with
      | Raise e => Raise e
      | Ok skip_or_row =>
          match collect body r with
          | Raise e => Raise e
          | Ok rows =>
              Ok match skip_or_row with
                 | Some row => row :: rows
                 | None => rows
                 end
          end
      end
  end.

(** ** Decimal numerals (the part of [decimal.Decimal] the pipeline uses) *)

Module PyDecimal.

(** A finite decimal [coef * 10^(-scale)] with [0 <= coef]. *)
Record decimal := mkDecimal { coef : Z; scale : nat }.

(** Reads a run of digits: the value accumulated, how many were read, and
    what follows. *)
Fixpoint scan_digits (s : string) (acc : Z) (count : nat) : Z * nat * string :=
  match s with
  | String c r =>
      if PyStr.is_digit c
      then scan_digits r (10 * acc + PyStr.digit_value c) (S count)
      else (acc, count, s)
  | EmptyString => (acc, count, s)
  end.

(** The numerals [digits], [digits.digits], [.digits] and [digits.]: at least
    one digit, at most one point, nothing else. *)
Definition parse_unsigned (s : string) : option decimal :=
  let '(i, ni, r) := scan_digits s 0 0 in
  match r with
  | EmptyString => if (0 <? ni)%nat then Some (mkDecimal i 0) else None
  | String c r' =>
      if Ascii.eqb c "."
      then let '(v, nf, r'') := scan_digits r' i 0 in
           match r'' with
           | EmptyString =>
               if (0 <? ni + nf)%nat then Some (mkDecimal v nf) else None
           | _ => None
           end
      else None
  end.

(** Rounding of [n / d] to an integer, for [0 <= n] and [0 < d]. *)
Definition round_half_even (n d : Z) : Z :=
  let q := n / d in
  let r := n mod d in
  match 2 * r ?= d with
  | Lt => q
  | Gt => q + 1
  | Eq => if Z.even q then q else q + 1
  end.

Definition round_half_up (n d : Z) : Z :=
  let q := n / d in
  let r := n mod d in
  if d <=? 2 * r then q + 1 else q.

(** The working precision of the default context: 28 digits. *)
Definition context_limit : Z := 10 ^ 28.

(** [x.quantize(Decimal("0.01"))] in hundredths, with the rounding [rnd];
    [None] stands for [InvalidOperation] (more than 28 digits). *)
Definition quantize_cents (rnd : Z -> Z -> Z) (x : decimal) : option Z :=
  let c :=
    if (scale x <=? 2)%nat
    then coef x * 10 ^ Z.of_nat (2 - scale x)
    else rnd (coef x) (10 ^ Z.of_nat (scale x - 2)) in
  if c <? context_limit then Some c else None.

(** [str] of a non-negative decimal with two fractional digits. *)
Definition str_cents (c : Z) : string :=
  PyStr.str_of_Z (c / 100) ++ "." ++ PyDate.two_digits (c mod 100).

(** The characters [clean_price] lets through. *)
Definition price_char (c : ascii) : bool := PyStr.is_digit c || Ascii.eqb c ".".


End PyDecimal.

(** ** The record store: bulk insertion *)

(** [bulk_create(rows, ignore_conflicts=True)] on a table with a unique
    column [key]: a row is inserted unless its key is taken, by a stored row
    or by a row inserted before it in the same batch. *)
Fixpoint bulk_create_ignore_conflicts {R K} (eqb : K -> K -> bool) (key : R -> K)
  (table rows : list R) : list R :=
  match rows with
  | [] => table
  | r :: rest =>
      if existsb (eqb (key r)) (map key table)
      then bulk_create_ignore_conflicts eqb key table rest
      else bulk_create_ignore_conflicts eqb key (table ++ [r]) rest
  end.

(** [bulk_create(rows)] on a table without unique column. *)
Definition bulk_create {R} (table rows : list R) : list R := table ++ rows.

(** ** [scripts/data_pipeline.py]: the commerce family *)

Module Scripts.

Definition cell := option string.

(** *** a) CLEAN: field normalizers *)

Definition clean_email (x : cell) : string :=
  match x with
  | None => ""
  | Some v => PyStr.lower (PyStr.strip v)
  end.

Definition clean_phone (x : cell) : string :=
  match x with
  | None => ""
  | Some v =>
      let s := PyStr.strip v in
      let digits := PyStr.filter_chars PyStr.is_digit s in
      if (8 <? String.length digits)%nat then PyStr.last_chars 8 digits else digits
  end.

Definition clean_bool (x : cell) : bool :=
  match x with
  | None => true
  | Some v =>
      if String.eqb (PyStr.strip v) "" then true
      else mem_string (PyStr.lower (PyStr.strip v)) ["1"; "true"; "t"; "yes"; "y"]
  end.

Definition clean_price (x : cell) : string :=
  match x with
  | None => "0"
  | Some v =>
      let s := PyStr.strip v in
      let s := PyStr.remove_all "$" (PyStr.remove_all "HK$" s) in
      let s := PyStr.strip (PyStr.remove_all "," s) in
      let s := PyStr.filter_chars PyDecimal.price_char s in
      PyStr.or_else s "0"
  end.

(** The formats of [clean_date], in the order of the source tuple. *)
Definition date_formats : list (list PyDate.directive) :=
  [PyDate.fmt_Ymd_dash; PyDate.fmt_Ymd_slash; PyDate.fmt_dmY_dash; PyDate.fmt_dmY_slash].

(** The loop of [clean_date]: return at the first format that parses,
    [continue] on [ValueError], and the empty string after the last one. *)
Fixpoint try_formats (fmts : list (list PyDate.directive)) (s : string) : string :=
  match fmts with
  | [] => ""
  | fmt :: rest =>
      match PyDate.strptime fmt s with
      | Some d => PyDate.isoformat d
      | None => try_formats rest s
      end
  end.

Definition clean_date (x : cell) : string :=
  match x with
  | None => ""
  | Some v => try_formats date_formats (PyStr.strip v)
  end.

(** [Series.astype(str)]: a missing cell prints as ["nan"]. *)
Definition astype_str (x : cell) : string :=
  match x with None => "nan" | Some v => v end.

(** [pd.to_numeric(s, errors="coerce")] on the literals
    [sign? digits (. digits)?]; [None] is NaN.  pandas goes through binary64:
    the exact decimal value kept here has the same integer part whenever the
    literal has at most 15 significant digits.  Other spellings that pandas
    reads as numbers (exponents, infinities) are outside the model. *)
Definition to_numeric (s : string) : option (bool * PyDecimal.decimal) :=
  match s with
  | String c r =>
      if Ascii.eqb c "-" then option_map (pair true) (PyDecimal.parse_unsigned r)
      else if Ascii.eqb c "+" then option_map (pair false) (PyDecimal.parse_unsigned r)
      else option_map (pair false) (PyDecimal.parse_unsigned s)
  | EmptyString => None
  end.

(** [.fillna(1).astype(int)]: NaN becomes 1, a number is truncated towards
    zero. *)
Definition fillna1_astype_int (x : option (bool * PyDecimal.decimal)) : Z :=
  match x with
  | None => 1
  | Some (neg, d) =>
      let magnitude := PyDecimal.coef d / 10 ^ Z.of_nat (PyDecimal.scale d) in
      if neg then - magnitude else magnitude
  end.

Definition clean_quantity (x : cell) : Z :=
  fillna1_astype_int (to_numeric (PyStr.strip (astype_str x))).

(** *** Rows *)

Record raw_customer := mkRawCustomer
  { rc_full_name : cell; rc_email : cell; rc_phone : cell }.

Record customer_row := mkCustomerRow
  { full_name : string; email : string; phone : string }.

Record raw_product := mkRawProduct
  { rp_sku : cell; rp_name : cell; rp_price : cell; rp_is_active : cell }.

Record product_row := mkProductRow
  { sku : string; name : string; price : string; is_active : bool }.

Record raw_order := mkRawOrder
  { ro_customer_email : cell; ro_product_sku : cell; ro_quantity : cell;
    ro_order_date : cell; ro_note : cell }.

Record order_row := mkOrderRow
  { customer_email : string; product_sku : string; quantity : Z;
    order_date : string; note : string }.

Definition order_row_eqb (a b : order_row) : bool :=
  String.eqb (customer_email a) (customer_email b)
  && String.eqb (product_sku a) (product_sku b)
  && (quantity a =? quantity b)
  && String.eqb (order_date a) (order_date b)
  && String.eqb (note a) (note b).

(** [df.drop_duplicates(subset=key, keep="first")]; [seen] holds the keys of
    the rows already kept. *)
Fixpoint drop_duplicates_from {A K} (eqb : K -> K -> bool) (key : A -> K)
  (seen : list K) (rows : list A) : list A :=
  match rows with
  | [] => []
  | r :: rest =>
      if existsb (eqb (key r)) seen
      then drop_duplicates_from eqb key seen rest
      else r :: drop_duplicates_from eqb key (key r :: seen) rest
  end.

Definition drop_duplicates {A K} (eqb : K -> K -> bool) (key : A -> K)
  (rows : list A) : list A :=
  drop_duplicates_from eqb key [] rows.

(** *** The files of the three stages *)

Record files := mkFiles
  { customers_raw : option (list raw_customer);
    products_raw : option (list raw_product);
    orders_raw : option (list raw_order);
    customers_cleaned : option (list customer_row);
    products_cleaned : option (list product_row);
    orders_cleaned : option (list order_row);
    customers_formatted : option (list customer_row);
    products_formatted : option (list product_row);
    orders_formatted : option (list order_row) }.

Definition write_customers_cleaned (rows : list customer_row) (fs : files) : files :=
  mkFiles (customers_raw fs) (products_raw fs) (orders_raw fs)
    (Some rows) (products_cleaned fs) (orders_cleaned fs)
    (customers_formatted fs) (products_formatted fs) (orders_formatted fs).

Definition write_products_cleaned (rows : list product_row) (fs : files) : files :=
  mkFiles (customers_raw fs) (products_raw fs) (orders_raw fs)
    (customers_cleaned fs) (Some rows) (orders_cleaned fs)
    (customers_formatted fs) (products_formatted fs) (orders_formatted fs).

Definition write_orders_cleaned (rows : list order_row) (fs : files) : files :=
  mkFiles (customers_raw fs) (products_raw fs) (orders_raw fs)
    (customers_cleaned fs) (products_cleaned fs) (Some rows)
    (customers_formatted fs) (products_formatted fs) (orders_formatted fs).




(** [pd.read_csv(path)] *)
Definition read_csv {S A} (file : S -> option (list A)) (name : string)
  : Cmd S (list A) :=
  fun fs =>
    match file fs with
    | Some rows => (fs, Ok rows)
    | None => (fs, Raise (FileNotFoundError name))
    end.

(** [df.to_csv(path)] *)
Definition to_csv {S A} (write : list A -> S -> S) (rows : list A) : Cmd S unit :=
  modify (write rows).

(** *** a) CLEAN: the three record cleaners and the command *)

Definition clean_customer_cells (r : raw_customer) : customer_row :=
  mkCustomerRow (PyStr.strip (astype_str (rc_full_name r)))
                (clean_email (rc_email r))
                (clean_phone (rc_phone r)).

Definition clean_customers (dfc : list raw_customer) : list customer_row :=
  let dfc := map clean_customer_cells dfc in
  let dfc := filter (fun r => negb (String.eqb (email r) "")) dfc in
  drop_duplicates String.eqb email dfc.

Definition clean_product_cells (r : raw_product) : product_row :=
  mkProductRow (PyStr.strip (astype_str (rp_sku r)))
               (PyStr.strip (astype_str (rp_name r)))
               (clean_price (rp_price r))
               (clean_bool (rp_is_active r)).

Definition clean_products (dfp : list raw_product) : list product_row :=
  drop_duplicates String.eqb sku (map clean_product_cells dfp).

Definition clean_order_cells (r : raw_order) : order_row :=
  mkOrderRow (clean_email (ro_customer_email r))
             (PyStr.strip (astype_str (ro_product_sku r)))
             (clean_quantity (ro_quantity r))
             (clean_date (ro_order_date r))
             (PyStr.strip (astype_str (ro_note r))).

Definition keep_order (r : order_row) : bool :=
  negb (String.eqb (customer_email r) "")
  && negb (String.eqb (product_sku r) "")
  && negb (String.eqb (order_date r) "").

Definition clean_orders (dfo : list raw_order) : list order_row :=
  filter keep_order (map clean_order_cells dfo).

Definition cmd_clean : Cmd files unit :=
  dfc <- read_csv customers_raw "customers_raw.csv" ;;
  to_csv write_customers_cleaned (clean_customers dfc) ;;;
  dfp <- read_csv products_raw "products_raw.csv" ;;
  to_csv write_products_cleaned (clean_products dfp) ;;;
  dfo <- read_csv orders_raw "orders_raw.csv" ;;
  to_csv write_orders_cleaned (clean_orders dfo).

(** *** b) FORMAT *)

(** [to_decimal_str] on the strings that [clean_price] produces (digits and
    points).  [quantize] is called without a rounding argument, so the
    rounding of the default context applies: ROUND_HALF_EVEN. *)
Definition to_decimal_str (x : string) : string :=
  match PyDecimal.parse_unsigned x with
  | None => "0.00"
  | Some d =>
      match PyDecimal.quantize_cents PyDecimal.round_half_even d with
      | None => "0.00"
      | Some c => PyDecimal.str_cents c
      end
  end.



(** *** c) IMPORT: the tables of [pages.models] ([core/models.py])

    A foreign key is held as the natural key of the parent row (the
    customer's email, the product's SKU): both columns are unique, and it is
    through them alone that the pipeline reads a reference
    ([customer__email], [product__sku]). *)

Record Customer := mkCustomer
  { c_full_name : string; c_email : string; c_phone : string }.

Record Product := mkProduct
  { p_sku : string; p_name : string; p_price : PyDecimal.decimal;
    p_is_active : bool }.

Record Order := mkOrder
  { o_customer : string; o_product : string; o_quantity : Z;
    o_order_date : PyDate.date; o_note : string }.

Record store := mkStore
  { customers : list Customer; products : list Product; orders : list Order }.

Definition empty_store : store := mkStore [] [] [].

Definition set_customers (t : list Customer) (db : store) : store :=
  mkStore t (products db) (orders db).

Definition set_products (t : list Product) (db : store) : store :=
  mkStore (customers db) t (orders db).

Definition set_orders (t : list Order) (db : store) : store :=
  mkStore (customers db) (products db) t.

(** [{key(x): x for x in rows}.get(k)]: the last row under a key wins. *)
Definition dict_get {R} (key : R -> string) (rows : list R) (k : string) : option R :=
  find (fun x => String.eqb (key x) k) (rev rows).

(** [Model.objects.filter(col__in=values)] *)
Definition filter_in {R} (key : R -> string) (values : list string) (table : list R)
  : list R :=
  filter (fun x => mem_string (key x) values) table.

Definition order_key : Type := string * string * Z * PyDate.date * string.

Definition order_key_eqb (a b : order_key) : bool :=
  let '(ea, sa, qa, da, na) := a in
  let '(eb, sb, qb, db, nb) := b in
  String.eqb ea eb && String.eqb sa sb && (qa =? qb)
  && PyDate.date_eqb da db && String.eqb na nb.

Definition key_of_order (o : Order) : order_key :=
  (o_customer o, o_product o, o_quantity o, o_order_date o, o_note o).

Definition import_customers (dfc : list customer_row) : Cmd store unit :=
  let customers_new :=
    map (fun r => mkCustomer (full_name r) (email r) (phone r)) dfc in
  existing_emails <-
    gets (fun db => map c_email (filter_in c_email (map email dfc) (customers db))) ;;
  let to_create :=
    filter (fun c => negb (mem_string (c_email c) existing_emails)) customers_new in
  modify (fun db =>
    set_customers
      (bulk_create_ignore_conflicts String.eqb c_email (customers db) to_create) db).

(** The body of the product loop: [continue] for a known SKU, otherwise the
    row to create; [Decimal(...)] raises on a price it cannot read. *)
Definition product_of_row (existing_skus : list string) (r : product_row)
  : result (option Product) :=
  let sku' := PyStr.strip (sku r) in
  if mem_string sku' existing_skus then Ok None
  else
    match PyDecimal.parse_unsigned (price r) with
    | None => Raise InvalidOperation
    | Some d => Ok (Some (mkProduct sku' (PyStr.strip (name r)) d (is_active r)))
    end.

Definition import_products (dfp : list product_row) : Cmd store unit :=
  existing_skus <-
    gets (fun db => map p_sku (filter_in p_sku (map sku dfp) (products db))) ;;
  prods <- lift (collect (product_of_row existing_skus) dfp) ;;
  modify (fun db =>
    set_products
      (bulk_create_ignore_conflicts String.eqb p_sku (products db) prods) db).

(** The body of the order loop: [continue] when a parent is missing,
    otherwise the order to create; [strptime] raises on a date that is not
    in ISO form. *)
Definition order_of_row (cust_map : list Customer) (prod_map : list Product)
  (r : order_row) : result (option Order) :=
  match dict_get c_email cust_map (customer_email r),
        dict_get p_sku prod_map (product_sku r) with
  | Some c, Some p =>
      match PyDate.strptime PyDate.fmt_Ymd_dash (order_date r) with
      | None => Raise ValueError
      | Some d =>
          Ok (Some (mkOrder (c_email c) (p_sku p) (quantity r) d
                            (PyStr.strip (note r))))
      end
  | _, _ => Ok None
  end.

Definition import_orders (dfo : list order_row) : Cmd store unit :=
  let dfo := drop_duplicates order_row_eqb (fun r => r) dfo in
  cust_map <-
    gets (fun db => filter_in c_email (map customer_email dfo) (customers db)) ;;
  prod_map <-
    gets (fun db => filter_in p_sku (map product_sku dfo) (products db)) ;;
  orders_new <- lift (collect (order_of_row cust_map prod_map) dfo) ;;
  existing <- gets (fun db => map key_of_order (orders db)) ;;
  let filtered :=
    filter (fun o => negb (existsb (order_key_eqb (key_of_order o)) existing))
      orders_new in
  modify (fun db => set_orders (bulk_create (orders db) filtered) db).

(** [cmd_import]: the formatted files are read one after the other, each
    just before its table is loaded. *)
Definition cmd_import (fs : files) : Cmd store unit :=
  dfc <- read_csv (fun _ => customers_formatted fs) "customers_formatted.csv" ;;
  import_customers dfc ;;;
  dfp <- read_csv (fun _ => products_formatted fs) "products_formatted.csv" ;;
  import_products dfp ;;;
  dfo <- read_csv (fun _ => orders_formatted fs) "orders_formatted.csv" ;;
  import_orders dfo.

End Scripts.

(** ** Python floats *)

Module PyFloat.

Definition prec : Z := 53.
Definition emax : Z := 1024.

(** An integer as the dividend or divisor of a true division. *)
Definition of_int (z : Z) : spec_float :=
  match z with
  | Z0 => S754_zero false
  | Zpos p => S754_finite false p 0
  | Zneg p => S754_finite true p 0
  end.

Definition is_nan (x : spec_float) : bool :=
  match x with S754_nan => true | _ => false end.

(** Zeros and finite numbers, as opposed to infinities and NaN. *)
Definition is_finite (x : spec_float) : bool :=
  match x with S754_zero _ | S754_finite _ _ _ => true | _ => false end.

(** A zero, or a finite float of magnitude below [2^B] whose exponent is in
    the range of the format. *)
Definition below_pow2 (B : Z) (x : spec_float) : Prop :=
  match x with
  | S754_zero _ => True
  | S754_finite _ m e => Zpos (digits2_pos m) + e <= B /\ e <= emax - prec
  | _ => False
  end.

(** [a / b] on integers: the quotient rounded once to binary64. *)
Definition int_truediv (a b : Z) : result spec_float :=
  if b =? 0 then Raise ZeroDivisionError
  else
    match SFdiv prec emax (of_int a) (of_int b) with
    | S754_infinity _ => Raise OverflowError
    | q => Ok q
    end.

Definition add : spec_float -> spec_float -> spec_float := SFadd prec emax.
Definition sub : spec_float -> spec_float -> spec_float := SFsub prec emax.

Definition exponent_of (x : spec_float) : Z :=
  match x with S754_finite _ _ e => e | _ => 0 end.

(** The value of a finite float in units of [2^e0], for [e0] at most its
    exponent. *)
Definition scaled (e0 : Z) (x : spec_float) : Z :=
  match x with
  | S754_finite s m e => (if s then - Zpos m else Zpos m) * 2 ^ (e - e0)
  | _ => 0
  end.

(** [a > b]: the order of the values; false when either side is NaN. *)
Definition gt (a b : spec_float) : bool :=
  match a, b with
  | S754_nan, _ | _, S754_nan => false
  | S754_infinity sa, S754_infinity sb => negb sa && sb
  | S754_infinity sa, _ => negb sa
  | _, S754_infinity sb => sb
  | _, _ =>
      let e0 := Z.min (exponent_of a) (exponent_of b) in
      scaled e0 b <? scaled e0 a
  end.

(** [max(a, b)]: [b] replaces [a] only when [b > a]. *)
Definition max (a b : spec_float) : spec_float := if gt b a then b else a.

(** The literal [5.0]. *)
Definition five : spec_float := S754_finite false 5629499534213120 (-50).

(** A [Decimal] with two fractional digits, in hundredths, or its NaN. *)
Inductive pydecimal := Cents (c : Z) | DecimalNaN.

(** [Decimal(x).quantize(Decimal("0.01"), rounding=ROUND_HALF_UP)]: the
    conversion of the float is exact, the rounding is on the magnitude. *)
Definition quantize_half_up (x : spec_float) : result pydecimal :=
  match x with
  | S754_nan => Ok DecimalNaN
  | S754_infinity _ => Raise InvalidOperation
  | S754_zero _ => Ok (Cents 0)
  | S754_finite s m e =>
      let c :=
        if 0 <=? e then 100 * Zpos m * 2 ^ e
        else PyDecimal.round_half_up (100 * Zpos m) (2 ^ (- e)) in
      if c <? PyDecimal.context_limit
      then Ok (Cents (if s then - c else c))
      else Raise InvalidOperation
  end.

End PyFloat.

Definition and_then {A B} (r : result A) (k : A -> result B) : result B :=
  match r with
  | Ok a => k a
  | Raise e => Raise e
  end.

(** ** [myapp/data_pipeline.py]: the catalog family *)

Module Myapp.

Import PyFloat.

(** *** The JSON documents

    The records keep the keys the pipeline reads; a key that is absent or
    [null] is [None].  The identifiers [id] are integers. *)

Record company_t := mkCompany
  { company_title : option string; company_name : option string }.

Record user := mkUser
  { user_id : Z; firstName : option string; lastName : option string;
    username : option string; company : option company_t;
    university : option string }.

Record reactions_t := mkReactions { likes : option Z; dislikes : option Z }.

Record post := mkPost
  { post_id : Z; userId : option Z; title : option string;
    reactions : option reactions_t; views : option Z }.

Record comment := mkComment
  { comment_id : Z; postId : option Z; comment_likes : option Z;
    body : option string }.

Record json_files := mkJson
  { user_json : option (list user);
    posts_json : option (list post);
    comments_json : option (list comment) }.

(** *** The tables of [myapp.models] *)

Record Author := mkAuthor { a_id : Z; a_name : string; a_bio : string }.

Record Book := mkBook
  { b_id : Z; b_title : string; b_author_id : option Z; b_price : pydecimal }.

Record Review := mkReview
  { r_id : Z; r_book_id : Z; r_content : string; r_rating : Z }.

Record store := mkStore
  { authors : list Author; books : list Book; reviews : list Review }.

Definition empty_store : store := mkStore [] [] [].

(** *** Helpers *)

Definition _load_json {S A} (file : option (list A)) (filename : string)
  : Cmd S (list A) :=
  fun db =>
    match file with
    | None => (db, Raise (FileNotFoundError filename))
    | Some doc => (db, Ok doc)
    end.

Definition _norm_text (value : option string) (fallback : string) : string :=
  match value with
  | Some v => if PyStr.nonempty v then PyStr.strip v else fallback
  | None => fallback
  end.

(** [x or 0] on an optional integer. *)
Definition or_zero (x : option Z) : Z :=
  match x with Some v => v | None => 0 end.

Definition _safe_price (p : post) : result pydecimal :=
  let reactions :=
    match reactions p with Some r => r | None => mkReactions None None end in
  let likes := or_zero (likes reactions) in
  let dislikes := or_zero (dislikes reactions) in
  let views := or_zero (views p) in
  and_then (int_truediv views 120) (fun v =>
  and_then (int_truediv likes 15) (fun l =>
  and_then (int_truediv dislikes 25) (fun d =>
    let raw := sub (add v l) d in
    let price := max raw five in
    quantize_half_up price))).

(** The three counters of a post, as [_safe_price] reads them, fit in a
    signed 64-bit integer. *)
Definition counters_in_range (p : post) : Prop :=
  Z.abs (or_zero (views p)) < 2 ^ 63
  /\ Z.abs (or_zero
              (likes
                 (match reactions p with
                  | Some r => r
                  | None => mkReactions None None
                  end))) < 2 ^ 63
  /\ Z.abs (or_zero
              (dislikes
                 (match reactions p with
                  | Some r => r
                  | None => mkReactions None None
                  end))) < 2 ^ 63.

Definition author_of_user (u : user) : Author :=
  let full_name :=
    PyStr.join " "
      (filter PyStr.nonempty
         [_norm_text (firstName u) ""; _norm_text (lastName u) ""]) in
  let name :=
    PyStr.or_else full_name
      (PyStr.or_else (_norm_text (username u) "")
         ("User " ++ PyStr.str_of_Z (user_id u))) in
  let company :=
    match company u with Some c => c | None => mkCompany None None end in
  let bio_bits :=
    [_norm_text (company_title company) "";
     _norm_text (company_name company) "";
     _norm_text (university u) ""] in
  let bio :=
    PyStr.or_else (PyStr.join " | " (filter PyStr.nonempty bio_bits))
      "No bio provided." in
  mkAuthor (user_id u) (PyStr.first_chars 100 name) (PyStr.first_chars 500 bio).

Fixpoint clean_authors_from (seen : list Z) (users : list user) : list Author :=
  match users with
  | [] => []
  | u :: rest =>
      if mem_Z (user_id u) seen then clean_authors_from seen rest
      else author_of_user u :: clean_authors_from (user_id u :: seen) rest
  end.

Definition _clean_authors (users : list user) : list Author :=
  clean_authors_from [] users.

(** [author_id not in author_ids], for an identifier that may be [None]. *)
Definition known_id (x : option Z) (ids : list Z) : bool :=
  match x with Some i => mem_Z i ids | None => false end.

(** [author_ids] is the set in its iteration order, so that
    [next(iter(author_ids), None)] is the head of the list. *)
Definition _clean_books (posts : list post) (author_ids : list Z)
  : result (list Book) :=
  let default_author_id := hd_error author_ids in
  collect
    (fun p =>
       let book_id := post_id p in
       let author_id :=
         if known_id (userId p) author_ids then userId p else default_author_id in
       let title :=
         PyStr.first_chars 200
           (_norm_text (title p) ("Untitled " ++ PyStr.str_of_Z book_id)) in
       and_then (_safe_price p) (fun price =>
         Ok (Some (mkBook book_id title author_id price))))
    posts.

Definition review_of_comment (book_ids : list Z) (c : comment) : option Review :=
  match postId c with
  | Some book_id =>
      if mem_Z book_id book_ids then
        let likes := or_zero (comment_likes c) in
        let rating := Z.max 1 (Z.min 5 (likes / 2 + 1)) in
        let content := _norm_text (body c) "No content provided." in
        Some (mkReview (comment_id c) book_id content rating)
      else None
  | None => None
  end.

Fixpoint _clean_reviews (comments : list comment) (book_ids : list Z) : list Review :=
  match comments with
  | [] => []
  | c :: rest =>
      match review_of_comment book_ids c with
      | Some r => r :: _clean_reviews rest book_ids
      | None => _clean_reviews rest book_ids
      end
  end.

(** *** The commands *)

Definition reset_tables : Cmd store unit :=
  modify (fun db => mkStore (authors db) (books db) []) ;;;
  modify (fun db => mkStore (authors db) [] (reviews db)) ;;;
  modify (fun db => mkStore [] (books db) (reviews db)).

Section ImportData.

(** The order in which a Python [set] built from a column of identifiers
    enumerates them. *)
Variable set_of : list Z -> list Z.

Definition import_data (fs : json_files) : Cmd store unit :=
  users <- _load_json (user_json fs) "user.json" ;;
  posts <- _load_json (posts_json fs) "posts.json" ;;
  comments <- _load_json (comments_json fs) "comments.json" ;;
  reset_tables ;;;
  let new_authors := _clean_authors users in
  modify (fun db =>
    mkStore (bulk_create_ignore_conflicts Z.eqb a_id (authors db) new_authors)
            (books db) (reviews db)) ;;;
  author_ids <- gets (fun db => set_of (map a_id (authors db))) ;;
  new_books <- lift (_clean_books posts author_ids) ;;
  modify (fun db =>
    mkStore (authors db)
            (bulk_create_ignore_conflicts Z.eqb b_id (books db) new_books)
            (reviews db)) ;;;
  book_ids <- gets (fun db => set_of (map b_id (books db))) ;;
  let new_reviews := _clean_reviews comments book_ids in
  modify (fun db =>
    mkStore (authors db) (books db)
            (bulk_create_ignore_conflicts Z.eqb r_id (reviews db) new_reviews)).

End ImportData.

End Myapp.

(** ** Shapes of texts *)

Module Text.

(** Every character of [s] passes [p]. *)
Fixpoint all_chars (p : ascii -> bool) (s : string) : bool :=
  match s with
  | String c r => p c && all_chars p r
  | EmptyString => true
  end.

(** [s.isspace() or s == ""] *)
Definition blank (s : string) : bool := all_chars PyStr.is_space s.

Definition is_upper (c : ascii) : bool :=
  let n := nat_of_ascii c in ((65 <=? n) && (n <=? 90))%nat.

End Text.

(** ** [scripts/generate_raw_data.py]: the generator of the raw files

    The random draws of the source are arguments here: [pick] is the index
    that [random.choice] draws from its list, and a boolean says whether
    [random.random()] fell below the threshold of the test. *)

Module Generate.

Definition upper_char (c : ascii) : ascii :=
  let n := nat_of_ascii c in
  if ((97 <=? n) && (n <=? 122))%nat then ascii_of_nat (n - 32) else c.

(** [s.upper()] on the ASCII range. *)
Fixpoint upper (s : string) : string :=
  match s with
  | String c r => String (upper_char c) (upper r)
  | EmptyString => EmptyString
  end.

(** [s[k:]] *)
Definition from_chars (k : nat) (s : string) : string :=
  substring k (String.length s - k) s.

Definition DOMAINS : list string :=
  ["gmail.com"; "yahoo.com"; "outlook.com"; "example.com"].

Definition messy_email (first last : string) (i : Z) (shout padded : bool)
  (pick : nat) : string :=
  let base := first ++ "." ++ last ++ PyStr.str_of_Z i in
  let base := if shout then upper base else base in
  let base := if padded then " " ++ base ++ " " else base in
  base ++ "@" ++ nth pick DOMAINS "".

(** [n] is the run of eight digits drawn first. *)
Definition messy_phone (n : string) (pick : nat) : string :=
  let a := PyStr.first_chars 4 n in
  let b := from_chars 4 n in
  nth pick
    [n;
     "+852 " ++ a ++ " " ++ b;
     "(852) " ++ a ++ "-" ++ b;
     a ++ " " ++ b;
     a ++ "-" ++ b;
     "  " ++ a ++ "-" ++ b ++ "  "]
    "".

(** [d.strftime(fmt)] for the directives of the four formats; [%Y] prints
    the year in four digits, which is what the C library does from the year
    1000 on. *)
Fixpoint strftime (fmt : list PyDate.directive) (d : PyDate.date) : string :=
  match fmt with
  | [] => ""
  | PyDate.dir_Y :: rest => PyDate.four_digits (PyDate.year d) ++ strftime rest d
  | PyDate.dir_m :: rest => PyDate.two_digits (PyDate.month d) ++ strftime rest d
  | PyDate.dir_d :: rest => PyDate.two_digits (PyDate.day d) ++ strftime rest d
  | PyDate.dir_lit c :: rest => String c (strftime rest d)
  end.

Definition messy_date (d : PyDate.date) (pick : nat) (padded : bool) : string :=
  let fmt :=
    nth pick
      [strftime PyDate.fmt_Ymd_dash d;
       strftime PyDate.fmt_Ymd_slash d;
       strftime PyDate.fmt_dmY_dash d;
       strftime PyDate.fmt_dmY_slash d]
      "" in
  if padded then " " ++ fmt ++ " " else fmt.

End Generate.

(** ** Sample inputs *)

Module Examples.



(** Raw files where only the products are missing. *)
Definition files_without_products : Scripts.files :=
  Scripts.mkFiles
    (Some [Scripts.mkRawCustomer (Some "Kit Wong") (Some "Kit.Wong1@gmail.com")
             (Some "+852 1234 5678")])
    None (Some []) None None None None None None.

(** Raw files where only the orders are missing. *)
Definition files_without_orders : Scripts.files :=
  Scripts.mkFiles (Some []) (Some []) None None None None None None None.

Definition formatted_files : Scripts.files :=
  Scripts.mkFiles None None None None None None
    (Some [Scripts.mkCustomerRow "Alex Chan" "alex.chan5@gmail.com" "91234567"])
    (Some [Scripts.mkProductRow "SKU-007" "Zinc 50mg" "99.00" true])
    (Some [Scripts.mkOrderRow "alex.chan5@gmail.com" "SKU-007" 2 "2024-01-05" "gift";
           Scripts.mkOrderRow "alex.chan5@gmail.com" "SKU-404" 1 "2024-01-06" "";
           Scripts.mkOrderRow "nobody@example.com" "SKU-007" 1 "2024-01-07" ""]).

(** A catalog store with one author that no input mentions. *)
Definition old_author : Myapp.Author := Myapp.mkAuthor 99 "Ann Author" "No bio provided.".

Definition old_catalog : Myapp.store := Myapp.mkStore [old_author] [] [].

Definition empty_documents : Myapp.json_files :=
  Myapp.mkJson (Some []) (Some []) (Some []).

(** A set of identifiers enumerated in the order of its first insertions. *)
Definition insertion_order (ids : list Z) : list Z := ids.

Definition post_of_author (id : Z) (author : option Z) : Myapp.post :=
  Myapp.mkPost id author (Some "His mother had always taught him") None None.

(** A post with the given counters. *)
Definition post_with (views likes dislikes : Z) : Myapp.post :=
  Myapp.mkPost 1 (Some 1) (Some "Title")
    (Some (Myapp.mkReactions (Some likes) (Some dislikes))) (Some views).

(** A post without any counter. *)
Definition bare_post : Myapp.post := Myapp.mkPost 1 None None None None.

Definition documents : Myapp.json_files :=
  Myapp.mkJson
    (Some [Myapp.mkUser 1 (Some "Emily") (Some "Johnson") (Some "emilys") None None])
    (Some [post_of_author 10 (Some 1); post_of_author 11 (Some 7)])
    (Some [Myapp.mkComment 100 (Some 10) (Some 3) (Some "Great read");
           Myapp.mkComment 101 (Some 55) (Some 1) (Some "Lost")]).





(** Formatted files where the products are missing. *)
Definition formatted_without_products : Scripts.files :=
  Scripts.mkFiles None None None None None None
    (Some [Scripts.mkCustomerRow "Alex Chan" "alex.chan5@gmail.com" "91234567"])
    None (Some []).


(** Two users under one identifier, the second without any name. *)
Definition users_with_duplicate : list Myapp.user :=
  [Myapp.mkUser 1 (Some "Emily") (Some "Johnson") (Some "emilys") None None;
   Myapp.mkUser 1 None None None None None;
   Myapp.mkUser 2 (Some "  ") None None None (Some "MIT")].

(** A post whose title is blank. *)
Definition blank_title_post : Myapp.post :=
  Myapp.mkPost 7 (Some 1) (Some "   ") None None.


End Examples.

(** ** The formulas of the specification, for comparison with the code *)

Module Spec.



(** The book price as the specification words it, in hundredths:
    [max(views/120 + likes/15 - dislikes/25, 5.00)] over the rationals,
    rounded half-up.  The sum is [(5 views + 40 likes - 24 dislikes) / 600]. *)
Definition book_price_cents (views likes dislikes : Z) : Z :=
  Z.max 500 ((5 * views + 40 * likes - 24 * dislikes + 3) / 6).

End Spec.

(** * Properties *)

(** ** Dates: [clean_date] and the order cleaner *)

Lemma isoformat_nonempty (d : PyDate.date) : PyDate.isoformat d <> "".
Proof.
  unfold PyDate.isoformat, PyDate.four_digits. simpl. discriminate.
Qed.

Lemma try_formats_skip (s : string) (before rest : list (list PyDate.directive)) :
  Forall (fun f => PyDate.strptime f s = None) before ->
  Scripts.try_formats (before ++ rest)%list s = Scripts.try_formats rest s.
Proof.
  induction 1 as [|f before Hf _ IH]; simpl.
  - reflexivity.
  - rewrite Hf. exact IH.
Qed.

Lemma try_formats_empty (s : string) (fmts : list (list PyDate.directive)) :
  Scripts.try_formats fmts s = "" <->
  Forall (fun f => PyDate.strptime f s = None) fmts.
Proof.
  induction fmts as [|f fmts IH]; simpl.
  - split; auto.
  - destruct (PyDate.strptime f s) as [d|] eqn:E.
    + split; intro H.
      * exfalso. exact (isoformat_nonempty d H).
      * inversion H; subst. congruence.
    + rewrite IH. split; intro H.
      * constructor; assumption.
      * inversion H; assumption.
Qed.

Lemma clean_orders_spec (dfo : list Scripts.raw_order) (r : Scripts.order_row) :
  In r (Scripts.clean_orders dfo) <->
  exists raw, In raw dfo /\ r = Scripts.clean_order_cells raw
              /\ Scripts.keep_order r = true.
Proof.
  unfold Scripts.clean_orders. rewrite filter_In, in_map_iff. split.
  - intros [[raw [E I]] K]. exists raw. auto.
  - intros [raw [I [E K]]]. split; [exists raw|]; auto.
Qed.

Lemma keep_order_date (r : Scripts.order_row) :
  Scripts.keep_order r = true -> Scripts.order_date r <> "".
Proof.
  unfold Scripts.keep_order. intros K E. rewrite E in K.
  rewrite andb_false_r in K. discriminate.
Qed.

(** C7. [clean_date] tries Y-M-D, Y/M/D, D-M-Y, D/M/Y in that order and
    returns the ISO form of the first format that parses; it returns the
    empty string exactly when none does; the order cleaner drops every row
    whose cleaned date is empty.  "31-12-2023" cleans to "2023-12-31" and an
    order dated "not-a-date" is dropped. *)
Theorem clean_date_first_format_wins :
  Scripts.date_formats
  = [PyDate.fmt_Ymd_dash; PyDate.fmt_Ymd_slash; PyDate.fmt_dmY_dash; PyDate.fmt_dmY_slash]
  /\ PyDate.fmt_Ymd_dash
     = [PyDate.dir_Y; PyDate.dir_lit "-"; PyDate.dir_m; PyDate.dir_lit "-"; PyDate.dir_d]
  /\ PyDate.fmt_Ymd_slash
     = [PyDate.dir_Y; PyDate.dir_lit "/"; PyDate.dir_m; PyDate.dir_lit "/"; PyDate.dir_d]
  /\ PyDate.fmt_dmY_dash
     = [PyDate.dir_d; PyDate.dir_lit "-"; PyDate.dir_m; PyDate.dir_lit "-"; PyDate.dir_Y]
  /\ PyDate.fmt_dmY_slash
     = [PyDate.dir_d; PyDate.dir_lit "/"; PyDate.dir_m; PyDate.dir_lit "/"; PyDate.dir_Y]
  /\ (forall v before fmt after d,
        Scripts.date_formats = (before ++ fmt :: after)%list ->
        Forall (fun f => PyDate.strptime f (PyStr.strip v) = None) before ->
        PyDate.strptime fmt (PyStr.strip v) = Some d ->
        Scripts.clean_date (Some v) = PyDate.isoformat d)
  /\ (forall v,
        Scripts.clean_date (Some v) = "" <->
        Forall (fun f => PyDate.strptime f (PyStr.strip v) = None)
          Scripts.date_formats)
  /\ (forall dfo raw,
        In raw dfo ->
        Scripts.clean_date (Scripts.ro_order_date raw) = "" ->
        ~ In (Scripts.clean_order_cells raw) (Scripts.clean_orders dfo))
  /\ (forall dfo r, In r (Scripts.clean_orders dfo) -> Scripts.order_date r <> "")
  /\ Scripts.clean_date (Some "31-12-2023") = "2023-12-31"
  /\ Scripts.clean_date (Some "not-a-date") = ""
  /\ (forall e s q n,
        Scripts.clean_orders [Scripts.mkRawOrder e s q (Some "not-a-date") n] = []).
Proof.
  repeat split; try reflexivity.
  - intros v before fmt after d Hfmts Hbefore Hfmt.
    unfold Scripts.clean_date. rewrite Hfmts.
    rewrite try_formats_skip by assumption. simpl. rewrite Hfmt. reflexivity.
  - apply try_formats_empty.
  - apply try_formats_empty.
  - intros dfo raw _ Hdate Hin.
    apply clean_orders_spec in Hin. destruct Hin as [raw' [_ [_ K]]].
    apply keep_order_date in K. apply K. exact Hdate.
  - intros dfo r Hin. apply clean_orders_spec in Hin.
    destruct Hin as [raw [_ [_ K]]]. apply keep_order_date. exact K.
  - intros e s q n. unfold Scripts.clean_orders. simpl.
    unfold Scripts.keep_order. simpl. rewrite andb_false_r. reflexivity.
Qed.

(** The third format is the one that reads "31-12-2023". *)
Lemma clean_date_first_format_wins_witness :
  Scripts.clean_date (Some " 31-12-2023 ") = "2023-12-31".
Proof.
  destruct clean_date_first_format_wins as (_ & _ & _ & _ & _ & H & _).
  apply (H " 31-12-2023 " [PyDate.fmt_Ymd_dash; PyDate.fmt_Ymd_slash]
           PyDate.fmt_dmY_dash [PyDate.fmt_dmY_slash]
           (PyDate.mkDate 2023 12 31)).
  - reflexivity.
  - repeat constructor.
  - reflexivity.
Defined.

(** ** Quantities *)









(** ** Price formatting *)








(** ** Missing input files *)

(** The claim C3 as stated fails: with [customers_raw.csv] present and
    [products_raw.csv] absent, the stage aborts after it has written
    [customers_cleaned.csv]. *)
Lemma cmd_clean_writes_before_missing_file :
  Scripts.products_raw Examples.files_without_products = None
  /\ Scripts.customers_cleaned Examples.files_without_products = None
  /\ snd (Scripts.cmd_clean Examples.files_without_products)
     = Raise (FileNotFoundError "products_raw.csv")
  /\ Scripts.customers_cleaned (fst (Scripts.cmd_clean Examples.files_without_products))
     = Some [Scripts.mkCustomerRow "Kit Wong" "kit.wong1@gmail.com" "12345678"].
Proof.
  repeat split.
Qed.

(** C3, amended.  [cmd_clean] aborts at the first raw file that is absent,
    in the order customers, products, orders: nothing is written for that
    kind nor for a later one, and the cleaned files of the earlier kinds are
    already written.  [import_data] reads its three documents before it
    touches the tables, so there a missing document leaves the store as it
    was. *)
Theorem cmd_clean_aborts_at_missing_file (fs : Scripts.files) :
  (Scripts.customers_raw fs = None ->
   Scripts.cmd_clean fs = (fs, Raise (FileNotFoundError "customers_raw.csv")))
  /\ (forall dfc,
        Scripts.customers_raw fs = Some dfc ->
        Scripts.products_raw fs = None ->
        Scripts.cmd_clean fs
        = (Scripts.write_customers_cleaned (Scripts.clean_customers dfc) fs,
           Raise (FileNotFoundError "products_raw.csv")))
  /\ (forall dfc dfp,
        Scripts.customers_raw fs = Some dfc ->
        Scripts.products_raw fs = Some dfp ->
        Scripts.orders_raw fs = None ->
        Scripts.cmd_clean fs
        = (Scripts.write_products_cleaned (Scripts.clean_products dfp)
             (Scripts.write_customers_cleaned (Scripts.clean_customers dfc) fs),
           Raise (FileNotFoundError "orders_raw.csv")))
  /\ (forall dfc dfp dfo,
        Scripts.customers_raw fs = Some dfc ->
        Scripts.products_raw fs = Some dfp ->
        Scripts.orders_raw fs = Some dfo ->
        Scripts.cmd_clean fs
        = (Scripts.write_orders_cleaned (Scripts.clean_orders dfo)
             (Scripts.write_products_cleaned (Scripts.clean_products dfp)
                (Scripts.write_customers_cleaned (Scripts.clean_customers dfc) fs)),
           Ok tt))
  /\ (forall set_of (js : Myapp.json_files) (db : Myapp.store),
        Myapp.user_json js = None \/ Myapp.posts_json js = None
        \/ Myapp.comments_json js = None ->
        fst (Myapp.import_data set_of js db) = db
        /\ exists name, snd (Myapp.import_data set_of js db)
                        = Raise (FileNotFoundError name)).
Proof.
  unfold Scripts.cmd_clean, Scripts.read_csv, Scripts.to_csv, bind, modify.
  repeat split.
  - intros ->. reflexivity.
  - intros dfc -> E. simpl. rewrite E. reflexivity.
  - intros dfc dfp -> E1 E2. simpl. rewrite E1. simpl. rewrite E2. reflexivity.
  - intros dfc dfp dfo -> E1 E2. simpl. rewrite E1. simpl. rewrite E2. reflexivity.
  - unfold Myapp.import_data, Myapp._load_json, bind.
    destruct (Myapp.user_json js); [|reflexivity].
    destruct (Myapp.posts_json js); [|reflexivity].
    destruct (Myapp.comments_json js); [|reflexivity].
    destruct H as [H|[H|H]]; discriminate.
  - unfold Myapp.import_data, Myapp._load_json, bind.
    destruct (Myapp.user_json js); [|eexists; reflexivity].
    destruct (Myapp.posts_json js); [|eexists; reflexivity].
    destruct (Myapp.comments_json js); [|eexists; reflexivity].
    destruct H as [H|[H|H]]; discriminate.
Qed.

(** Without the orders file, the customers and products files are written
    and the orders file is not. *)
Lemma cmd_clean_aborts_at_missing_file_witness :
  Scripts.cmd_clean Examples.files_without_orders
  = (Scripts.write_products_cleaned (Scripts.clean_products [])
       (Scripts.write_customers_cleaned (Scripts.clean_customers [])
          Examples.files_without_orders),
     Raise (FileNotFoundError "orders_raw.csv")).
Proof.
  destruct (cmd_clean_aborts_at_missing_file Examples.files_without_orders)
    as (_ & _ & H & _).
  exact (H [] [] eq_refl eq_refl eq_refl).
Defined.

(** ** Lists: membership, deduplication, bulk insertion *)

Lemma mem_string_In (x : string) (l : list string) :
  mem_string x l = true <-> In x l.
Proof.
  unfold mem_string. rewrite existsb_exists. split.
  - intros [y [I E]]. apply String.eqb_eq in E. subst. exact I.
  - intro I. exists x. split; [exact I | apply String.eqb_refl].
Qed.

Lemma mem_string_false (x : string) (l : list string) :
  mem_string x l = false <-> ~ In x l.
Proof.
  rewrite <- mem_string_In. destruct (mem_string x l); split; congruence.
Qed.

Lemma mem_Z_In (x : Z) (l : list Z) : mem_Z x l = true <-> In x l.
Proof.
  unfold mem_Z. rewrite existsb_exists. split.
  - intros [y [I E]]. apply Z.eqb_eq in E. subst. exact I.
  - intro I. exists x. split; [exact I | apply Z.eqb_refl].
Qed.

Lemma filter_none {A} (f : A -> bool) (l : list A) :
  (forall x, In x l -> f x = false) -> filter f l = [].
Proof.
  induction l as [|x l IH]; simpl; intro H.
  - reflexivity.
  - rewrite (H x (or_introl eq_refl)). apply IH. intros y I. apply H. right. exact I.
Qed.

Section DropDuplicates.

Context {A : Type} (key : A -> string).

Local Notation "'dedup'" := (Scripts.drop_duplicates_from String.eqb key).





End DropDuplicates.

Section BulkCreate.

Context {R : Type} (key : R -> string).

Local Notation "'insert'" := (bulk_create_ignore_conflicts String.eqb key).

Lemma bulk_create_extends (rows : list R) :
  forall table, exists added,
    insert table rows = (table ++ added)%list
    /\ (forall x, In x added -> In x rows /\ ~ In (key x) (map key table)).
Proof.
  induction rows as [|r rest IH]; simpl; intro table.
  - exists []. rewrite app_nil_r. split; [reflexivity | contradiction].
  - fold (mem_string (key r) (map key table)).
    destruct (mem_string (key r) (map key table)) eqn:M.
    + destruct (IH table) as [added [E P]]. exists added. split; [exact E|].
      intros x I. apply P in I. tauto.
    + destruct (IH (table ++ [r])%list) as [added [E P]].
      exists (r :: added). split.
      * rewrite E, <- app_assoc. reflexivity.
      * intros x [<-|I].
        -- split; [left; reflexivity | apply mem_string_false; exact M].
        -- apply P in I. destruct I as [I N]. split; [right; exact I|].
           intro F. apply N. rewrite map_app, in_app_iff. left. exact F.
Qed.

Lemma bulk_create_keys (rows : list R) :
  forall table r, In r rows -> In (key r) (map key (insert table rows)).
Proof.
  induction rows as [|x rest IH]; simpl; intros table r I.
  - contradiction.
  - fold (mem_string (key x) (map key table)).
    destruct (mem_string (key x) (map key table)) eqn:M.
    + destruct I as [<-|I]; [|apply IH; exact I].
      apply mem_string_In in M.
      destruct (bulk_create_extends rest table) as [added [E _]].
      rewrite E, map_app, in_app_iff. left. exact M.
    + destruct I as [<-|I]; [|apply IH; exact I].
      destruct (bulk_create_extends rest (table ++ [x])%list) as [added [E _]].
      rewrite E, !map_app, !in_app_iff. left. right. left.
      reflexivity.
Qed.

Lemma bulk_create_known (rows : list R) (table : list R) :
  (forall r, In r rows -> In (key r) (map key table)) ->
  insert table rows = table.
Proof.
  induction rows as [|x rest IH]; simpl; intro K.
  - reflexivity.
  - fold (mem_string (key x) (map key table)).
    assert (M : mem_string (key x) (map key table) = true)
      by (apply mem_string_In, K; left; reflexivity).
    rewrite M. apply IH. intros r I. apply K. right. exact I.
Qed.


End BulkCreate.

(** ** Loops that may raise *)

Section Collect.

Context {A B : Type}.

Lemma collect_rows (body : A -> result (option B)) (l : list A) :
  forall rows,
    collect body l = Ok rows ->
    forall row, In row rows <-> exists x, In x l /\ body x = Ok (Some row).
Proof.
  induction l as [|x l IH]; simpl; intros rows E row.
  - inversion E; subst. split; [contradiction | intros [? [[] _]]].
  - destruct (body x) as [o|e] eqn:Bx; [|discriminate].
    destruct (collect body l) as [rows'|e]; [|discriminate].
    inversion E; subst; clear E. specialize (IH rows' eq_refl row).
    destruct o as [b|].
    + simpl. rewrite IH. split.
      * intros [<-|[y [I Ey]]]; [exists x | exists y]; auto.
      * intros [y [[<-|I] Ey]].
        -- left. congruence.
        -- right. exists y. auto.
    + rewrite IH. split.
      * intros [y [I Ey]]. exists y. auto.
      * intros [y [[<-|I] Ey]]; [congruence | exists y; auto].
Qed.

Lemma collect_all_ok (body : A -> result (option B)) (l : list A) :
  forall rows,
    collect body l = Ok rows -> forall x, In x l -> exists o, body x = Ok o.
Proof.
  induction l as [|y l IH]; simpl; intros rows E x I.
  - contradiction.
  - destruct (body y) as [o|e] eqn:By; [|discriminate].
    destruct (collect body l) as [rows'|e]; [|discriminate].
    destruct I as [<-|I]; [exists o; exact By | eapply IH; eauto].
Qed.

Lemma collect_total (body : A -> result (option B)) (l : list A) :
  (forall x, In x l -> exists o, body x = Ok o) ->
  exists rows, collect body l = Ok rows.
Proof.
  induction l as [|y l IH]; simpl; intro H.
  - eexists; reflexivity.
  - destruct (H y (or_introl eq_refl)) as [o ->].
    destruct IH as [rows ->]; [intros x I; apply H; right; exact I|].
    eexists; reflexivity.
Qed.

End Collect.

(** ** Keys of the commerce tables *)

Lemma filter_in_keys {R} (key : R -> string) (values : list string)
  (table : list R) (k : string) :
  In k (map key (Scripts.filter_in key values table)) <->
  In k values /\ In k (map key table).
Proof.
  unfold Scripts.filter_in. rewrite !in_map_iff. split.
  - intros [x [E I]]. apply filter_In in I. destruct I as [I M].
    apply mem_string_In in M. subst. split; [exact M | exists x; auto].
  - intros [V [x [E I]]]. exists x. split; [exact E|].
    apply filter_In. split; [exact I | apply mem_string_In; congruence].
Qed.

Lemma dict_get_some {R} (key : R -> string) (rows : list R) (k : string) (x : R) :
  Scripts.dict_get key rows k = Some x -> In x rows /\ key x = k.
Proof.
  unfold Scripts.dict_get. intro H. apply find_some in H.
  destruct H as [I E]. apply in_rev in I. apply String.eqb_eq in E. auto.
Qed.

Lemma date_eqb_eq (a b : PyDate.date) : PyDate.date_eqb a b = true <-> a = b.
Proof.
  unfold PyDate.date_eqb. destruct a as [y m d], b as [y' m' d']. simpl.
  rewrite !andb_true_iff, !Z.eqb_eq. split.
  - intros [[-> ->] ->]. reflexivity.
  - intro E. inversion E. auto.
Qed.

Lemma order_key_eqb_eq (a b : Scripts.order_key) :
  Scripts.order_key_eqb a b = true <-> a = b.
Proof.
  destruct a as [[[[ea sa] qa] da] na], b as [[[[eb sb] qb] db] nb]. simpl.
  rewrite !andb_true_iff, !String.eqb_eq, Z.eqb_eq, date_eqb_eq. split.
  - intros [[[[-> ->] ->] ->] ->]. reflexivity.
  - intro E. inversion E. auto.
Qed.

Lemma order_key_known (k : Scripts.order_key) (l : list Scripts.order_key) :
  existsb (Scripts.order_key_eqb k) l = true <-> In k l.
Proof.
  rewrite existsb_exists. split.
  - intros [y [I E]]. apply order_key_eqb_eq in E. subst. exact I.
  - intro I. exists k. split; [exact I | apply order_key_eqb_eq; reflexivity].
Qed.

Lemma store_eta (db : Scripts.store) :
  Scripts.mkStore (Scripts.customers db) (Scripts.products db) (Scripts.orders db) = db.
Proof. destruct db; reflexivity. Qed.

(** ** The three loading steps of [cmd_import] *)

Lemma import_customers_run (dfc : list Scripts.customer_row) (db : Scripts.store) :
  Scripts.import_customers dfc db
  = (Scripts.mkStore (Scripts.customers (fst (Scripts.import_customers dfc db)))
       (Scripts.products db) (Scripts.orders db),
     Ok tt).
Proof. reflexivity. Qed.

Lemma import_customers_extends (dfc : list Scripts.customer_row) (db : Scripts.store) :
  exists added,
    Scripts.customers (fst (Scripts.import_customers dfc db))
    = (Scripts.customers db ++ added)%list
    /\ forall c, In c added ->
         ~ In (Scripts.c_email c) (map Scripts.c_email (Scripts.customers db))
         /\ exists r, In r dfc
              /\ c = Scripts.mkCustomer (Scripts.full_name r) (Scripts.email r)
                       (Scripts.phone r).
Proof.
  cbn. match goal with
       | |- context [bulk_create_ignore_conflicts _ _ ?t ?rows] =>
           destruct (bulk_create_extends Scripts.c_email rows t) as [added [E P]]
       end.
  exists added. split; [exact E|]. intros c I. apply P in I.
  destruct I as [I N]. split; [exact N|].
  apply filter_In in I. destruct I as [I _]. apply in_map_iff in I.
  destruct I as [r [<- I]]. exists r. auto.
Qed.

Lemma import_customers_keys (dfc : list Scripts.customer_row) (db : Scripts.store) :
  forall r, In r dfc ->
    In (Scripts.email r)
       (map Scripts.c_email (Scripts.customers (fst (Scripts.import_customers dfc db)))).
Proof.
  intros r I. cbn.
  set (existing := map Scripts.c_email
                     (Scripts.filter_in Scripts.c_email (map Scripts.email dfc)
                        (Scripts.customers db))).
  set (c := Scripts.mkCustomer (Scripts.full_name r) (Scripts.email r) (Scripts.phone r)).
  destruct (mem_string (Scripts.c_email c) existing) eqn:M.
  - apply mem_string_In in M. apply filter_in_keys in M. destruct M as [_ M].
    match goal with
    | |- context [bulk_create_ignore_conflicts _ _ ?t ?rows] =>
        destruct (bulk_create_extends Scripts.c_email rows t) as [added [E _]]
    end.
    rewrite E, map_app, in_app_iff. left. exact M.
  - change (Scripts.email r) with (Scripts.c_email c).
    apply bulk_create_keys. apply filter_In. split.
    + apply in_map_iff. exists r. auto.
    + apply negb_true_iff. exact M.
Qed.

Lemma import_customers_known (dfc : list Scripts.customer_row) (db : Scripts.store) :
  (forall r, In r dfc ->
     In (Scripts.email r) (map Scripts.c_email (Scripts.customers db))) ->
  Scripts.import_customers dfc db = (db, Ok tt).
Proof.
  intro K. rewrite import_customers_run. cbn.
  match goal with
  | |- context [filter ?f ?l] => assert (F : filter f l = [])
  end.
  { apply filter_none.
    intros c I. apply in_map_iff in I. destruct I as [r [<- I]]. simpl.
    apply negb_false_iff, mem_string_In, filter_in_keys. split.
    - apply in_map. exact I.
    - apply K. exact I. }
  rewrite F. simpl. rewrite store_eta. reflexivity.
Qed.

Lemma import_products_run (dfp : list Scripts.product_row) (db : Scripts.store) :
  Scripts.import_products dfp db
  = match collect
            (Scripts.product_of_row
               (map Scripts.p_sku
                  (Scripts.filter_in Scripts.p_sku (map Scripts.sku dfp)
                     (Scripts.products db))))
            dfp with
    | Ok prods =>
        (Scripts.mkStore (Scripts.customers db)
           (bulk_create_ignore_conflicts String.eqb Scripts.p_sku
              (Scripts.products db) prods)
           (Scripts.orders db),
         Ok tt)
    | Raise e => (db, Raise e)
    end.
Proof.
  unfold Scripts.import_products, bind, gets, lift, modify. simpl.
  destruct (collect _ dfp); reflexivity.
Qed.

Lemma product_of_row_sku (existing : list string) (r : Scripts.product_row)
  (p : Scripts.Product) :
  Scripts.product_of_row existing r = Ok (Some p) ->
  Scripts.p_sku p = PyStr.strip (Scripts.sku r)
  /\ ~ In (PyStr.strip (Scripts.sku r)) existing.
Proof.
  unfold Scripts.product_of_row.
  destruct (mem_string (PyStr.strip (Scripts.sku r)) existing) eqn:M; [discriminate|].
  destruct (PyDecimal.parse_unsigned (Scripts.price r)); [|discriminate].
  intro H. inversion H; subst. simpl. split; [reflexivity|].
  apply mem_string_false. exact M.
Qed.

Lemma import_products_extends (dfp : list Scripts.product_row) (db : Scripts.store) :
  Scripts.customers (fst (Scripts.import_products dfp db)) = Scripts.customers db
  /\ Scripts.orders (fst (Scripts.import_products dfp db)) = Scripts.orders db
  /\ exists added,
       Scripts.products (fst (Scripts.import_products dfp db))
       = (Scripts.products db ++ added)%list
       /\ forall p, In p added ->
            ~ In (Scripts.p_sku p) (map Scripts.p_sku (Scripts.products db)).
Proof.
  rewrite import_products_run. destruct (collect _ dfp) as [prods|e]; simpl.
  - repeat split.
    destruct (bulk_create_extends Scripts.p_sku prods (Scripts.products db))
      as [added [E P]].
    exists added. split; [exact E|]. intros p I. apply P in I. tauto.
  - repeat split. exists []. rewrite app_nil_r. split; [reflexivity | contradiction].
Qed.

Lemma import_products_raise (dfp : list Scripts.product_row) (db D : Scripts.store)
  (e : exn) :
  snd (Scripts.import_products dfp db) = Raise e ->
  Scripts.products D = Scripts.products db ->
  Scripts.import_products dfp D = (D, Raise e).
Proof.
  rewrite !import_products_run. intros H ->.
  destruct (collect _ dfp) as [prods|e']; simpl in H; [discriminate|].
  congruence.
Qed.

Lemma import_products_settled (dfp : list Scripts.product_row) (db D : Scripts.store) :
  snd (Scripts.import_products dfp db) = Ok tt ->
  Scripts.products D = Scripts.products (fst (Scripts.import_products dfp db)) ->
  Scripts.import_products dfp D = (D, Ok tt).
Proof.
  rewrite import_products_run.
  set (existing1 := map Scripts.p_sku
                      (Scripts.filter_in Scripts.p_sku (map Scripts.sku dfp)
                         (Scripts.products db))).
  destruct (collect (Scripts.product_of_row existing1) dfp) as [prods1|e] eqn:C1;
    simpl; [|discriminate].
  intros _ HD. rewrite import_products_run.
  set (existing2 := map Scripts.p_sku
                      (Scripts.filter_in Scripts.p_sku (map Scripts.sku dfp)
                         (Scripts.products D))).
  destruct (bulk_create_extends Scripts.p_sku prods1 (Scripts.products db))
    as [added [Eadd _]].
  assert (Sub : forall k, In k existing1 -> In k existing2).
  { intros k I. apply filter_in_keys in I. apply filter_in_keys.
    destruct I as [V I]. split; [exact V|].
    rewrite HD, Eadd, map_app, in_app_iff. left. exact I. }
  assert (Known : forall r, In r dfp ->
            ~ In (PyStr.strip (Scripts.sku r)) existing2 ->
            In (PyStr.strip (Scripts.sku r)) (map Scripts.p_sku (Scripts.products D))
            /\ exists d, PyDecimal.parse_unsigned (Scripts.price r) = Some d).
  { intros r I N.
    destruct (collect_all_ok _ _ _ C1 r I) as [o Eo].
    unfold Scripts.product_of_row in Eo.
    destruct (mem_string (PyStr.strip (Scripts.sku r)) existing1) eqn:M.
    - exfalso. apply N, Sub, mem_string_In. exact M.
    - destruct (PyDecimal.parse_unsigned (Scripts.price r)) as [d|] eqn:Pd;
        [|discriminate].
      split; [|exists d; reflexivity].
      rewrite HD.
      change (PyStr.strip (Scripts.sku r))
        with (Scripts.p_sku (Scripts.mkProduct (PyStr.strip (Scripts.sku r))
                               (PyStr.strip (Scripts.name r)) d (Scripts.is_active r))).
      apply bulk_create_keys.
      apply (collect_rows _ _ _ C1). exists r. split; [exact I|].
      unfold Scripts.product_of_row. rewrite M, Pd. reflexivity. }
  destruct (collect_total (Scripts.product_of_row existing2) dfp) as [prods2 C2].
  { intros r I. unfold Scripts.product_of_row.
    destruct (mem_string (PyStr.strip (Scripts.sku r)) existing2) eqn:M.
    - eexists; reflexivity.
    - destruct (Known r I) as [_ [d ->]]; [apply mem_string_false; exact M|].
      eexists; reflexivity. }
  rewrite C2.
  rewrite bulk_create_known; [rewrite store_eta; reflexivity|].
  intros p I. apply (collect_rows _ _ _ C2) in I. destruct I as [r [I Er]].
  apply product_of_row_sku in Er. destruct Er as [-> N].
  apply Known; assumption.
Qed.

Lemma drop_duplicates_from_incl {A K} (eqb : K -> K -> bool) (key : A -> K)
  (rows : list A) :
  forall seen x, In x (Scripts.drop_duplicates_from eqb key seen rows) -> In x rows.
Proof.
  induction rows as [|r rest IH]; simpl; intros seen x H.
  - contradiction.
  - destruct (existsb (eqb (key r)) seen).
    + right. eapply IH. exact H.
    + destruct H as [<-|H]; [left; reflexivity | right; eapply IH; exact H].
Qed.

Lemma import_orders_run (dfo : list Scripts.order_row) (db : Scripts.store) :
  Scripts.import_orders dfo db
  = let rows := Scripts.drop_duplicates Scripts.order_row_eqb (fun r => r) dfo in
    match collect
            (Scripts.order_of_row
               (Scripts.filter_in Scripts.c_email (map Scripts.customer_email rows)
                  (Scripts.customers db))
               (Scripts.filter_in Scripts.p_sku (map Scripts.product_sku rows)
                  (Scripts.products db)))
            rows with
    | Ok orders_new =>
        (Scripts.mkStore (Scripts.customers db) (Scripts.products db)
           (Scripts.orders db
            ++ filter
                 (fun o =>
                    negb (existsb (Scripts.order_key_eqb (Scripts.key_of_order o))
                            (map Scripts.key_of_order (Scripts.orders db))))
                 orders_new),
         Ok tt)
    | Raise e => (db, Raise e)
    end.
Proof.
  unfold Scripts.import_orders, bind, gets, lift, modify. simpl.
  destruct (collect _ _); reflexivity.
Qed.

Lemma order_of_row_parents (cust_map : list Scripts.Customer)
  (prod_map : list Scripts.Product) (r : Scripts.order_row) (o : Scripts.Order) :
  Scripts.order_of_row cust_map prod_map r = Ok (Some o) ->
  Scripts.o_customer o = Scripts.customer_email r
  /\ Scripts.o_product o = Scripts.product_sku r
  /\ In (Scripts.customer_email r) (map Scripts.c_email cust_map)
  /\ In (Scripts.product_sku r) (map Scripts.p_sku prod_map)
  /\ Scripts.o_quantity o = Scripts.quantity r
  /\ Scripts.o_note o = PyStr.strip (Scripts.note r)
  /\ PyDate.strptime PyDate.fmt_Ymd_dash (Scripts.order_date r)
     = Some (Scripts.o_order_date o).
Proof.
  unfold Scripts.order_of_row.
  destruct (Scripts.dict_get Scripts.c_email cust_map (Scripts.customer_email r))
    as [c|] eqn:Ec; [|discriminate].
  destruct (Scripts.dict_get Scripts.p_sku prod_map (Scripts.product_sku r))
    as [p|] eqn:Ep; [|discriminate].
  destruct (PyDate.strptime PyDate.fmt_Ymd_dash (Scripts.order_date r)) as [d|];
    [|discriminate].
  intro H. inversion H; subst; clear H. simpl.
  apply dict_get_some in Ec. apply dict_get_some in Ep.
  destruct Ec as [Ic Kc], Ep as [Ip Kp].
  repeat split; try assumption.
  - rewrite <- Kc. apply in_map. exact Ic.
  - rewrite <- Kp. apply in_map. exact Ip.
Qed.

Lemma import_orders_extends (dfo : list Scripts.order_row) (db : Scripts.store) :
  Scripts.customers (fst (Scripts.import_orders dfo db)) = Scripts.customers db
  /\ Scripts.products (fst (Scripts.import_orders dfo db)) = Scripts.products db
  /\ exists added,
       Scripts.orders (fst (Scripts.import_orders dfo db))
       = (Scripts.orders db ++ added)%list
       /\ forall o, In o added ->
            In (Scripts.o_customer o) (map Scripts.c_email (Scripts.customers db))
            /\ In (Scripts.o_product o) (map Scripts.p_sku (Scripts.products db))
            /\ ~ In (Scripts.key_of_order o)
                 (map Scripts.key_of_order (Scripts.orders db))
            /\ exists r, In r dfo
                 /\ Scripts.customer_email r = Scripts.o_customer o
                 /\ Scripts.product_sku r = Scripts.o_product o.
Proof.
  rewrite import_orders_run. cbv zeta.
  destruct (collect _ _) as [orders_new|e] eqn:C; simpl.
  - repeat split. eexists. split; [reflexivity|].
    intros o I. apply filter_In in I. destruct I as [I N].
    apply (collect_rows _ _ _ C) in I. destruct I as [r [Ir Er]].
    apply order_of_row_parents in Er.
    destruct Er as (Ec & Ep & Ic & Ip & _).
    apply filter_in_keys in Ic. apply filter_in_keys in Ip.
    rewrite Ec, Ep. repeat split; try tauto.
    + intro F. apply order_key_known in F. rewrite F in N. discriminate.
    + exists r. split; [|auto].
      eapply drop_duplicates_from_incl. exact Ir.
  - repeat split. exists []. rewrite app_nil_r. split; [reflexivity | contradiction].
Qed.

Lemma import_orders_raise (dfo : list Scripts.order_row) (db D : Scripts.store)
  (e : exn) :
  snd (Scripts.import_orders dfo db) = Raise e ->
  Scripts.customers D = Scripts.customers db ->
  Scripts.products D = Scripts.products db ->
  Scripts.import_orders dfo D = (D, Raise e).
Proof.
  rewrite !import_orders_run. cbv zeta. intros H -> ->.
  destruct (collect _ _) as [orders_new|e']; simpl in H; [discriminate|].
  congruence.
Qed.

Lemma import_orders_settled (dfo : list Scripts.order_row) (db D : Scripts.store) :
  snd (Scripts.import_orders dfo db) = Ok tt ->
  Scripts.customers D = Scripts.customers db ->
  Scripts.products D = Scripts.products db ->
  Scripts.orders D = Scripts.orders (fst (Scripts.import_orders dfo db)) ->
  Scripts.import_orders dfo D = (D, Ok tt).
Proof.
  rewrite !import_orders_run. cbv zeta. intros H Hc Hp. rewrite Hc, Hp.
  destruct (collect _ _) as [orders_new|e]; simpl in *; [|discriminate].
  intro Ho. rewrite filter_none.
  - rewrite app_nil_r, <- Hc, <- Hp, store_eta. reflexivity.
  - intros o I. apply negb_false_iff, order_key_known.
    rewrite Ho, map_app, in_app_iff.
    destruct (existsb (Scripts.order_key_eqb (Scripts.key_of_order o))
                (map Scripts.key_of_order (Scripts.orders db))) eqn:K.
    + left. apply order_key_known. exact K.
    + right. apply in_map. apply filter_In. split; [exact I|].
      rewrite K. reflexivity.
Qed.

(** ** [cmd_import] as a whole *)

Lemma cmd_import_run (fs : Scripts.files) (db : Scripts.store) :
  Scripts.cmd_import fs db
  = match Scripts.customers_formatted fs with
    | None => (db, Raise (FileNotFoundError "customers_formatted.csv"))
    | Some dfc =>
        let db1 := fst (Scripts.import_customers dfc db) in
        match Scripts.products_formatted fs with
        | None => (db1, Raise (FileNotFoundError "products_formatted.csv"))
        | Some dfp =>
            let db2 := fst (Scripts.import_products dfp db1) in
            match snd (Scripts.import_products dfp db1) with
            | Raise e => (db2, Raise e)
            | Ok _ =>
                match Scripts.orders_formatted fs with
                | None => (db2, Raise (FileNotFoundError "orders_formatted.csv"))
                | Some dfo => Scripts.import_orders dfo db2
                end
            end
        end
    end.
Proof.
  unfold Scripts.cmd_import, Scripts.read_csv, bind.
  destruct (Scripts.customers_formatted fs) as [dfc|]; [|reflexivity].
  rewrite import_customers_run. cbv zeta. cbn [fst snd].
  destruct (Scripts.products_formatted fs) as [dfp|]; [|reflexivity].
  destruct (Scripts.import_products dfp _) as [db2 [[]|e]]; cbn [fst snd];
    [|reflexivity].
  destruct (Scripts.orders_formatted fs) as [dfo|]; reflexivity.
Qed.

Lemma import_customers_again (dfc : list Scripts.customer_row)
  (db D : Scripts.store) :
  Scripts.customers D = Scripts.customers (fst (Scripts.import_customers dfc db)) ->
  Scripts.import_customers dfc D = (D, Ok tt).
Proof.
  intro H. apply import_customers_known. intros r I. rewrite H.
  apply import_customers_keys. exact I.
Qed.

Lemma cmd_import_settles (fs : Scripts.files) (db : Scripts.store) :
  Scripts.cmd_import fs (fst (Scripts.cmd_import fs db)) = Scripts.cmd_import fs db.
Proof.
  rewrite (cmd_import_run fs db).
  destruct (Scripts.customers_formatted fs) as [dfc|] eqn:Fc;
    [|cbn [fst]; rewrite cmd_import_run, Fc; reflexivity].
  cbv zeta. set (db1 := fst (Scripts.import_customers dfc db)).
  destruct (Scripts.products_formatted fs) as [dfp|] eqn:Fp.
  2:{ cbn [fst]. rewrite cmd_import_run, Fc, Fp. cbv zeta.
      rewrite (import_customers_again dfc db db1 eq_refl). reflexivity. }
  destruct (Scripts.import_products dfp db1) as [db2 r2] eqn:P. cbn [fst snd].
  destruct (import_products_extends dfp db1) as (Pc & Po & _).
  rewrite P in Pc, Po. cbn [fst] in Pc, Po.
  destruct r2 as [[]|e].
  2:{ cbn [fst].
      assert (E : db2 = db1).
      { pose proof (import_products_raise dfp db1 db1 e) as R.
        rewrite P in R. cbn [snd] in R. specialize (R eq_refl eq_refl).
        congruence. }
      subst db2. rewrite cmd_import_run, Fc, Fp. cbv zeta.
      rewrite (import_customers_again dfc db db1 eq_refl). cbn [fst].
      rewrite P. reflexivity. }
  assert (Settled : forall D, Scripts.products D = Scripts.products db2 ->
                              Scripts.import_products dfp D = (D, Ok tt)).
  { intros D HD. apply (import_products_settled dfp db1 D).
    - rewrite P. reflexivity.
    - rewrite P. exact HD. }
  destruct (Scripts.orders_formatted fs) as [dfo|] eqn:Fo.
  2:{ cbn [fst]. rewrite cmd_import_run, Fc, Fp, Fo. cbv zeta.
      rewrite (import_customers_again dfc db db2 Pc). cbn [fst].
      rewrite (Settled db2 eq_refl). reflexivity. }
  destruct (Scripts.import_orders dfo db2) as [db3 r3] eqn:O. cbn [fst].
  destruct (import_orders_extends dfo db2) as (Oc & Op & _).
  rewrite O in Oc, Op. cbn [fst] in Oc, Op.
  rewrite cmd_import_run, Fc, Fp, Fo. cbv zeta.
  rewrite (import_customers_again dfc db db3) by (rewrite Oc, Pc; reflexivity).
  cbn [fst].
  rewrite (Settled db3 Op). cbn [fst snd].
  destruct r3 as [[]|e].
  - apply (import_orders_settled dfo db2 db3); try assumption.
    + rewrite O. reflexivity.
    + rewrite O. reflexivity.
  - assert (E : db3 = db2).
    { pose proof (import_orders_raise dfo db2 db2 e) as R.
      rewrite O in R. cbn [snd] in R. specialize (R eq_refl eq_refl eq_refl).
      congruence. }
    subst db3. exact O.
Qed.

Lemma cmd_import_extends (fs : Scripts.files) (db : Scripts.store) :
  exists new_customers new_products new_orders,
    Scripts.customers (fst (Scripts.cmd_import fs db))
    = (Scripts.customers db ++ new_customers)%list
    /\ Scripts.products (fst (Scripts.cmd_import fs db))
       = (Scripts.products db ++ new_products)%list
    /\ Scripts.orders (fst (Scripts.cmd_import fs db))
       = (Scripts.orders db ++ new_orders)%list
    /\ (forall c, In c new_customers ->
          ~ In (Scripts.c_email c) (map Scripts.c_email (Scripts.customers db)))
    /\ (forall p, In p new_products ->
          ~ In (Scripts.p_sku p) (map Scripts.p_sku (Scripts.products db)))
    /\ (forall o, In o new_orders ->
          ~ In (Scripts.key_of_order o)
              (map Scripts.key_of_order (Scripts.orders db))
          /\ In (Scripts.o_customer o)
               (map Scripts.c_email (Scripts.customers (fst (Scripts.cmd_import fs db))))
          /\ In (Scripts.o_product o)
               (map Scripts.p_sku (Scripts.products (fst (Scripts.cmd_import fs db))))
          /\ exists r dfo,
               Scripts.orders_formatted fs = Some dfo /\ In r dfo
               /\ Scripts.customer_email r = Scripts.o_customer o
               /\ Scripts.product_sku r = Scripts.o_product o).
Proof.
  rewrite cmd_import_run.
  destruct (Scripts.customers_formatted fs) as [dfc|].
  2:{ exists [], [], []. rewrite !app_nil_r. repeat split; contradiction. }
  cbv zeta. set (db1 := fst (Scripts.import_customers dfc db)).
  destruct (import_customers_extends dfc db) as [nc [Ec Pc]]. fold db1 in Ec.
  assert (F1 : Scripts.products db1 = Scripts.products db
               /\ Scripts.orders db1 = Scripts.orders db) by (split; reflexivity).
  destruct F1 as [F1p F1o].
  destruct (Scripts.products_formatted fs) as [dfp|].
  2:{ exists nc, [], []. cbn [fst]. rewrite F1p, F1o, !app_nil_r.
      repeat split; try contradiction; try assumption.
      intros c I. apply Pc. exact I. }
  destruct (import_products_extends dfp db1) as (Kc & Ko & np & Ep & Pp).
  set (db2 := fst (Scripts.import_products dfp db1)) in *.
  assert (Stop : forall e : exn,
    exists new_customers new_products new_orders,
      Scripts.customers (fst (db2, @Raise unit e))
      = (Scripts.customers db ++ new_customers)%list
      /\ Scripts.products (fst (db2, @Raise unit e))
         = (Scripts.products db ++ new_products)%list
      /\ Scripts.orders (fst (db2, @Raise unit e))
         = (Scripts.orders db ++ new_orders)%list
      /\ (forall c, In c new_customers ->
            ~ In (Scripts.c_email c) (map Scripts.c_email (Scripts.customers db)))
      /\ (forall p, In p new_products ->
            ~ In (Scripts.p_sku p) (map Scripts.p_sku (Scripts.products db)))
      /\ (forall o, In o new_orders ->
            ~ In (Scripts.key_of_order o)
                (map Scripts.key_of_order (Scripts.orders db))
            /\ In (Scripts.o_customer o)
                 (map Scripts.c_email (Scripts.customers (fst (db2, @Raise unit e))))
            /\ In (Scripts.o_product o)
                 (map Scripts.p_sku (Scripts.products (fst (db2, @Raise unit e))))
            /\ exists r dfo,
                 Scripts.orders_formatted fs = Some dfo /\ In r dfo
                 /\ Scripts.customer_email r = Scripts.o_customer o
                 /\ Scripts.product_sku r = Scripts.o_product o)).
  { intro e. exists nc, np, []. cbn [fst].
    rewrite Kc, Ko, Ep, Ec, F1p, F1o, !app_nil_r.
    repeat split; try contradiction.
    - intros c I. apply Pc. exact I.
    - intros p I. rewrite <- F1p. apply Pp. exact I. }
  destruct (snd (Scripts.import_products dfp db1)) as [[]|e]; [|apply Stop].
  destruct (Scripts.orders_formatted fs) as [dfo|]; [|apply Stop].
  destruct (import_orders_extends dfo db2) as (Lc & Lp & no & Eo & Po).
  exists nc, np, no. rewrite Lc, Lp, Eo, Kc, Ko, Ep, Ec, F1p, F1o.
  repeat split.
  - intros c I. apply Pc. exact I.
  - intros p I. rewrite <- F1p. apply Pp. exact I.
  - rewrite <- F1o, <- Ko. apply Po. exact H.
  - rewrite <- Ec, <- Kc. apply Po. exact H.
  - rewrite <- F1p, <- Ep. apply Po. exact H.
  - destruct (Po o H) as (_ & _ & _ & r & I & E1 & E2).
    exists r, dfo. auto.
Qed.

(** ** [import_data] of the catalog family *)

Lemma reset_tables_run (db : Myapp.store) :
  Myapp.reset_tables db = (Myapp.empty_store, Ok tt).
Proof. reflexivity. Qed.

Lemma import_data_from_scratch (set_of : list Z -> list Z) (js : Myapp.json_files)
  (db : Myapp.store) users posts comments :
  Myapp.user_json js = Some users ->
  Myapp.posts_json js = Some posts ->
  Myapp.comments_json js = Some comments ->
  Myapp.import_data set_of js db = Myapp.import_data set_of js Myapp.empty_store.
Proof.
  intros Hu Hp Hc. unfold Myapp.import_data, Myapp._load_json, bind.
  rewrite Hu, Hp, Hc. reflexivity.
Qed.

Lemma import_data_missing (set_of : list Z -> list Z) (js : Myapp.json_files)
  (db : Myapp.store) :
  Myapp.user_json js = None \/ Myapp.posts_json js = None
  \/ Myapp.comments_json js = None ->
  fst (Myapp.import_data set_of js db) = db.
Proof.
  intro H. unfold Myapp.import_data, Myapp._load_json, bind.
  destruct (Myapp.user_json js); [|reflexivity].
  destruct (Myapp.posts_json js); [|reflexivity].
  destruct (Myapp.comments_json js); [|reflexivity].
  destruct H as [H|[H|H]]; discriminate.
Qed.

Lemma import_data_settles (set_of : list Z -> list Z) (js : Myapp.json_files)
  (db : Myapp.store) :
  Myapp.import_data set_of js (fst (Myapp.import_data set_of js db))
  = Myapp.import_data set_of js db.
Proof.
  destruct (Myapp.user_json js) as [users|] eqn:Hu;
    [|rewrite import_data_missing by auto; reflexivity].
  destruct (Myapp.posts_json js) as [posts|] eqn:Hp;
    [|rewrite import_data_missing by auto; reflexivity].
  destruct (Myapp.comments_json js) as [comments|] eqn:Hc;
    [|rewrite import_data_missing by auto; reflexivity].
  rewrite (import_data_from_scratch set_of js (fst _) users posts comments Hu Hp Hc).
  rewrite (import_data_from_scratch set_of js db users posts comments Hu Hp Hc).
  reflexivity.
Qed.

Lemma bulk_create_NoDup {R} (key : R -> string) (rows : list R) :
  forall table,
    NoDup (map key table) ->
    NoDup (map key (bulk_create_ignore_conflicts String.eqb key table rows)).
Proof.
  induction rows as [|r rest IH]; simpl; intros table D.
  - exact D.
  - fold (mem_string (key r) (map key table)).
    destruct (mem_string (key r) (map key table)) eqn:M; [apply IH; exact D|].
    apply IH. rewrite map_app. simpl.
    apply NoDup_app; [exact D | repeat constructor; intros [] |].
    intros k I [<-|[]]. apply mem_string_false in M. contradiction.
Qed.

Lemma bulk_create_NoDup_Z {R} (key : R -> Z) (rows : list R) :
  forall table,
    NoDup (map key table) ->
    NoDup (map key (bulk_create_ignore_conflicts Z.eqb key table rows)).
Proof.
  induction rows as [|r rest IH]; simpl; intros table D.
  - exact D.
  - fold (mem_Z (key r) (map key table)).
    destruct (mem_Z (key r) (map key table)) eqn:M; [apply IH; exact D|].
    apply IH. rewrite map_app. simpl.
    apply NoDup_app; [exact D | repeat constructor; intros [] |].
    intros k I [<-|[]]. apply mem_Z_In in I. congruence.
Qed.

Lemma cmd_import_unique_keys (fs : Scripts.files) (db : Scripts.store) :
  NoDup (map Scripts.c_email (Scripts.customers db)) ->
  NoDup (map Scripts.p_sku (Scripts.products db)) ->
  NoDup (map Scripts.c_email (Scripts.customers (fst (Scripts.cmd_import fs db))))
  /\ NoDup (map Scripts.p_sku (Scripts.products (fst (Scripts.cmd_import fs db)))).
Proof.
  intros Dc Dp. rewrite cmd_import_run.
  destruct (Scripts.customers_formatted fs) as [dfc|]; [|split; assumption].
  cbv zeta.
  assert (Dc1 : NoDup (map Scripts.c_email
                         (Scripts.customers (fst (Scripts.import_customers dfc db)))))
    by (cbn; apply bulk_create_NoDup; exact Dc).
  set (db1 := fst (Scripts.import_customers dfc db)) in *.
  assert (Dp1 : NoDup (map Scripts.p_sku (Scripts.products db1))) by exact Dp.
  destruct (Scripts.products_formatted fs) as [dfp|]; [|split; assumption].
  destruct (import_products_extends dfp db1) as (Kc & _).
  assert (Dp2 : NoDup (map Scripts.p_sku
                         (Scripts.products (fst (Scripts.import_products dfp db1))))).
  { rewrite import_products_run. destruct (collect _ dfp); cbn; [|exact Dp1].
    apply bulk_create_NoDup. exact Dp1. }
  set (db2 := fst (Scripts.import_products dfp db1)) in *.
  assert (Dc2 : NoDup (map Scripts.c_email (Scripts.customers db2)))
    by (rewrite Kc; exact Dc1).
  destruct (snd (Scripts.import_products dfp db1)) as [[]|e]; [|split; assumption].
  destruct (Scripts.orders_formatted fs) as [dfo|]; [|split; assumption].
  destruct (import_orders_extends dfo db2) as (Lc & Lp & _).
  rewrite Lc, Lp. split; assumption.
Qed.

Lemma import_data_unique_ids (set_of : list Z -> list Z) (js : Myapp.json_files)
  (db : Myapp.store) users posts comments :
  Myapp.user_json js = Some users ->
  Myapp.posts_json js = Some posts ->
  Myapp.comments_json js = Some comments ->
  let after := fst (Myapp.import_data set_of js db) in
  NoDup (map Myapp.a_id (Myapp.authors after))
  /\ NoDup (map Myapp.b_id (Myapp.books after))
  /\ NoDup (map Myapp.r_id (Myapp.reviews after)).
Proof.
  intros Hu Hp Hc. unfold Myapp.import_data, Myapp._load_json, bind.
  rewrite Hu, Hp, Hc. cbn -[bulk_create_ignore_conflicts Myapp._clean_books
                             Myapp._clean_reviews Myapp._clean_authors].
  destruct (Myapp._clean_books posts _) as [new_books|e];
    cbn -[bulk_create_ignore_conflicts Myapp._clean_books
          Myapp._clean_reviews Myapp._clean_authors].
  - repeat split; apply bulk_create_NoDup_Z; constructor.
  - repeat split; try constructor. apply bulk_create_NoDup_Z. constructor.
Qed.

(** ** Idempotence and preservation *)

(** C1. Running the import twice on the same input gives the store (and the
    outcome) of running it once: [cmd_import] finds every customer email,
    product SKU and order tuple of the file already stored and inserts
    nothing; [import_data] empties its tables before it loads, so its
    result does not depend on what was stored.  Emails and SKUs that were
    unique before a run are unique after it, and the identifiers of the
    catalog tables are unique after every run. *)
Theorem import_twice_is_import_once :
  (forall fs db,
      Scripts.cmd_import fs (fst (Scripts.cmd_import fs db))
      = Scripts.cmd_import fs db)
  /\ (forall set_of js db,
        Myapp.import_data set_of js (fst (Myapp.import_data set_of js db))
        = Myapp.import_data set_of js db)
  /\ (forall fs db,
        NoDup (map Scripts.c_email (Scripts.customers db)) ->
        NoDup (map Scripts.p_sku (Scripts.products db)) ->
        let once := fst (Scripts.cmd_import fs db) in
        let twice := fst (Scripts.cmd_import fs once) in
        twice = once
        /\ NoDup (map Scripts.c_email (Scripts.customers twice))
        /\ NoDup (map Scripts.p_sku (Scripts.products twice)))
  /\ (forall set_of js db users posts comments,
        Myapp.user_json js = Some users ->
        Myapp.posts_json js = Some posts ->
        Myapp.comments_json js = Some comments ->
        let once := fst (Myapp.import_data set_of js db) in
        let twice := fst (Myapp.import_data set_of js once) in
        twice = once
        /\ NoDup (map Myapp.a_id (Myapp.authors twice))
        /\ NoDup (map Myapp.b_id (Myapp.books twice))
        /\ NoDup (map Myapp.r_id (Myapp.reviews twice))).
Proof.
  split; [exact cmd_import_settles|].
  split; [exact import_data_settles|].
  split.
  - intros fs db Dc Dp once twice. subst twice once.
    rewrite cmd_import_settles. split; [reflexivity|].
    apply cmd_import_unique_keys; assumption.
  - intros set_of js db users posts comments Hu Hp Hc once twice.
    subst twice once. rewrite import_data_settles. split; [reflexivity|].
    eapply import_data_unique_ids; eassumption.
Qed.

(** A second import of the sample files into the store they produced. *)
Lemma import_twice_is_import_once_witness :
  fst (Scripts.cmd_import Examples.formatted_files
         (fst (Scripts.cmd_import Examples.formatted_files Scripts.empty_store)))
  = fst (Scripts.cmd_import Examples.formatted_files Scripts.empty_store).
Proof.
  destruct import_twice_is_import_once as (_ & _ & H & _).
  exact (proj1 (H Examples.formatted_files Scripts.empty_store
                  (NoDup_nil _) (NoDup_nil _))).
Defined.

(** The claim C2 as stated fails: [import_data] deletes a stored author that
    its input does not mention. *)
Lemma import_data_deletes_stored_rows :
  In Examples.old_author (Myapp.authors Examples.old_catalog)
  /\ snd (Myapp.import_data Examples.insertion_order Examples.empty_documents
            Examples.old_catalog) = Ok tt
  /\ ~ In Examples.old_author
         (Myapp.authors
            (fst (Myapp.import_data Examples.insertion_order
                    Examples.empty_documents Examples.old_catalog))).
Proof.
  split; [left; reflexivity|]. split; [reflexivity|]. intros [].
Qed.

(** C2, amended.  The commerce import [cmd_import] never deletes or
    overwrites a stored row: each table after the import is the table
    before it, followed by the rows inserted.  The catalog import
    [import_data] is destructive: when its three documents are present it
    first resets the three tables, so its result is that of an import into
    the empty store, whatever was stored.  When a document is missing it
    stops before the reset and the store is as it was. *)
Theorem cmd_import_keeps_rows_import_data_resets :
  (forall fs db,
      exists new_customers new_products new_orders,
        Scripts.customers (fst (Scripts.cmd_import fs db))
        = (Scripts.customers db ++ new_customers)%list
        /\ Scripts.products (fst (Scripts.cmd_import fs db))
           = (Scripts.products db ++ new_products)%list
        /\ Scripts.orders (fst (Scripts.cmd_import fs db))
           = (Scripts.orders db ++ new_orders)%list)
  /\ (forall db, Myapp.reset_tables db = (Myapp.empty_store, Ok tt))
  /\ (forall set_of js db users posts comments,
        Myapp.user_json js = Some users ->
        Myapp.posts_json js = Some posts ->
        Myapp.comments_json js = Some comments ->
        Myapp.import_data set_of js db
        = Myapp.import_data set_of js Myapp.empty_store)
  /\ (forall set_of js db,
        Myapp.user_json js = None \/ Myapp.posts_json js = None
        \/ Myapp.comments_json js = None ->
        fst (Myapp.import_data set_of js db) = db).
Proof.
  split; [|split; [|split]].
  - intros fs db.
    destruct (cmd_import_extends fs db) as (nc & np & no & Ec & Ep & Eo & _).
    exists nc, np, no. auto.
  - exact reset_tables_run.
  - exact import_data_from_scratch.
  - exact import_data_missing.
Qed.

(** On the sample documents the stored author does not influence the
    result. *)
Lemma cmd_import_keeps_rows_import_data_resets_witness :
  Myapp.import_data Examples.insertion_order Examples.documents Examples.old_catalog
  = Myapp.import_data Examples.insertion_order Examples.documents Myapp.empty_store.
Proof.
  destruct cmd_import_keeps_rows_import_data_resets as (_ & _ & H & _).
  eapply H; reflexivity.
Defined.

(** ** Customers end to end *)








(** ** Referential gaps *)

Lemma clean_books_rows (author_ids : list Z) (posts : list Myapp.post) :
  forall books,
    Myapp._clean_books posts author_ids = Ok books ->
    Forall2
      (fun p b =>
         Myapp.b_id b = Myapp.post_id p
         /\ Myapp.b_author_id b
            = (if Myapp.known_id (Myapp.userId p) author_ids
               then Myapp.userId p else hd_error author_ids)
         /\ Myapp._safe_price p = Ok (Myapp.b_price b))
      posts books.
Proof.
  unfold Myapp._clean_books.
  induction posts as [|p posts IH]; cbn [collect]; intros books E.
  - inversion E. constructor.
  - destruct (Myapp._safe_price p) as [price|e] eqn:P; cbn [and_then] in E;
      [|discriminate].
    destruct (collect _ posts) as [rest|e]; [|discriminate].
    inversion E; subst; clear E. constructor; [|apply IH; reflexivity].
    cbn. auto.
Qed.

Lemma clean_reviews_rows (book_ids : list Z) (comments : list Myapp.comment)
  (r : Myapp.Review) :
  In r (Myapp._clean_reviews comments book_ids) <->
  exists c, In c comments /\ Myapp.review_of_comment book_ids c = Some r.
Proof.
  induction comments as [|c comments IH]; simpl.
  - split; [contradiction | intros [? [[] _]]].
  - destruct (Myapp.review_of_comment book_ids c) as [r'|] eqn:E.
    + simpl. rewrite IH. split.
      * intros [<-|[c' [I E']]]; [exists c | exists c']; auto.
      * intros [c' [[<-|I] E']]; [left; congruence | right; exists c'; auto].
    + rewrite IH. split.
      * intros [c' [I E']]. exists c'. auto.
      * intros [c' [[<-|I] E']]; [congruence | exists c'; auto].
Qed.

Lemma review_of_comment_book (book_ids : list Z) (c : Myapp.comment)
  (r : Myapp.Review) :
  Myapp.review_of_comment book_ids c = Some r ->
  Myapp.postId c = Some (Myapp.r_book_id r)
  /\ In (Myapp.r_book_id r) book_ids
  /\ Myapp.r_id r = Myapp.comment_id c.
Proof.
  unfold Myapp.review_of_comment.
  destruct (Myapp.postId c) as [b|]; [|discriminate].
  destruct (mem_Z b book_ids) eqn:M; [|discriminate].
  intro H. inversion H; subst. simpl. apply mem_Z_In in M. auto.
Qed.

(** ** Floats: the operations of [_safe_price] never produce NaN *)

Lemma iter_pos_invariant {A} (P : A -> Prop) (f : A -> A) :
  (forall x, P x -> P (f x)) ->
  forall p x, P x -> P (iter_pos f p x).
Proof.
  intros Hf. induction p as [p IH|p IH|]; simpl; intros x Hx.
  - apply IH, IH, Hf, Hx.
  - apply IH, IH, Hx.
  - apply Hf, Hx.
Qed.

Lemma shr_1_nonneg (mrs : shr_record) : 0 <= shr_m mrs -> 0 <= shr_m (shr_1 mrs).
Proof.
  destruct mrs as [m r s]. simpl.
  destruct m as [|[p|p|]|p]; simpl; lia.
Qed.

Lemma shr_nonneg (mrs : shr_record) (e n : Z) :
  0 <= shr_m mrs -> 0 <= shr_m (fst (shr mrs e n)).
Proof.
  intro H. unfold shr. destruct n; simpl; try assumption.
  apply (iter_pos_invariant (fun x => 0 <= shr_m x)); [exact shr_1_nonneg | exact H].
Qed.

Lemma shr_record_of_loc_m (m : Z) (l : location) :
  shr_m (shr_record_of_loc m l) = m.
Proof. destruct l as [|[]]; reflexivity. Qed.

Lemma shr_fexp_nonneg (m e : Z) (l : location) :
  0 <= m -> 0 <= shr_m (fst (shr_fexp PyFloat.prec PyFloat.emax m e l)).
Proof.
  intro H. unfold shr_fexp. apply shr_nonneg. rewrite shr_record_of_loc_m. exact H.
Qed.

Lemma round_nearest_even_nonneg (m : Z) (l : location) :
  0 <= m -> 0 <= round_nearest_even m l.
Proof.
  intro H. unfold round_nearest_even.
  destruct l as [|[]]; try assumption; [destruct (Z.even m)|]; lia.
Qed.

Lemma binary_round_aux_not_nan (sx : bool) (mx ex : Z) (lx : location) :
  0 <= mx ->
  PyFloat.is_nan (binary_round_aux PyFloat.prec PyFloat.emax sx mx ex lx) = false.
Proof.
  intro H. unfold binary_round_aux.
  pose proof (shr_fexp_nonneg mx ex lx H) as H1.
  destruct (shr_fexp PyFloat.prec PyFloat.emax mx ex lx) as [mrs' e'].
  cbn [fst] in H1.
  pose proof (shr_fexp_nonneg _ e' loc_Exact
                (round_nearest_even_nonneg _ (loc_of_shr_record mrs') H1)) as H2.
  destruct (shr_fexp PyFloat.prec PyFloat.emax _ e' loc_Exact) as [mrs'' e''].
  cbn [fst] in H2.
  destruct (shr_m mrs'') as [|m|m]; [reflexivity| |lia].
  destruct (e'' <=? PyFloat.emax - PyFloat.prec); reflexivity.
Qed.

Lemma binary_normalize_not_nan (m e : Z) (szero : bool) :
  PyFloat.is_nan (binary_normalize PyFloat.prec PyFloat.emax m e szero) = false.
Proof.
  unfold binary_normalize, binary_round.
  destruct m as [|p|p]; [reflexivity| |];
    destruct (shl_align p e _) as [mz ez];
    apply binary_round_aux_not_nan; lia.
Qed.

Lemma of_int_finite (z : Z) : PyFloat.is_finite (PyFloat.of_int z) = true.
Proof. destruct z; reflexivity. Qed.

Lemma int_truediv_finite (a b : Z) (q : spec_float) :
  PyFloat.int_truediv a b = Ok q -> PyFloat.is_finite q = true.
Proof.
  unfold PyFloat.int_truediv. destruct (b =? 0) eqn:B; [discriminate|].
  apply Z.eqb_neq in B.
  assert (N : PyFloat.is_nan
                (SFdiv PyFloat.prec PyFloat.emax (PyFloat.of_int a) (PyFloat.of_int b))
              = false).
  { destruct a as [|pa|pa], b as [|pb|pb]; try contradiction; try reflexivity;
      unfold PyFloat.of_int, SFdiv;
      match goal with
      | |- context [SFdiv_core_binary ?p ?e ?m1 ?e1 ?m2 ?e2] =>
          pose proof (Z.div_pos (Z.shiftl m1 (e1 - e2 - Z.min
                         (fexp p e (Zdigits2 m1 + e1 - (Zdigits2 m2 + e2)))
                         (e1 - e2))) m2) as Hq;
          unfold SFdiv_core_binary
      end;
      match goal with
      | |- context [Z.div_eucl ?x ?y] =>
          pose proof (Z_div_mod x y ltac:(lia)) as Hd;
          destruct (Z.div_eucl x y) as [q' r'];
          apply binary_round_aux_not_nan;
          destruct Hd as [Hd Hr];
          assert (0 <= x) by
            (match goal with
             | |- 0 <= match ?s with _ => _ end =>
                 destruct s; [lia | apply Z.shiftl_nonneg; lia | lia]
             end);
          nia
      end. }
  destruct (SFdiv PyFloat.prec PyFloat.emax (PyFloat.of_int a) (PyFloat.of_int b));
    try discriminate; intro H; inversion H; subst; reflexivity.
Qed.

Lemma add_not_nan (x y : spec_float) :
  PyFloat.is_finite x = true -> PyFloat.is_finite y = true ->
  PyFloat.is_nan (PyFloat.add x y) = false.
Proof.
  unfold PyFloat.add.
  destruct x as [sx| | |sx mx ex], y as [sy| | |sy my ey]; try discriminate;
    intros _ _; simpl.
  - destruct sx, sy; reflexivity.
  - reflexivity.
  - reflexivity.
  - apply binary_normalize_not_nan.
Qed.

Lemma sub_not_nan (x y : spec_float) :
  PyFloat.is_nan x = false -> PyFloat.is_finite y = true ->
  PyFloat.is_nan (PyFloat.sub x y) = false.
Proof.
  unfold PyFloat.sub.
  destruct x as [sx|sx| |sx mx ex], y as [sy| | |sy my ey]; try discriminate;
    intros _ _; simpl; try reflexivity.
  - destruct sx, sy; reflexivity.
  - apply binary_normalize_not_nan.
Qed.

Lemma pow2_pos (k : Z) : 0 <= k -> 0 < 2 ^ k.
Proof. intro H. apply Z.pow_pos_nonneg; lia. Qed.

(** Where [max raw 5.0] keeps [raw], [raw] is plus infinity or a finite
    float of value at least 5. *)
Lemma max_five_cases (raw : spec_float) :
  PyFloat.is_nan raw = false ->
  PyFloat.max raw PyFloat.five = PyFloat.five
  \/ PyFloat.max raw PyFloat.five = S754_infinity false
  \/ exists m e,
       PyFloat.max raw PyFloat.five = S754_finite false m e
       /\ (0 <= e -> 5 <= Zpos m * 2 ^ e)
       /\ (e < 0 -> 5 * 2 ^ (- e) <= Zpos m).
Proof.
  intro N. unfold PyFloat.max.
  destruct (PyFloat.gt PyFloat.five raw) eqn:G; [left; reflexivity|].
  destruct raw as [s|s| |s m e]; try discriminate.
  - simpl in G. subst s. right. left. reflexivity.
  - right. right. exists m, e.
    unfold PyFloat.gt, PyFloat.five in G. cbn [PyFloat.exponent_of PyFloat.scaled] in G.
    apply Z.ltb_ge in G.
    set (e0 := Z.min (-50) e) in *.
    assert (H50 : 2 ^ 50 = 1125899906842624) by reflexivity.
    assert (P1 : 0 < 2 ^ (-50 - e0)) by (apply pow2_pos; lia).
    assert (P2 : 0 < 2 ^ (e - e0)) by (apply pow2_pos; lia).
    destruct s; [exfalso; nia|].
    split; [reflexivity|split].
    + intro He. assert (E0 : e0 = -50) by lia. rewrite E0 in *.
      replace (-50 - -50) with 0 in G by lia.
      replace (e - -50) with (e + 50) in G by lia.
      rewrite Z.pow_add_r in G by lia. rewrite H50 in G.
      change (2 ^ 0) with 1 in G. nia.
    + intro He. destruct (Z.le_gt_cases (-50) e) as [L|L].
      * assert (E0 : e0 = -50) by lia. rewrite E0 in *.
        replace (-50 - -50) with 0 in G by lia.
        change (2 ^ 0) with 1 in G.
        assert (S : 2 ^ 50 = 2 ^ (e - -50) * 2 ^ (- e))
          by (rewrite <- Z.pow_add_r by lia; f_equal; lia).
        assert (P3 : 0 < 2 ^ (- e)) by (apply pow2_pos; lia).
        rewrite H50 in S. nia.
      * assert (E0 : e0 = e) by lia. rewrite E0 in *.
        replace (e - e) with 0 in G by lia. change (2 ^ 0) with 1 in G.
        assert (S : 2 ^ (- e) = 2 ^ 50 * 2 ^ (-50 - e))
          by (rewrite <- Z.pow_add_r by lia; f_equal; lia).
        rewrite H50 in S. nia.
Qed.

Lemma round_half_up_nearest (n d : Z) :
  0 <= n -> 0 < d ->
  let c := PyDecimal.round_half_up n d in
  2 * c * d <= 2 * n + d < 2 * (c + 1) * d.
Proof.
  intros Hn Hd. unfold PyDecimal.round_half_up.
  pose proof (Z.div_mod n d ltac:(lia)) as E.
  pose proof (Z.mod_pos_bound n d Hd) as B.
  set (q := n / d) in *. set (r := n mod d) in *. clearbody q r.
  destruct (d <=? 2 * r) eqn:C; [apply Z.leb_le in C | apply Z.leb_gt in C]; nia.
Qed.

Lemma quantize_half_up_floor (m : positive) (e : Z) (price : PyFloat.pydecimal) :
  (0 <= e -> 5 <= Zpos m * 2 ^ e) ->
  (e < 0 -> 5 * 2 ^ (- e) <= Zpos m) ->
  PyFloat.quantize_half_up (S754_finite false m e) = Ok price ->
  exists c,
    price = PyFloat.Cents c
    /\ 500 <= c
    /\ (0 <= e -> c = 100 * Zpos m * 2 ^ e)
    /\ (e < 0 ->
        2 * c * 2 ^ (- e) <= 200 * Zpos m + 2 ^ (- e) < 2 * (c + 1) * 2 ^ (- e)).
Proof.
  intros Hpos Hneg. unfold PyFloat.quantize_half_up.
  destruct (0 <=? e) eqn:E; [apply Z.leb_le in E | apply Z.leb_gt in E].
  - destruct (_ <? PyDecimal.context_limit); [|discriminate].
    intro H. exists (100 * Zpos m * 2 ^ e). split; [congruence|].
    specialize (Hpos E). split; [rewrite <- Z.mul_assoc; lia|].
    split; [auto | lia].
  - destruct (_ <? PyDecimal.context_limit); [|discriminate].
    intro H. exists (PyDecimal.round_half_up (100 * Zpos m) (2 ^ (- e))).
    split; [congruence|].
    specialize (Hneg E).
    assert (P : 0 < 2 ^ (- e)) by (apply pow2_pos; lia).
    pose proof (round_half_up_nearest (100 * Zpos m) (2 ^ (- e)) ltac:(lia) P) as R.
    cbv zeta in R.
    set (c := PyDecimal.round_half_up (100 * Zpos m) (2 ^ (- e))) in *.
    clearbody c. set (d := 2 ^ (- e)) in *. clearbody d.
    split; [nia|]. split; [lia|]. intros _. lia.
Qed.

(** ** Floats: no overflow on counters that fit in 64 bits *)

Lemma digits2_pos_bounds (p : positive) :
  2 ^ (Zpos (digits2_pos p) - 1) <= Zpos p < 2 ^ Zpos (digits2_pos p).
Proof.
  induction p as [p IH|p IH|]; cbn [digits2_pos].
  - rewrite Pos2Z.inj_succ.
    replace (Z.succ (Zpos (digits2_pos p)) - 1) with (Z.succ (Zpos (digits2_pos p) - 1)) by lia.
    rewrite !Z.pow_succ_r by lia. lia.
  - rewrite Pos2Z.inj_succ.
    replace (Z.succ (Zpos (digits2_pos p)) - 1) with (Z.succ (Zpos (digits2_pos p) - 1)) by lia.
    rewrite !Z.pow_succ_r by lia. lia.
  - simpl. lia.
Qed.

Lemma digits_le (p : positive) (k : Z) :
  Zpos p < 2 ^ k -> Zpos (digits2_pos p) <= k.
Proof.
  intro H. destruct (Z.le_gt_cases (Zpos (digits2_pos p)) k) as [L|L]; [exact L|].
  exfalso. pose proof (digits2_pos_bounds p) as [B _].
  destruct (Z.le_gt_cases 0 k) as [K|K].
  - assert (2 ^ k <= 2 ^ (Zpos (digits2_pos p) - 1)) by (apply Z.pow_le_mono_r; lia).
    lia.
  - rewrite Z.pow_neg_r in H by lia. lia.
Qed.

Lemma iter_shr_1_div (p : positive) :
  forall mrs, 0 <= shr_m mrs ->
    0 <= shr_m (iter_pos shr_1 p mrs)
    /\ shr_m (iter_pos shr_1 p mrs) * 2 ^ Zpos p <= shr_m mrs.
Proof.
  assert (One : forall mrs, 0 <= shr_m mrs ->
            0 <= shr_m (shr_1 mrs) /\ shr_m (shr_1 mrs) * 2 <= shr_m mrs).
  { intros [m r s] H. simpl in *. destruct m as [|[q|q|]|q]; simpl; lia. }
  induction p as [p IH|p IH|]; cbn [iter_pos]; intros mrs H.
  - destruct (One mrs H) as [A1 A2].
    destruct (IH _ A1) as [B1 B2]. destruct (IH _ B1) as [C1 C2].
    split; [exact C1|].
    assert (E : 2 ^ Zpos p~1 = 2 ^ Zpos p * 2 ^ Zpos p * 2)
      by (replace (Zpos p~1) with (Zpos p + Zpos p + 1) by lia;
          rewrite !Z.pow_add_r by lia; reflexivity).
    rewrite E.
    assert (0 < 2 ^ Zpos p) by (apply Z.pow_pos_nonneg; lia). nia.
  - destruct (IH _ H) as [B1 B2]. destruct (IH _ B1) as [C1 C2].
    split; [exact C1|].
    assert (E : 2 ^ Zpos p~0 = 2 ^ Zpos p * 2 ^ Zpos p)
      by (rewrite <- Z.pow_add_r by lia; f_equal; lia).
    rewrite E.
    assert (0 < 2 ^ Zpos p) by (apply Z.pow_pos_nonneg; lia). nia.
  - destruct (One mrs H). split; [assumption|]. change (2 ^ 1) with 2. lia.
Qed.

Lemma Zdigits2_le (m k : Z) : 0 < m -> m < 2 ^ k -> Zdigits2 m <= k.
Proof.
  intros Hm H. destruct m as [|p|p]; try lia. simpl. apply digits_le. exact H.
Qed.

Lemma Zdigits2_gt (m : Z) : 0 < m -> m < 2 ^ Zdigits2 m.
Proof.
  intros Hm. destruct m as [|p|p]; try lia. simpl. apply digits2_pos_bounds.
Qed.

Lemma Zdigits2_nonneg (m : Z) : 0 <= Zdigits2 m.
Proof. destruct m; simpl; lia. Qed.

Lemma pow2_lt_cancel (a k n : Z) :
  0 <= n -> 0 < a -> a * 2 ^ n < 2 ^ k -> a < 2 ^ (k - n).
Proof.
  intros Hn Ha H.
  assert (Pn : 0 < 2 ^ n) by (apply Z.pow_pos_nonneg; lia).
  destruct (Z.le_gt_cases n k) as [L|L].
  - replace k with ((k - n) + n) in H by lia.
    rewrite Z.pow_add_r in H by lia. nia.
  - exfalso. assert (2 ^ k < 2 ^ n).
    { destruct (Z.le_gt_cases 0 k) as [K|K].
      - apply Z.pow_lt_mono_r; lia.
      - rewrite Z.pow_neg_r by lia. lia. }
    nia.
Qed.

Lemma shr_fexp_bounds (m e : Z) (l : location) (B : Z) :
  0 <= m -> Zdigits2 m + e <= B ->
  0 <= shr_m (fst (shr_fexp PyFloat.prec PyFloat.emax m e l))
  /\ snd (shr_fexp PyFloat.prec PyFloat.emax m e l)
     = Z.max e (fexp PyFloat.prec PyFloat.emax (Zdigits2 m + e))
  /\ (0 < shr_m (fst (shr_fexp PyFloat.prec PyFloat.emax m e l)) ->
      Zdigits2 (shr_m (fst (shr_fexp PyFloat.prec PyFloat.emax m e l)))
      + snd (shr_fexp PyFloat.prec PyFloat.emax m e l) <= B).
Proof.
  intros Hm HB. unfold shr_fexp, shr.
  set (f := fexp PyFloat.prec PyFloat.emax (Zdigits2 m + e)).
  destruct (f - e) as [|p|p] eqn:N; cbn [fst snd].
  - rewrite shr_record_of_loc_m. repeat split; [exact Hm | lia | intros _; exact HB].
  - destruct (iter_shr_1_div p (shr_record_of_loc m l)) as [A1 A2];
      [rewrite shr_record_of_loc_m; exact Hm|].
    rewrite shr_record_of_loc_m in A2.
    set (m1 := shr_m (iter_pos shr_1 p (shr_record_of_loc m l))) in *.
    repeat split; [exact A1 | lia |].
    intro Pos1.
    assert (Pm : 0 < m).
    { assert (0 < 2 ^ Zpos p) by (apply Z.pow_pos_nonneg; lia). nia. }
    pose proof (Zdigits2_gt m Pm) as G.
    assert (L : m1 < 2 ^ (Zdigits2 m - Zpos p))
      by (apply pow2_lt_cancel; lia).
    pose proof (Zdigits2_le m1 _ Pos1 L). lia.
  - rewrite shr_record_of_loc_m. repeat split; [exact Hm | lia | intros _; exact HB].
Qed.

Lemma fexp_value (k : Z) :
  fexp PyFloat.prec PyFloat.emax k = Z.max (k - 53) (-1074).
Proof. reflexivity. Qed.

Lemma round_nearest_even_bounds (m : Z) (l : location) :
  0 <= m -> m <= round_nearest_even m l <= m + 1.
Proof.
  intro H. unfold round_nearest_even.
  destruct l as [|[]]; try lia. destruct (Z.even m); lia.
Qed.

Lemma binary_round_aux_bounded (sx : bool) (mx ex : Z) (lx : location) (B : Z) :
  0 <= mx -> Zdigits2 mx + ex <= B -> ex <= 971 -> -1074 < B <= 1023 ->
  PyFloat.below_pow2 (B + 1) (binary_round_aux PyFloat.prec PyFloat.emax sx mx ex lx).
Proof.
  intros Hm Hmag Hex HB. unfold binary_round_aux.
  pose proof (Zdigits2_nonneg mx) as Dn.
  destruct (shr_fexp_bounds mx ex lx B Hm Hmag) as (A1 & A2 & A3).
  destruct (shr_fexp PyFloat.prec PyFloat.emax mx ex lx) as [mrs' e'].
  cbn [fst snd] in A1, A2, A3. rewrite fexp_value in A2.
  set (m1 := shr_m mrs') in *.
  pose proof (round_nearest_even_bounds m1 (loc_of_shr_record mrs') A1) as R.
  set (mr := round_nearest_even m1 (loc_of_shr_record mrs')) in *.
  clearbody mr. clearbody m1.
  assert (Hr : Zdigits2 mr + e' <= B + 1).
  { destruct (Z.eq_dec mr 0) as [->|Nz]; [change (Zdigits2 0) with 0; lia|].
    destruct (Z.eq_dec m1 0) as [Z1|Z1].
    - assert (E1 : mr = 1) by lia. rewrite E1. change (Zdigits2 1) with 1. lia.
    - assert (P1 : 0 < m1) by lia. specialize (A3 P1).
      pose proof (Zdigits2_gt m1 P1) as G.
      pose proof (Zdigits2_nonneg m1) as D1.
      assert (L : mr < 2 ^ (Zdigits2 m1 + 1)).
      { rewrite Z.pow_add_r by lia. change (2 ^ 1) with 2. lia. }
      pose proof (Zdigits2_le mr _ ltac:(lia) L). lia. }
  destruct (shr_fexp_bounds mr e' loc_Exact (B + 1) ltac:(lia) Hr) as (C1 & C2 & C3).
  destruct (shr_fexp PyFloat.prec PyFloat.emax mr e' loc_Exact) as [mrs'' e''].
  cbn [fst snd] in C1, C2, C3. rewrite fexp_value in C2.
  destruct (shr_m mrs'') as [|m|m] eqn:M; [exact I| |lia].
  assert (E : e'' <= 971) by lia.
  change (PyFloat.emax - PyFloat.prec) with 971.
  apply Z.leb_le in E. rewrite E. apply Z.leb_le in E.
  simpl. split; [|exact E]. specialize (C3 ltac:(lia)). simpl in C3. exact C3.
Qed.

Lemma below_pow2_weaken (B B' : Z) (x : spec_float) :
  B <= B' -> PyFloat.below_pow2 B x -> PyFloat.below_pow2 B' x.
Proof. intro L. destruct x; simpl; try tauto. lia. Qed.

Lemma iter_xO_pow2 (m d : positive) :
  Zpos (Pos.iter xO m d) = Zpos m * 2 ^ Zpos d.
Proof.
  induction d as [|d IH] using Pos.peano_ind.
  - simpl Pos.iter. change (2 ^ 1) with 2. lia.
  - rewrite Pos.iter_succ, Pos2Z.inj_xO, IH, Pos2Z.inj_succ, Z.pow_succ_r by lia.
    lia.
Qed.

Lemma shl_align_fst (mx : positive) (ex ez : Z) :
  ez <= ex ->
  Zpos (fst (shl_align mx ex ez)) = Zpos mx * 2 ^ (ex - ez)
  /\ snd (shl_align mx ex ez) = ez.
Proof.
  intro L. unfold shl_align. destruct (ez - ex) as [|d|d] eqn:D; cbn [fst snd].
  - replace (ex - ez) with 0 by lia. change (2 ^ 0) with 1. lia.
  - lia.
  - rewrite iter_xO_pow2. replace (ex - ez) with (Zpos d) by lia. lia.
Qed.

Lemma shl_align_general (mx : positive) (ex ex' : Z) :
  Zpos (fst (shl_align mx ex ex'))
  = Zpos mx * 2 ^ (ex - snd (shl_align mx ex ex'))
  /\ snd (shl_align mx ex ex') = Z.min ex ex'.
Proof.
  unfold shl_align. destruct (ex' - ex) as [|d|d] eqn:D; cbn [fst snd].
  - replace (ex - ex) with 0 by lia. change (2 ^ 0) with 1. lia.
  - replace (ex - ex) with 0 by lia. change (2 ^ 0) with 1. lia.
  - rewrite iter_xO_pow2. replace (ex - ex') with (Zpos d) by lia. lia.
Qed.

Lemma scaled_digits (m : positive) (k B e : Z) :
  0 <= k -> Zpos (digits2_pos m) + e <= B ->
  Zdigits2 (Zpos m * 2 ^ k) + (e - k) <= B.
Proof.
  intros Hk H.
  pose proof (digits2_pos_bounds m) as [_ G].
  assert (Pk : 0 < 2 ^ k) by (apply Z.pow_pos_nonneg; lia).
  assert (L : Zpos m * 2 ^ k < 2 ^ (Zpos (digits2_pos m) + k)).
  { rewrite Z.pow_add_r by lia. nia. }
  assert (P : 0 < Zpos m * 2 ^ k) by (apply Z.mul_pos_pos; lia).
  pose proof (Zdigits2_le _ _ P L). lia.
Qed.

Lemma binary_round_bounded (sx : bool) (mx : positive) (ex B : Z) :
  Zpos (digits2_pos mx) + ex <= B -> ex <= 971 -> -1074 < B <= 1023 ->
  PyFloat.below_pow2 (B + 1) (binary_round PyFloat.prec PyFloat.emax sx mx ex).
Proof.
  intros Hmag Hex HB. unfold binary_round.
  destruct (shl_align_general mx ex
              (fexp PyFloat.prec PyFloat.emax (Zpos (digits2_pos mx) + ex)))
    as [E1 E2].
  destruct (shl_align mx ex _) as [mz ez]. cbn [fst snd] in E1, E2.
  apply binary_round_aux_bounded; try lia.
  rewrite E1. replace ez with (ex - (ex - ez)) at 2 by lia.
  apply scaled_digits; lia.
Qed.

Lemma binary_normalize_bounded (m e B : Z) (szero : bool) :
  Zdigits2 m + e <= B -> e <= 971 -> -1074 < B <= 1023 ->
  PyFloat.below_pow2 (B + 1) (binary_normalize PyFloat.prec PyFloat.emax m e szero).
Proof.
  intros Hmag He HB. unfold binary_normalize.
  destruct m as [|p|p]; [exact I| |]; apply binary_round_bounded; assumption.
Qed.

Lemma sfdiv_int_bounded (sa sb : bool) (pa pb : positive) :
  Zpos pa < 2 ^ 63 ->
  PyFloat.below_pow2 64
    (SFdiv PyFloat.prec PyFloat.emax (S754_finite sa pa 0) (S754_finite sb pb 0)).
Proof.
  intro Ha. unfold SFdiv, SFdiv_core_binary.
  pose proof (digits_le pa 63 Ha) as D1.
  set (d1 := Zdigits2 (Zpos pa)) in *. set (d2 := Zdigits2 (Zpos pb)) in *.
  assert (Dd1 : d1 = Zpos (digits2_pos pa)) by reflexivity.
  assert (Dd2 : 0 < d2) by (unfold d2; simpl; lia).
  set (e' := Z.min (fexp PyFloat.prec PyFloat.emax (d1 + 0 - (d2 + 0))) (0 - 0)).
  assert (He' : -1074 <= e' <= 0) by (unfold e'; rewrite fexp_value; lia).
  set (m' := match 0 - 0 - e' with
             | 0 => Zpos pa
             | Zpos _ => Z.shiftl (Zpos pa) (0 - 0 - e')
             | Zneg _ => 0
             end).
  assert (Hm' : m' = Zpos pa * 2 ^ (- e')).
  { unfold m'. destruct (0 - 0 - e') as [|s|s] eqn:S.
    - replace (- e') with 0 by lia. change (2 ^ 0) with 1. lia.
    - rewrite Z.shiftl_mul_pow2 by lia. f_equal. f_equal. lia.
    - lia. }
  assert (P : 0 < 2 ^ (- e')) by (apply Z.pow_pos_nonneg; lia).
  pose proof (Z_div_mod m' (Zpos pb) ltac:(lia)) as Hd.
  destruct (Z.div_eucl m' (Zpos pb)) as [q r]. destruct Hd as [Hq Hr].
  assert (Q0 : 0 <= q) by nia.
  assert (Qm : q <= m') by nia.
  apply (binary_round_aux_bounded _ q e' _ 63); try lia.
  destruct (Z.eq_dec q 0) as [->|Nq]; [change (Zdigits2 0) with 0; lia|].
  pose proof (scaled_digits pa (- e') 63 0 ltac:(lia) ltac:(lia)) as S.
  rewrite <- Hm' in S.
  pose proof (Zdigits2_gt m' ltac:(lia)) as G.
  pose proof (Zdigits2_le q (Zdigits2 m') ltac:(lia) ltac:(lia)). lia.
Qed.

Lemma int_truediv_total (a b : Z) :
  b <> 0 -> Z.abs a < 2 ^ 63 ->
  exists q, PyFloat.int_truediv a b = Ok q /\ PyFloat.below_pow2 64 q.
Proof.
  intros Hb Ha. unfold PyFloat.int_truediv.
  apply Z.eqb_neq in Hb. rewrite Hb. apply Z.eqb_neq in Hb.
  assert (B : PyFloat.below_pow2 64
                (SFdiv PyFloat.prec PyFloat.emax (PyFloat.of_int a) (PyFloat.of_int b))).
  { destruct a as [|pa|pa], b as [|pb|pb]; try contradiction; try exact I;
      apply sfdiv_int_bounded; simpl in Ha; lia. }
  destruct (SFdiv PyFloat.prec PyFloat.emax (PyFloat.of_int a) (PyFloat.of_int b));
    try contradiction; eexists; split; try reflexivity; exact B.
Qed.

Lemma aligned_sum_bounded (sx sy : bool) (mx my : positive) (ex ey B : Z)
  (combine : Z -> Z -> Z) :
  (forall a b, Z.abs (combine a b) <= Z.abs a + Z.abs b) ->
  Zpos (digits2_pos mx) + ex <= B -> ex <= 971 ->
  Zpos (digits2_pos my) + ey <= B -> ey <= 971 ->
  -1074 < B <= 1022 ->
  PyFloat.below_pow2 (B + 2)
    (binary_normalize PyFloat.prec PyFloat.emax
       (combine (cond_Zopp sx (Zpos (fst (shl_align mx ex (Z.min ex ey)))))
                (cond_Zopp sy (Zpos (fst (shl_align my ey (Z.min ex ey))))))
       (Z.min ex ey) false).
Proof.
  intros Hc Hx Hex Hy Hey HB.
  set (ez := Z.min ex ey).
  destruct (shl_align_fst mx ex ez ltac:(lia)) as [Ex _].
  destruct (shl_align_fst my ey ez ltac:(lia)) as [Ey _].
  set (a := Zpos (fst (shl_align mx ex ez))) in *.
  set (b := Zpos (fst (shl_align my ey ez))) in *.
  pose proof (scaled_digits mx (ex - ez) B ex ltac:(lia) Hx) as Sx.
  pose proof (scaled_digits my (ey - ez) B ey ltac:(lia) Hy) as Sy.
  rewrite <- Ex in Sx. rewrite <- Ey in Sy.
  assert (Pa : 0 < a) by (unfold a; lia). assert (Pb : 0 < b) by (unfold b; lia).
  pose proof (Zdigits2_gt a Pa) as Ga. pose proof (Zdigits2_gt b Pb) as Gb.
  clearbody a b.
  assert (La : a < 2 ^ (B - ez)).
  { eapply Z.lt_le_trans; [exact Ga|]. apply Z.pow_le_mono_r; lia. }
  assert (Lb : b < 2 ^ (B - ez)).
  { eapply Z.lt_le_trans; [exact Gb|]. apply Z.pow_le_mono_r; lia. }
  set (s := combine (cond_Zopp sx a) (cond_Zopp sy b)).
  assert (Hs : Z.abs s < 2 ^ (B + 1 - ez)).
  { pose proof (Hc (cond_Zopp sx a) (cond_Zopp sy b)) as H. fold s in H.
    assert (Z.abs (cond_Zopp sx a) = a) by (destruct sx; simpl; lia).
    assert (Z.abs (cond_Zopp sy b) = b) by (destruct sy; simpl; lia).
    replace (B + 1 - ez) with (Z.succ (B - ez)) by lia.
    pose proof (Zdigits2_nonneg a).
    rewrite Z.pow_succ_r by lia. lia. }
  replace (B + 2) with (B + 1 + 1) by lia.
  apply binary_normalize_bounded; try lia.
  destruct (Z.eq_dec s 0) as [->|Ns]; [change (Zdigits2 0) with 0; lia|].
  assert (D : Zdigits2 s = Zdigits2 (Z.abs s)) by (destruct s; reflexivity).
  rewrite D. pose proof (Zdigits2_le (Z.abs s) _ ltac:(lia) Hs). lia.
Qed.

Lemma add_bounded (x y : spec_float) (B : Z) :
  PyFloat.below_pow2 B x -> PyFloat.below_pow2 B y -> -1074 < B <= 1022 ->
  PyFloat.below_pow2 (B + 2) (PyFloat.add x y).
Proof.
  intros Hx Hy HB. unfold PyFloat.add.
  destruct x as [sx| | |sx mx ex], y as [sy| | |sy my ey]; try contradiction;
    cbn [SFadd].
  - destruct sx, sy; exact I.
  - eapply below_pow2_weaken; [|exact Hy]. lia.
  - eapply below_pow2_weaken; [|exact Hx]. lia.
  - destruct Hx, Hy. change (PyFloat.emax - PyFloat.prec) with 971 in *.
    apply (aligned_sum_bounded sx sy mx my ex ey B Z.add); try lia.
Qed.

Lemma sub_bounded (x y : spec_float) (B : Z) :
  PyFloat.below_pow2 B x -> PyFloat.below_pow2 B y -> -1074 < B <= 1022 ->
  PyFloat.below_pow2 (B + 2) (PyFloat.sub x y).
Proof.
  intros Hx Hy HB. unfold PyFloat.sub.
  destruct x as [sx| | |sx mx ex], y as [sy| | |sy my ey]; try contradiction;
    cbn [SFsub].
  - destruct sx, sy; exact I.
  - simpl in *. change (PyFloat.emax - PyFloat.prec) with 971 in *. lia.
  - eapply below_pow2_weaken; [|exact Hx]. lia.
  - destruct Hx, Hy. change (PyFloat.emax - PyFloat.prec) with 971 in *.
    apply (aligned_sum_bounded sx sy mx my ex ey B Z.sub); try lia.
Qed.

Lemma max_five_bounded (raw : spec_float) (B : Z) :
  3 <= B -> PyFloat.below_pow2 B raw -> PyFloat.below_pow2 B (PyFloat.max raw PyFloat.five).
Proof.
  intros HB H. unfold PyFloat.max.
  destruct (PyFloat.gt PyFloat.five raw); [|exact H].
  simpl. change (PyFloat.emax - PyFloat.prec) with 971. lia.
Qed.

Lemma quantize_half_up_total (x : spec_float) :
  PyFloat.below_pow2 68 x -> exists c, PyFloat.quantize_half_up x = Ok (PyFloat.Cents c).
Proof.
  destruct x as [s| | |s m e]; cbn [PyFloat.below_pow2 PyFloat.quantize_half_up];
    try contradiction.
  - intros _. eexists; reflexivity.
  - intros [H _].
    pose proof (digits2_pos_bounds m) as [_ G].
    set (dm := Zpos (digits2_pos m)) in *.
    assert (Hdm : 0 < dm) by (unfold dm; lia). clearbody dm.
    assert (L : Zpos m < 2 ^ (68 - e)).
    { eapply Z.lt_le_trans; [exact G|]. apply Z.pow_le_mono_r; lia. }
    assert (K : 100 * 2 ^ 68 + 1 < PyDecimal.context_limit) by reflexivity.
    destruct (0 <=? e) eqn:E; [apply Z.leb_le in E | apply Z.leb_gt in E].
    + assert (C : 100 * Zpos m * 2 ^ e < PyDecimal.context_limit).
      { assert (P : 0 < 2 ^ e) by (apply Z.pow_pos_nonneg; lia).
        assert (S : 2 ^ 68 = 2 ^ (68 - e) * 2 ^ e)
          by (rewrite <- Z.pow_add_r by lia; f_equal; lia).
        set (t := 2 ^ 68) in *. clearbody t.
        set (u := 2 ^ (68 - e)) in *. clearbody u.
        set (v := 2 ^ e) in *. clearbody v.
        assert (Zpos m * v < u * v) by (apply Z.mul_lt_mono_pos_r; lia).
        lia. }
      apply Z.ltb_lt in C. rewrite C. eexists; reflexivity.
    + assert (C : PyDecimal.round_half_up (100 * Zpos m) (2 ^ (- e))
                  < PyDecimal.context_limit).
      { assert (P : 0 < 2 ^ (- e)) by (apply Z.pow_pos_nonneg; lia).
        assert (S : 2 ^ (68 - e) = 2 ^ 68 * 2 ^ (- e))
          by (rewrite <- Z.pow_add_r by lia; f_equal; lia).
        pose proof (round_half_up_nearest (100 * Zpos m) (2 ^ (- e)) ltac:(lia) P) as R.
        cbv zeta in R.
        set (c := PyDecimal.round_half_up (100 * Zpos m) (2 ^ (- e))) in *.
        clearbody c.
        set (t := 2 ^ 68) in *. clearbody t.
        set (u := 2 ^ (68 - e)) in *. clearbody u.
        set (v := 2 ^ (- e)) in *. clearbody v.
        assert (Zpos m * v < u * v) by (apply Z.mul_lt_mono_pos_r; lia).
        assert (Q : 2 * c * v <= 2 * (100 * t) * v + v) by lia.
        assert (c <= 100 * t) by nia.
        lia. }
      apply Z.ltb_lt in C. rewrite C. eexists; reflexivity.
Qed.

Lemma safe_price_total (p : Myapp.post) :
  Myapp.counters_in_range p ->
  exists c, Myapp._safe_price p = Ok (PyFloat.Cents c).
Proof.
  intros (Hv & Hl & Hd). unfold Myapp._safe_price.
  destruct (int_truediv_total _ 120 ltac:(lia) Hv) as [v [-> Bv]].
  destruct (int_truediv_total _ 15 ltac:(lia) Hl) as [l [-> Bl]].
  destruct (int_truediv_total _ 25 ltac:(lia) Hd) as [d [-> Bd]].
  cbn [and_then].
  apply quantize_half_up_total.
  apply max_five_bounded; [lia|].
  change 68 with (66 + 2). apply sub_bounded; [| |lia].
  - change 66 with (64 + 2). apply add_bounded; [assumption|assumption|lia].
  - eapply below_pow2_weaken; [|exact Bd]. lia.
Qed.

(** ** The derived book price *)

Lemma clean_books_total (posts : list Myapp.post) (author_ids : list Z) :
  Forall Myapp.counters_in_range posts ->
  exists books, Myapp._clean_books posts author_ids = Ok books.
Proof.
  intro H. unfold Myapp._clean_books. apply collect_total.
  intros p I. rewrite Forall_forall in H.
  destruct (safe_price_total p (H p I)) as [c ->]. eexists. reflexivity.
Qed.

Lemma safe_price_rounding (p : Myapp.post) (price : PyFloat.pydecimal) :
  Myapp._safe_price p = Ok price ->
  exists v l d m e c,
    PyFloat.int_truediv (Myapp.or_zero (Myapp.views p)) 120 = Ok v
    /\ PyFloat.int_truediv
         (Myapp.or_zero
            (Myapp.likes
               (match Myapp.reactions p with
                | Some r => r
                | None => Myapp.mkReactions None None
                end))) 15 = Ok l
    /\ PyFloat.int_truediv
         (Myapp.or_zero
            (Myapp.dislikes
               (match Myapp.reactions p with
                | Some r => r
                | None => Myapp.mkReactions None None
                end))) 25 = Ok d
    /\ PyFloat.max (PyFloat.sub (PyFloat.add v l) d) PyFloat.five
       = S754_finite false m e
    /\ price = PyFloat.Cents c
    /\ 500 <= c
    /\ (0 <= e -> c = 100 * Zpos m * 2 ^ e)
    /\ (e < 0 ->
        2 * c * 2 ^ (- e) <= 200 * Zpos m + 2 ^ (- e) < 2 * (c + 1) * 2 ^ (- e)).
Proof.
  unfold Myapp._safe_price.
  destruct (PyFloat.int_truediv _ 120) as [v|] eqn:Ev; [|discriminate].
  destruct (PyFloat.int_truediv _ 15) as [l|] eqn:El; [|discriminate].
  destruct (PyFloat.int_truediv _ 25) as [d|] eqn:Ed; [|discriminate].
  cbn [and_then]. intro Q.
  pose proof (int_truediv_finite _ _ _ Ev) as Fv.
  pose proof (int_truediv_finite _ _ _ El) as Fl.
  pose proof (int_truediv_finite _ _ _ Ed) as Fd.
  pose proof (sub_not_nan _ d (add_not_nan v l Fv Fl) Fd) as N.
  exists v, l, d.
  destruct (max_five_cases _ N) as [M|[M|(m & e & M & Hpos & Hneg)]].
  - rewrite M in Q |- *. unfold PyFloat.five in Q |- *.
    assert (Hpos : 0 <= -50 -> 5 <= 5629499534213120 * 2 ^ (-50)) by lia.
    assert (Hneg : -50 < 0 -> 5 * 2 ^ (- -50) <= 5629499534213120)
      by (intros _; vm_compute; discriminate).
    destruct (quantize_half_up_floor _ _ _ Hpos Hneg Q) as (c & Hc).
    eexists _, _, c. exact (conj eq_refl (conj eq_refl (conj eq_refl (conj eq_refl Hc)))).
  - rewrite M in Q. discriminate Q.
  - rewrite M in Q |- *.
    destruct (quantize_half_up_floor m e price Hpos Hneg Q) as (c & Hc).
    exists m, e, c. exact (conj eq_refl (conj eq_refl (conj eq_refl (conj eq_refl Hc)))).
Qed.

(** The claim C6 as stated fails: with 621 views the exact value is the tie
    5.175, which rounds half-up to 5.18, but the quotient computed in
    binary64 lies just below the tie and the code returns 5.17. *)
Lemma safe_price_is_not_the_exact_formula :
  Myapp._safe_price (Examples.post_with 621 0 0) = Ok (PyFloat.Cents 517)
  /\ Spec.book_price_cents 621 0 0 = 518
  /\ Myapp._safe_price (Examples.post_with 621 0 0)
     <> Ok (PyFloat.Cents (Spec.book_price_cents 621 0 0))
  /\ PyFloat.int_truediv 621 120 = Ok (S754_finite false 5826532017910579 (-50))
  /\ 5826532017910579 * 40 < 207 * 2 ^ 50.
Proof.
  repeat split. vm_compute. discriminate.
Qed.

(** C6, amended.  The derived book price is the binary64 value of
    [max(views/120 + likes/15 - dislikes/25, 5.0)], each operation rounded
    to the nearest float, rounded half-up to two decimals.  It is never
    below 5.00, it is exactly 5.00 when the three counters are zero or
    absent, and it is defined whenever the counters fit in 64 bits.
    (Because a quotient can fall just below a tie of the exact value, the
    result can be one hundredth under the half-up rounding of the exact
    rational: 621 views give 5.17.) *)
Theorem safe_price_rounds_the_float (p : Myapp.post) :
  (forall price,
      Myapp._safe_price p = Ok price ->
      exists v l d m e c,
        PyFloat.int_truediv (Myapp.or_zero (Myapp.views p)) 120 = Ok v
        /\ PyFloat.int_truediv
             (Myapp.or_zero
                (Myapp.likes
                   (match Myapp.reactions p with
                    | Some r => r
                    | None => Myapp.mkReactions None None
                    end))) 15 = Ok l
        /\ PyFloat.int_truediv
             (Myapp.or_zero
                (Myapp.dislikes
                   (match Myapp.reactions p with
                    | Some r => r
                    | None => Myapp.mkReactions None None
                    end))) 25 = Ok d
        /\ PyFloat.max (PyFloat.sub (PyFloat.add v l) d) PyFloat.five
           = S754_finite false m e
        /\ price = PyFloat.Cents c
        /\ 500 <= c
        /\ (0 <= e -> c = 100 * Zpos m * 2 ^ e)
        /\ (e < 0 ->
            2 * c * 2 ^ (- e) <= 200 * Zpos m + 2 ^ (- e)
            < 2 * (c + 1) * 2 ^ (- e)))
  /\ (Myapp.counters_in_range p ->
      exists c, Myapp._safe_price p = Ok (PyFloat.Cents c) /\ 500 <= c)
  /\ Myapp._safe_price (Examples.post_with 0 0 0) = Ok (PyFloat.Cents 500)
  /\ Myapp._safe_price Examples.bare_post = Ok (PyFloat.Cents 500)
  /\ Myapp._safe_price (Examples.post_with 621 0 0) = Ok (PyFloat.Cents 517)
  /\ Myapp._safe_price (Examples.post_with 12000 1200 25) = Ok (PyFloat.Cents 17900).
Proof.
  split; [|split; [|repeat split]].
  - intros price Q. apply safe_price_rounding. exact Q.
  - intro R. destruct (safe_price_total p R) as [c E].
    exists c. split; [exact E|].
    destruct (safe_price_rounding p _ E) as (v & l & d & m & e & c' & H).
    destruct H as (_ & _ & _ & _ & Hc & Hfloor & _).
    injection Hc as ->. exact Hfloor.
Qed.

(** A post with 1300 views, 30 likes and 50 dislikes: the counters are in
    range, and the price is 10.83 + 2 - 2 = 10.83. *)
Lemma safe_price_rounds_the_float_witness :
  exists c,
    Myapp._safe_price (Examples.post_with 1300 30 50) = Ok (PyFloat.Cents c)
    /\ 500 <= c.
Proof.
  destruct (safe_price_rounds_the_float (Examples.post_with 1300 30 50))
    as (_ & H & _).
  apply H. repeat split.
Defined.

(** C8. The policy for a reference that does not resolve depends on the
    kind: [cmd_import] creates no order for a row whose customer email or
    product SKU has no stored parent; [_clean_reviews] drops a comment whose
    book id is not accepted; [_clean_books] keeps every post, and a post
    whose author id is not accepted gets the first id of the accepted
    set. *)
Theorem unresolved_references_drop_or_reassign :
  (* orders: the loop body skips a row without parents *)
  (forall cust_map prod_map r,
      Scripts.dict_get Scripts.c_email cust_map (Scripts.customer_email r) = None
      \/ Scripts.dict_get Scripts.p_sku prod_map (Scripts.product_sku r) = None ->
      Scripts.order_of_row cust_map prod_map r = Ok None)
  (* orders: every order that an import inserts has both parents stored *)
  /\ (forall fs db,
        exists inserted,
          Scripts.orders (fst (Scripts.cmd_import fs db))
          = (Scripts.orders db ++ inserted)%list
          /\ forall o, In o inserted ->
               In (Scripts.o_customer o)
                  (map Scripts.c_email
                     (Scripts.customers (fst (Scripts.cmd_import fs db))))
               /\ In (Scripts.o_product o)
                    (map Scripts.p_sku
                       (Scripts.products (fst (Scripts.cmd_import fs db)))))
  (* reviews *)
  /\ (forall book_ids c,
        Myapp.known_id (Myapp.postId c) book_ids = false ->
        Myapp.review_of_comment book_ids c = None)
  /\ (forall comments book_ids r,
        In r (Myapp._clean_reviews comments book_ids) ->
        In (Myapp.r_book_id r) book_ids
        /\ exists c, In c comments
                     /\ Myapp.postId c = Some (Myapp.r_book_id r)
                     /\ Myapp.comment_id c = Myapp.r_id r)
  (* books *)
  /\ (forall posts author_ids,
        Forall Myapp.counters_in_range posts ->
        exists books, Myapp._clean_books posts author_ids = Ok books)
  /\ (forall posts first others books,
        Myapp._clean_books posts (first :: others) = Ok books ->
        Forall2
          (fun p b =>
             Myapp.b_id b = Myapp.post_id p
             /\ (Myapp.known_id (Myapp.userId p) (first :: others) = true ->
                 Myapp.b_author_id b = Myapp.userId p)
             /\ (Myapp.known_id (Myapp.userId p) (first :: others) = false ->
                 Myapp.b_author_id b = Some first))
          posts books)
  (* the samples: one order out of three, one review out of two, two books
     out of two, the second one reassigned to author 1 *)
  /\ map Scripts.key_of_order
       (Scripts.orders
          (fst (Scripts.cmd_import Examples.formatted_files Scripts.empty_store)))
     = [("alex.chan5@gmail.com", "SKU-007", 2, PyDate.mkDate 2024 1 5, "gift")]
  /\ map Myapp.r_id
       (Myapp.reviews
          (fst (Myapp.import_data Examples.insertion_order Examples.documents
                  Myapp.empty_store)))
     = [100]
  /\ map (fun b => (Myapp.b_id b, Myapp.b_author_id b))
       (Myapp.books
          (fst (Myapp.import_data Examples.insertion_order Examples.documents
                  Myapp.empty_store)))
     = [(10, Some 1); (11, Some 1)].
Proof.
  split; [|split; [|split; [|split; [|split; [|split; [|repeat split]]]]]].
  - intros cust_map prod_map r [H|H]; unfold Scripts.order_of_row; rewrite H.
    + reflexivity.
    + destruct (Scripts.dict_get Scripts.c_email cust_map _); reflexivity.
  - intros fs db.
    destruct (cmd_import_extends fs db) as (nc & np & no & _ & _ & Eo & _ & _ & Po).
    exists no. split; [exact Eo|]. intros o I. apply Po in I. tauto.
  - intros book_ids c H. unfold Myapp.review_of_comment.
    unfold Myapp.known_id in H. destruct (Myapp.postId c); [|reflexivity].
    rewrite H. reflexivity.
  - intros comments book_ids r I. apply clean_reviews_rows in I.
    destruct I as [c [I E]]. apply review_of_comment_book in E.
    destruct E as (E1 & E2 & E3). split; [exact E2|]. exists c. auto.
  - intros posts author_ids H. apply clean_books_total. exact H.
  - intros posts first others books E. apply clean_books_rows in E.
    eapply Forall2_impl; [|exact E]. cbv beta.
    intros p b (H1 & H2 & _). split; [exact H1|].
    rewrite H2.
    destruct (Myapp.known_id (Myapp.userId p) (first :: others));
      split; intro K; try discriminate K; reflexivity.
Qed.

(** The second sample post names author 7, who is not accepted, and author
    1 is the first accepted one. *)
Lemma unresolved_references_drop_or_reassign_witness :
  exists books,
    Myapp._clean_books
      [Examples.post_of_author 10 (Some 1); Examples.post_of_author 11 (Some 7)]
      [1; 2] = Ok books
    /\ Forall2
         (fun p b =>
            Myapp.b_id b = Myapp.post_id p
            /\ (Myapp.known_id (Myapp.userId p) [1; 2] = true ->
                Myapp.b_author_id b = Myapp.userId p)
            /\ (Myapp.known_id (Myapp.userId p) [1; 2] = false ->
                Myapp.b_author_id b = Some 1))
         [Examples.post_of_author 10 (Some 1); Examples.post_of_author 11 (Some 7)]
         books.
Proof.
  destruct unresolved_references_drop_or_reassign as (_ & _ & _ & _ & _ & H & _).
  eexists. split; [|eapply H]; vm_compute; reflexivity.
Defined.

(** C10. With no accepted author, [_clean_books] gives every book the
    reference [None]; with at least one, every book refers to an accepted
    author.  The cleaner returns a book for every post when the counters of
    the posts fit in 64 bits. *)
Theorem clean_books_without_authors (posts : list Myapp.post) :
  (forall author_ids,
      Forall Myapp.counters_in_range posts ->
      exists books, Myapp._clean_books posts author_ids = Ok books)
  /\ (forall books,
        Myapp._clean_books posts [] = Ok books ->
        List.length books = List.length posts
        /\ Forall (fun b => Myapp.b_author_id b = None) books)
  /\ (forall first others books,
        Myapp._clean_books posts (first :: others) = Ok books ->
        List.length books = List.length posts
        /\ Forall (fun b => exists a, Myapp.b_author_id b = Some a
                                      /\ In a (first :: others)) books).
Proof.
  split; [|split].
  - intros author_ids H. apply clean_books_total. exact H.
  - intros books E. apply clean_books_rows in E. split.
    + symmetry. eapply Forall2_length. exact E.
    + induction E as [|p b posts' books' (_ & H & _) _ IH]; constructor.
      * rewrite H. unfold Myapp.known_id.
        destruct (Myapp.userId p); reflexivity.
      * exact IH.
  - intros first others books E. apply clean_books_rows in E. split.
    + symmetry. eapply Forall2_length. exact E.
    + induction E as [|p b posts' books' (_ & H & _) _ IH]; constructor.
      * rewrite H. unfold Myapp.known_id.
        destruct (Myapp.userId p) as [a|].
        -- destruct (mem_Z a (first :: others)) eqn:M.
           ++ exists a. split; [reflexivity | apply mem_Z_In; exact M].
           ++ exists first. split; [reflexivity | left; reflexivity].
        -- exists first. split; [reflexivity | left; reflexivity].
      * exact IH.
Qed.

(** Two sample posts cleaned against an empty author set. *)
Lemma clean_books_without_authors_witness :
  exists books,
    Myapp._clean_books
      [Examples.post_of_author 10 (Some 1); Examples.post_of_author 11 None] []
    = Ok books
    /\ List.length books = 2%nat
    /\ Forall (fun b => Myapp.b_author_id b = None) books.
Proof.
  destruct (clean_books_without_authors
              [Examples.post_of_author 10 (Some 1); Examples.post_of_author 11 None])
    as (T & H & _).
  destruct (T []) as [books E].
  - repeat constructor; vm_compute; reflexivity.
  - exists books. split; [exact E|]. apply H. exact E.
Defined.

(** ** The worked examples of the specification *)

(** Phone truncation: eleven digits keep their last eight, six digits are
    preserved. *)
Example clean_phone_examples :
  Scripts.clean_phone (Some "+852 9123 4567") = "91234567"
  /\ Scripts.clean_phone (Some " 12-34-56 ") = "123456"
  /\ Scripts.clean_phone None = "".
Proof. repeat split. Qed.

(** Price parsing, then formatting. *)
Example clean_price_examples :
  Scripts.to_decimal_str (Scripts.clean_price (Some "HK$ 1,299.00")) = "1299.00"
  /\ Scripts.to_decimal_str (Scripts.clean_price (Some "$99")) = "99.00"
  /\ Scripts.clean_price (Some "n/a") = "0"
  /\ Scripts.to_decimal_str (Scripts.clean_price (Some "n/a")) = "0.00"
  /\ Scripts.to_decimal_str (Scripts.clean_price (Some "1.2.3")) = "0.00".
Proof. repeat split. Qed.

(** The default-active policy of [clean_bool]. *)
Example clean_bool_examples :
  Scripts.clean_bool None = true
  /\ Scripts.clean_bool (Some "  ") = true
  /\ Scripts.clean_bool (Some "TRUE") = true
  /\ Scripts.clean_bool (Some " y ") = true
  /\ Scripts.clean_bool (Some "False") = false
  /\ Scripts.clean_bool (Some "maybe") = false.
Proof. repeat split. Qed.

(** Rating clamp: no likes give 1, twenty likes give 5. *)
Example rating_examples :
  option_map Myapp.r_rating
    (Myapp.review_of_comment [10] (Myapp.mkComment 1 (Some 10) (Some 0) None))
  = Some 1
  /\ option_map Myapp.r_rating
       (Myapp.review_of_comment [10] (Myapp.mkComment 1 (Some 10) (Some 20) None))
     = Some 5
  /\ option_map Myapp.r_content
       (Myapp.review_of_comment [10] (Myapp.mkComment 1 (Some 10) None None))
     = Some "No content provided.".
Proof. repeat split. Qed.

(** Author names and biographies. *)
Example author_examples :
  Myapp.author_of_user
    (Myapp.mkUser 1 (Some " Emily ") (Some "Johnson") (Some "emilys")
       (Some (Myapp.mkCompany (Some "Sales Manager") (Some "Dooley"))) None)
  = Myapp.mkAuthor 1 "Emily Johnson" "Sales Manager | Dooley"
  /\ Myapp.author_of_user (Myapp.mkUser 7 None (Some "") None None None)
     = Myapp.mkAuthor 7 "User 7" "No bio provided.".
Proof. repeat split. Qed.

(** The dates that [strptime] accepts and refuses. *)
Example clean_date_examples :
  Scripts.clean_date (Some "2024/2/29") = "2024-02-29"
  /\ Scripts.clean_date (Some "29/02/2023") = ""
  /\ Scripts.clean_date (Some "5-1-2024") = "2024-01-05"
  /\ Scripts.clean_date (Some "0000-01-01") = ""
  /\ Scripts.clean_date (Some "2024-01-05 10:00") = ""
  /\ Scripts.clean_date None = "".
Proof. repeat split. Qed.

(** On canonical floats the order of the values is the comparison of
    [SpecFloat]. *)
Example float_order_examples :
  Forall
    (fun x => PyFloat.gt PyFloat.five x
              = SFltb x PyFloat.five)
    [S754_zero false; S754_infinity false; S754_infinity true; S754_nan;
     S754_finite false 5826532017910579 (-50);
     S754_finite false 5629499534213120 (-50);
     S754_finite false 5629499534213121 (-50);
     S754_finite true 5629499534213121 (-50);
     S754_finite false 4503599627370496 (-49);
     S754_finite false 4503599627370496 (-52)].
Proof. repeat constructor. Qed.

(** * Further properties of the cleaners, the generator and the imports *)

(** ** Text: stripping, case and filters *)

Lemma lower_char_space (c : ascii) :
  PyStr.is_space (PyStr.lower_char c) = PyStr.is_space c.
Proof.
  destruct c as [[] [] [] [] [] [] [] []]; reflexivity.
Qed.

Lemma lower_char_idempotent (c : ascii) :
  PyStr.lower_char (PyStr.lower_char c) = PyStr.lower_char c.
Proof.
  destruct c as [[] [] [] [] [] [] [] []]; reflexivity.
Qed.

Lemma lower_char_not_upper (c : ascii) : Text.is_upper (PyStr.lower_char c) = false.
Proof.
  destruct c as [[] [] [] [] [] [] [] []]; reflexivity.
Qed.

Lemma digit_not_space (c : ascii) : PyStr.is_digit c = true -> PyStr.is_space c = false.
Proof.
  destruct c as [[] [] [] [] [] [] [] []]; simpl; intros H;
    try reflexivity; discriminate H.
Qed.

Lemma price_char_not_space (c : ascii) :
  PyDecimal.price_char c = true -> PyStr.is_space c = false.
Proof.
  destruct c as [[] [] [] [] [] [] [] []]; simpl; intros H;
    try reflexivity; discriminate H.
Qed.

Lemma lower_idempotent (s : string) : PyStr.lower (PyStr.lower s) = PyStr.lower s.
Proof.
  induction s as [|c r IH]; simpl.
  - reflexivity.
  - now rewrite lower_char_idempotent, IH.
Qed.

Lemma lower_lstrip (s : string) :
  PyStr.lower (PyStr.lstrip s) = PyStr.lstrip (PyStr.lower s).
Proof.
  induction s as [|c r IH]; simpl.
  - reflexivity.
  - rewrite lower_char_space. destruct (PyStr.is_space c); [exact IH|reflexivity].
Qed.

Lemma lower_rstrip (s : string) :
  PyStr.lower (PyStr.rstrip s) = PyStr.rstrip (PyStr.lower s).
Proof.
  induction s as [|c r IH]; simpl.
  - reflexivity.
  - rewrite <- IH, lower_char_space.
    destruct (PyStr.rstrip r); simpl.
    + destruct (PyStr.is_space c); reflexivity.
    + reflexivity.
Qed.

Lemma lower_strip (s : string) :
  PyStr.lower (PyStr.strip s) = PyStr.strip (PyStr.lower s).
Proof.
  unfold PyStr.strip. now rewrite lower_rstrip, lower_lstrip.
Qed.

Lemma lower_all_not_upper (s : string) :
  Text.all_chars (fun c => negb (Text.is_upper c)) (PyStr.lower s) = true.
Proof.
  induction s as [|c r IH]; simpl.
  - reflexivity.
  - now rewrite lower_char_not_upper, IH.
Qed.

Lemma lower_empty (s : string) : PyStr.lower s = "" <-> s = "".
Proof.
  destruct s; simpl; split; intro H; try reflexivity; discriminate H.
Qed.

(** What [lstrip] returns does not start with a blank. *)
Lemma lstrip_head (s : string) :
  match PyStr.lstrip s with
  | String c _ => PyStr.is_space c = false
  | EmptyString => True
  end.
Proof.
  induction s as [|c r IH]; simpl.
  - exact I.
  - destruct (PyStr.is_space c) eqn:E; [exact IH|exact E].
Qed.

Lemma lstrip_fixed (c : ascii) (r : string) :
  PyStr.is_space c = false -> PyStr.lstrip (String c r) = String c r.
Proof.
  intros H. simpl. now rewrite H.
Qed.

(** [rstrip] keeps the first character of a text that starts with a
    non-blank. *)
Lemma rstrip_head (c : ascii) (r : string) :
  PyStr.is_space c = false ->
  exists r', PyStr.rstrip (String c r) = String c r'.
Proof.
  intros H. simpl. destruct (PyStr.rstrip r).
  - rewrite H. now exists "".
  - now eexists.
Qed.

Lemma rstrip_idempotent (s : string) :
  PyStr.rstrip (PyStr.rstrip s) = PyStr.rstrip s.
Proof.
  induction s as [|c r IH]; simpl.
  - reflexivity.
  - destruct (PyStr.rstrip r) as [|c' r'] eqn:E.
    + destruct (PyStr.is_space c) eqn:Ec; simpl.
      * reflexivity.
      * now rewrite Ec.
    + cbn [PyStr.rstrip]. cbn [PyStr.rstrip] in IH.
      destruct (match PyStr.rstrip r' with
                | "" => if PyStr.is_space c' then "" else String c' ""
                | String a s0 => String c' (String a s0)
                end) eqn:F.
      * discriminate IH.
      * now rewrite IH.
Qed.

Lemma strip_fixed_lstrip (s : string) :
  PyStr.lstrip (PyStr.strip s) = PyStr.strip s.
Proof.
  unfold PyStr.strip.
  pose proof (lstrip_head s) as H.
  destruct (PyStr.lstrip s) as [|c r].
  - reflexivity.
  - destruct (rstrip_head c r H) as [r' E]. rewrite E.
    now apply lstrip_fixed.
Qed.

Lemma strip_idempotent (s : string) : PyStr.strip (PyStr.strip s) = PyStr.strip s.
Proof.
  unfold PyStr.strip at 1. rewrite strip_fixed_lstrip.
  unfold PyStr.strip. apply rstrip_idempotent.
Qed.

Lemma rstrip_blank (s : string) : PyStr.rstrip s = "" <-> Text.blank s = true.
Proof.
  unfold Text.blank. induction s as [|c r IH]; simpl.
  - tauto.
  - destruct (PyStr.rstrip r) as [|c' r'].
    + destruct (PyStr.is_space c); simpl.
      * tauto.
      * split; discriminate.
    + split; [discriminate|].
      intros H. apply andb_true_iff in H. destruct H as [_ H].
      apply IH in H. discriminate H.
Qed.

Lemma lstrip_blank (s : string) : PyStr.lstrip s = "" <-> Text.blank s = true.
Proof.
  unfold Text.blank. induction s as [|c r IH]; simpl.
  - tauto.
  - destruct (PyStr.is_space c) eqn:E; simpl.
    + exact IH.
    + split; discriminate.
Qed.

Lemma lstrip_suffix_blank (s : string) :
  Text.blank (PyStr.lstrip s) = true -> Text.blank s = true.
Proof.
  unfold Text.blank. induction s as [|c r IH]; simpl.
  - tauto.
  - destruct (PyStr.is_space c) eqn:E; simpl.
    + exact IH.
    + rewrite E. discriminate.
Qed.

(** [strip] returns the empty text exactly on blank texts. *)
Lemma strip_blank (s : string) : PyStr.strip s = "" <-> Text.blank s = true.
Proof.
  unfold PyStr.strip. rewrite rstrip_blank. split.
  - apply lstrip_suffix_blank.
  - intros H. apply lstrip_blank in H. now rewrite H.
Qed.

(** A text without blanks at all is left alone. *)
Lemma rstrip_no_space (s : string) :
  Text.all_chars (fun c => negb (PyStr.is_space c)) s = true -> PyStr.rstrip s = s.
Proof.
  induction s as [|c r IH]; simpl.
  - reflexivity.
  - intros H. apply andb_true_iff in H. destruct H as [Hc Hr].
    rewrite (IH Hr). apply negb_true_iff in Hc. rewrite Hc.
    destruct r; reflexivity.
Qed.

Lemma strip_no_space (s : string) :
  Text.all_chars (fun c => negb (PyStr.is_space c)) s = true -> PyStr.strip s = s.
Proof.
  intros H. unfold PyStr.strip.
  assert (PyStr.lstrip s = s) as ->.
  { destruct s as [|c r]; [reflexivity|]. simpl in *.
    apply andb_true_iff in H. destruct H as [Hc _].
    apply negb_true_iff in Hc. now rewrite Hc. }
  now apply rstrip_no_space.
Qed.

Lemma all_chars_weaken (p q : ascii -> bool) (s : string) :
  (forall c, p c = true -> q c = true) ->
  Text.all_chars p s = true -> Text.all_chars q s = true.
Proof.
  intros Hpq. induction s as [|c r IH]; simpl.
  - reflexivity.
  - intros H. apply andb_true_iff in H. destruct H as [Hc Hr].
    now rewrite (Hpq _ Hc), IH.
Qed.

Lemma all_chars_app (p : ascii -> bool) (a b : string) :
  Text.all_chars p (a ++ b) = Text.all_chars p a && Text.all_chars p b.
Proof.
  induction a as [|c r IH]; simpl.
  - reflexivity.
  - now rewrite IH, andb_assoc.
Qed.

Lemma filter_chars_all (p : ascii -> bool) (s : string) :
  Text.all_chars p (PyStr.filter_chars p s) = true.
Proof.
  induction s as [|c r IH]; simpl.
  - reflexivity.
  - destruct (p c) eqn:E; simpl; [now rewrite E|exact IH].
Qed.

Lemma filter_chars_fixed (p : ascii -> bool) (s : string) :
  Text.all_chars p s = true -> PyStr.filter_chars p s = s.
Proof.
  induction s as [|c r IH]; simpl.
  - reflexivity.
  - intros H. apply andb_true_iff in H. destruct H as [Hc Hr].
    now rewrite Hc, IH.
Qed.

Lemma filter_chars_app (p : ascii -> bool) (a b : string) :
  PyStr.filter_chars p (a ++ b) = PyStr.filter_chars p a ++ PyStr.filter_chars p b.
Proof.
  induction a as [|c r IH]; simpl.
  - reflexivity.
  - destruct (p c); simpl; now rewrite IH.
Qed.

Lemma filter_chars_none (p : ascii -> bool) (s : string) :
  Text.all_chars (fun c => negb (p c)) s = true -> PyStr.filter_chars p s = "".
Proof.
  induction s as [|c r IH]; simpl.
  - reflexivity.
  - intros H. apply andb_true_iff in H. destruct H as [Hc Hr].
    apply negb_true_iff in Hc. now rewrite Hc, IH.
Qed.

(** Stripping is invisible to a filter that rejects blanks. *)
Section FilterStrip.

Variable p : ascii -> bool.
Hypothesis p_rejects_blanks : forall c, PyStr.is_space c = true -> p c = false.

Lemma filter_chars_lstrip (s : string) :
  PyStr.filter_chars p (PyStr.lstrip s) = PyStr.filter_chars p s.
Proof.
  induction s as [|c r IH]; simpl.
  - reflexivity.
  - destruct (PyStr.is_space c) eqn:E.
    + now rewrite (p_rejects_blanks _ E).
    + reflexivity.
Qed.

Lemma filter_chars_rstrip (s : string) :
  PyStr.filter_chars p (PyStr.rstrip s) = PyStr.filter_chars p s.
Proof.
  induction s as [|c r IH]; simpl.
  - reflexivity.
  - rewrite <- IH. destruct (PyStr.rstrip r) as [|c' r'].
    + destruct (PyStr.is_space c) eqn:E; simpl.
      * now rewrite (p_rejects_blanks _ E).
      * reflexivity.
    + reflexivity.
Qed.

Lemma filter_chars_strip (s : string) :
  PyStr.filter_chars p (PyStr.strip s) = PyStr.filter_chars p s.
Proof.
  unfold PyStr.strip. now rewrite filter_chars_rstrip, filter_chars_lstrip.
Qed.

End FilterStrip.

Lemma digit_rejects_blanks (c : ascii) :
  PyStr.is_space c = true -> PyStr.is_digit c = false.
Proof.
  destruct c as [[] [] [] [] [] [] [] []]; simpl; intros H;
    try reflexivity; discriminate H.
Qed.

Lemma price_char_rejects_blanks (c : ascii) :
  PyStr.is_space c = true -> PyDecimal.price_char c = false.
Proof.
  destruct c as [[] [] [] [] [] [] [] []]; simpl; intros H;
    try reflexivity; discriminate H.
Qed.

(** ** Substrings *)

Lemma substring_length_le (n m : nat) (s : string) :
  (String.length (substring n m s) <= m)%nat.
Proof.
  revert n m. induction s as [|c r IH]; intros [|n] [|m]; simpl; try lia.
  - specialize (IH 0%nat m). lia.
  - apply (IH n 0%nat).
  - apply (IH n (S m)).
Qed.

Lemma substring_all_chars (p : ascii -> bool) (n m : nat) (s : string) :
  Text.all_chars p s = true -> Text.all_chars p (substring n m s) = true.
Proof.
  revert n m. induction s as [|c r IH]; intros n m H.
  - destruct n, m; reflexivity.
  - simpl in H. apply andb_true_iff in H. destruct H as [Hc Hr].
    destruct n as [|n], m as [|m]; simpl; try reflexivity.
    + now rewrite Hc, IH.
    + now apply IH.
    + now apply IH.
Qed.

Lemma substring_whole (s : string) : substring 0 (String.length s) s = s.
Proof.
  induction s as [|c r IH]; simpl; [reflexivity|now rewrite IH].
Qed.

Lemma substring_short (m : nat) (s : string) :
  (String.length s <= m)%nat -> substring 0 m s = s.
Proof.
  revert m. induction s as [|c r IH]; intros [|m] H; simpl in *; try reflexivity; try lia.
  rewrite IH by lia. reflexivity.
Qed.

(** A text is its first [n] characters followed by the rest. *)
Lemma substring_split (n : nat) (s : string) :
  (n <= String.length s)%nat ->
  s = substring 0 n s ++ substring n (String.length s - n) s.
Proof.
  revert n. induction s as [|c r IH]; intros [|n] H; simpl in *; try reflexivity; try lia.
  - now rewrite substring_whole.
  - f_equal. apply IH. lia.
Qed.

Lemma substring_skip_app (a b : string) :
  substring (String.length a) (String.length b) (a ++ b) = b.
Proof.
  induction a as [|c r IH]; simpl.
  - apply substring_whole.
  - exact IH.
Qed.

Lemma append_empty_r (s : string) : s ++ "" = s.
Proof.
  induction s as [|c r IH]; simpl; [reflexivity|now rewrite IH].
Qed.

Lemma length_app (a b : string) :
  String.length (a ++ b) = (String.length a + String.length b)%nat.
Proof.
  induction a as [|c r IH]; simpl; [reflexivity|now rewrite IH].
Qed.

Lemma first_chars_length (n : nat) (s : string) :
  (String.length (PyStr.first_chars n s) <= n)%nat.
Proof. apply substring_length_le. Qed.

Lemma first_chars_nonempty (n : nat) (s : string) :
  (0 < n)%nat -> s <> "" -> PyStr.first_chars n s <> "".
Proof.
  intros Hn Hs. destruct s as [|c r]; [congruence|].
  destruct n as [|n]; [lia|]. simpl. discriminate.
Qed.

(** ** [clean_email] *)

Lemma clean_email_fixed (x : Scripts.cell) :
  Scripts.clean_email (Some (Scripts.clean_email x)) = Scripts.clean_email x
  /\ PyStr.strip (Scripts.clean_email x) = Scripts.clean_email x.
Proof.
  destruct x as [v|]; [|split; reflexivity]. simpl.
  assert (PyStr.strip (PyStr.lower (PyStr.strip v)) = PyStr.lower (PyStr.strip v)) as E.
  { now rewrite <- lower_strip, strip_idempotent. }
  split; [now rewrite E, lower_idempotent|exact E].
Qed.

(** The cleaned email is empty exactly for a missing or blank cell. *)
Lemma clean_email_empty (x : Scripts.cell) :
  Scripts.clean_email x = "" <->
  match x with None => True | Some v => Text.blank v = true end.
Proof.
  destruct x as [v|]; simpl; [|tauto]. split.
  - intros H. apply (proj1 (lower_empty _)) in H. exact (proj1 (strip_blank v) H).
  - intros H. apply (proj2 (lower_empty _)). exact (proj2 (strip_blank v) H).
Qed.

(** X1. [clean_email] returns a normal form: cleaning its result again
    changes nothing, the result has no blank at either end and no ASCII
    upper-case letter, and it is empty exactly when the cell is missing or
    blank.  Cells that differ in ASCII case or in surrounding blanks only
    clean to the same email. *)
Theorem clean_email_normal_form (x : Scripts.cell) :
  Scripts.clean_email (Some (Scripts.clean_email x)) = Scripts.clean_email x
  /\ PyStr.strip (Scripts.clean_email x) = Scripts.clean_email x
  /\ Text.all_chars (fun c => negb (Text.is_upper c)) (Scripts.clean_email x) = true
  /\ (Scripts.clean_email x = "" <->
      match x with None => True | Some v => Text.blank v = true end)
  /\ (forall v,
        Scripts.clean_email (Some (PyStr.lower v)) = Scripts.clean_email (Some v)
        /\ Scripts.clean_email (Some (PyStr.strip v)) = Scripts.clean_email (Some v)).
Proof.
  destruct (clean_email_fixed x) as [F S].
  split; [exact F|]. split; [exact S|]. split; [|split].
  - destruct x as [v|]; [apply lower_all_not_upper|reflexivity].
  - apply clean_email_empty.
  - intros v. simpl. split.
    + now rewrite <- lower_strip, lower_idempotent.
    + now rewrite strip_idempotent.
Qed.

(** ** [clean_phone] *)

Lemma clean_phone_digits_of (v : string) :
  Scripts.clean_phone (Some v) =
  let digits := PyStr.filter_chars PyStr.is_digit v in
  if (8 <? String.length digits)%nat then PyStr.last_chars 8 digits else digits.
Proof.
  unfold Scripts.clean_phone.
  now rewrite (filter_chars_strip _ digit_rejects_blanks).
Qed.

Lemma digits_no_space (s : string) :
  Text.all_chars PyStr.is_digit s = true ->
  Text.all_chars (fun c => negb (PyStr.is_space c)) s = true.
Proof.
  apply all_chars_weaken. intros c H. now rewrite (digit_not_space _ H).
Qed.


(** ** The phone numbers of the generator *)

(** X3. Whichever of its six spellings [messy_phone] draws for a run [n] of
    eight digits (plain, "+852 " prefix, "(852) " prefix, blank or dash in
    the middle, blanks around), [clean_phone] gives back [n]. *)
Theorem clean_phone_reads_messy_phone (n : string) (pick : nat) :
  String.length n = 8%nat ->
  Text.all_chars PyStr.is_digit n = true ->
  (pick < 6)%nat ->
  Scripts.clean_phone (Some (Generate.messy_phone n pick)) = n.
Proof.
  intros Hl Hd Hp.
  assert (n = PyStr.first_chars 4 n ++ Generate.from_chars 4 n) as Hn
    by (apply substring_split; lia).
  set (a := PyStr.first_chars 4 n) in *.
  set (b := Generate.from_chars 4 n) in *.
  assert (Text.all_chars PyStr.is_digit a = true) as Ha
    by now apply substring_all_chars.
  assert (Text.all_chars PyStr.is_digit b = true) as Hb
    by now apply substring_all_chars.
  assert (forall s, PyStr.filter_chars PyStr.is_digit s = n ->
                    Scripts.clean_phone (Some s) = n) as Plain.
  { intros s Hs. rewrite clean_phone_digits_of. cbv zeta. rewrite Hs, Hl.
    reflexivity. }
  assert (forall s, PyStr.filter_chars PyStr.is_digit s = "852" ++ n ->
                    Scripts.clean_phone (Some s) = n) as Prefixed.
  { intros s Hs. rewrite clean_phone_digits_of. cbv zeta. rewrite Hs.
    rewrite length_app, Hl.
    change (8 <? String.length "852" + 8)%nat with true. cbv iota.
    unfold PyStr.last_chars. rewrite length_app, Hl.
    pose proof (substring_skip_app "852" n) as S. rewrite Hl in S. exact S. }
  unfold Generate.messy_phone. fold a b. clearbody a b.
  destruct pick as [|[|[|[|[|[|pick]]]]]]; try lia; cbn [nth].
  - apply Plain. now apply filter_chars_fixed.
  - apply Prefixed.
    change ("+852 " ++ a ++ " " ++ b) with ("+852 " ++ (a ++ " " ++ b)).
    rewrite !filter_chars_app, (filter_chars_fixed _ _ Ha), (filter_chars_fixed _ _ Hb).
    simpl. now rewrite <- Hn.
  - apply Prefixed.
    rewrite !filter_chars_app, (filter_chars_fixed _ _ Ha), (filter_chars_fixed _ _ Hb).
    simpl. now rewrite <- Hn.
  - apply Plain.
    rewrite !filter_chars_app, (filter_chars_fixed _ _ Ha), (filter_chars_fixed _ _ Hb).
    simpl. now rewrite <- Hn.
  - apply Plain.
    rewrite !filter_chars_app, (filter_chars_fixed _ _ Ha), (filter_chars_fixed _ _ Hb).
    simpl. now rewrite <- Hn.
  - apply Plain.
    rewrite !filter_chars_app, (filter_chars_fixed _ _ Ha), (filter_chars_fixed _ _ Hb).
    simpl. rewrite append_empty_r. now rewrite <- Hn.
Qed.

Lemma clean_phone_reads_messy_phone_witness :
  Scripts.clean_phone (Some (Generate.messy_phone "91234567" 2)) = "91234567".
Proof.
  apply clean_phone_reads_messy_phone; [reflexivity|reflexivity|lia].
Defined.

(** ** Removing a pattern, seen through a filter *)

Section FilterRemove.

Variable p : ascii -> bool.
Variable pat : string.
Hypothesis pat_nonempty : pat <> "".
Hypothesis pat_rejected : Text.all_chars (fun c => negb (p c)) pat = true.

Lemma filter_chars_remove_from (s : string) :
  forall skip,
    Text.all_chars (fun c => negb (p c)) (substring 0 skip s) = true ->
    PyStr.filter_chars p (PyStr.remove_from pat skip s) = PyStr.filter_chars p s.
Proof.
  induction s as [|c r IH]; intros skip H.
  - reflexivity.
  - destruct skip as [|k].
    + cbn [PyStr.remove_from].
      destruct (prefix pat (String c r)) eqn:E.
      * apply prefix_correct in E.
        destruct pat as [|a pat'] eqn:Ep; [congruence|].
        cbn [String.length substring] in E.
        injection E as Ec Er.
        cbn [Text.all_chars] in pat_rejected.
        apply andb_true_iff in pat_rejected. destruct pat_rejected as [Pa Pr].
        replace (String.length (String a pat') - 1)%nat with (String.length pat')
          by (simpl; lia).
        rewrite IH by (rewrite Er; exact Pr).
        cbn [PyStr.filter_chars]. subst a.
        apply negb_true_iff in Pa. now rewrite Pa.
      * cbn [PyStr.filter_chars]. rewrite IH.
        -- reflexivity.
        -- destruct r; reflexivity.
    + cbn [PyStr.remove_from]. cbn [substring Text.all_chars] in H.
      apply andb_true_iff in H. destruct H as [Hc Hr].
      rewrite (IH _ Hr). cbn [PyStr.filter_chars].
      apply negb_true_iff in Hc. now rewrite Hc.
Qed.

Lemma filter_chars_remove_all (s : string) :
  PyStr.filter_chars p (PyStr.remove_all pat s) = PyStr.filter_chars p s.
Proof.
  unfold PyStr.remove_all. apply filter_chars_remove_from.
  destruct s; reflexivity.
Qed.

End FilterRemove.

(** ** [clean_price] *)

Lemma clean_price_filter (v : string) :
  Scripts.clean_price (Some v) =
  PyStr.or_else (PyStr.filter_chars PyDecimal.price_char v) "0".
Proof.
  unfold Scripts.clean_price. f_equal.
  rewrite (filter_chars_strip _ price_char_rejects_blanks).
  rewrite filter_chars_remove_all by (discriminate || reflexivity).
  rewrite filter_chars_remove_all by (discriminate || reflexivity).
  rewrite filter_chars_remove_all by (discriminate || reflexivity).
  apply (filter_chars_strip _ price_char_rejects_blanks).
Qed.

(** X4. What [clean_price] returns for a cell is exactly the digits and
    points of the cell, in their order, or "0" when there is none: the
    removal of "HK$", "$" and "," and the two strips take away nothing that
    the final filter would keep.  The result is never empty, and cleaning it
    again changes nothing. *)
Theorem clean_price_keeps_digits_and_points (v : string) :
  Scripts.clean_price (Some v) =
    PyStr.or_else (PyStr.filter_chars PyDecimal.price_char v) "0"
  /\ Scripts.clean_price (Some v) <> ""
  /\ Scripts.clean_price (Some (Scripts.clean_price (Some v))) =
     Scripts.clean_price (Some v).
Proof.
  split; [apply clean_price_filter|].
  rewrite !clean_price_filter.
  set (kept := PyStr.filter_chars PyDecimal.price_char v).
  assert (Text.all_chars PyDecimal.price_char kept = true) as K
    by apply filter_chars_all.
  unfold PyStr.or_else.
  destruct (PyStr.nonempty kept) eqn:E.
  - split.
    + destruct kept; [discriminate E|discriminate].
    + now rewrite (filter_chars_fixed _ _ K), E.
  - split; [discriminate|reflexivity].
Qed.

(** ** [clean_bool] *)



(** ** Numerals: [str] of an integer, read back *)

Lemma is_digit_digit_char (k : Z) :
  0 <= k <= 9 -> PyStr.is_digit (PyStr.digit_char k) = true.
Proof.
  intros H.
  assert (k = 0 \/ k = 1 \/ k = 2 \/ k = 3 \/ k = 4 \/ k = 5 \/ k = 6 \/ k = 7
          \/ k = 8 \/ k = 9) as C by lia.
  repeat (destruct C as [->|C]; [reflexivity|]). now subst.
Qed.

Lemma digit_value_digit_char (k : Z) :
  0 <= k <= 9 -> PyStr.digit_value (PyStr.digit_char k) = k.
Proof.
  intros H.
  assert (k = 0 \/ k = 1 \/ k = 2 \/ k = 3 \/ k = 4 \/ k = 5 \/ k = 6 \/ k = 7
          \/ k = 8 \/ k = 9) as C by lia.
  repeat (destruct C as [->|C]; [reflexivity|]). now subst.
Qed.

Lemma string_of_uint_digits (d : Decimal.uint) :
  Text.all_chars PyStr.is_digit (DecimalString.NilEmpty.string_of_uint d) = true.
Proof.
  induction d; simpl; try reflexivity; exact IHd.
Qed.

Lemma scan_string_of_uint_acc (d : Decimal.uint) (rest : string) :
  forall acc count,
    PyDecimal.scan_digits (DecimalString.NilEmpty.string_of_uint d ++ rest)
      (Zpos acc) count =
    PyDecimal.scan_digits rest (Zpos (Pos.of_uint_acc d acc))
      (count + String.length (DecimalString.NilEmpty.string_of_uint d)).
Proof.
  induction d; intros acc count;
    cbn [DecimalString.NilEmpty.string_of_uint append String.length Pos.of_uint_acc];
    try (now rewrite Nat.add_0_r);
    cbn [PyDecimal.scan_digits];
    match goal with
    | |- context [PyStr.is_digit ?c] => change (PyStr.is_digit c) with true
    end; cbv iota;
    match goal with
    | |- context [PyStr.digit_value ?c] =>
        let v := eval compute in (PyStr.digit_value c) in
        change (PyStr.digit_value c) with v
    end;
    rewrite <- Nat.add_succ_comm;
    match goal with
    | |- PyDecimal.scan_digits _ ?a _ = PyDecimal.scan_digits _ (Zpos (Pos.of_uint_acc _ ?b)) _ =>
        replace a with (Zpos b) by lia
    end; apply IHd.
Qed.

Lemma scan_string_of_uint (d : Decimal.uint) (rest : string) :
  forall count,
    PyDecimal.scan_digits (DecimalString.NilEmpty.string_of_uint d ++ rest) 0 count =
    PyDecimal.scan_digits rest (Z.of_N (Pos.of_uint d))
      (count + String.length (DecimalString.NilEmpty.string_of_uint d)).
Proof.
  induction d; intros count;
    cbn [DecimalString.NilEmpty.string_of_uint append String.length Pos.of_uint];
    try (now rewrite Nat.add_0_r);
    cbn [PyDecimal.scan_digits];
    match goal with
    | |- context [PyStr.is_digit ?c] => change (PyStr.is_digit c) with true
    end; cbv iota;
    match goal with
    | |- context [PyStr.digit_value ?c] =>
        let v := eval compute in (PyStr.digit_value c) in
        change (PyStr.digit_value c) with v
    end;
    rewrite <- Nat.add_succ_comm;
    try (apply IHd);
    cbn [Z.of_N];
    match goal with
    | |- PyDecimal.scan_digits _ ?a _ = _ =>
        let v := eval compute in a in change a with v
    end; apply scan_string_of_uint_acc.
Qed.

(** The text of a non-negative integer is a non-empty run of digits whose
    value is the integer. *)
Lemma str_of_Z_digits (n : Z) :
  0 <= n ->
  Text.all_chars PyStr.is_digit (PyStr.str_of_Z n) = true
  /\ PyStr.str_of_Z n <> ""
  /\ forall rest count,
       PyDecimal.scan_digits (PyStr.str_of_Z n ++ rest) 0 count =
       PyDecimal.scan_digits rest n (count + String.length (PyStr.str_of_Z n)).
Proof.
  intros Hn. unfold PyStr.str_of_Z. destruct n as [|q|q]; [| |lia].
  - split; [reflexivity|]. split; [discriminate|].
    intros rest count. cbn. now rewrite Nat.add_1_r.
  - cbn [Z.to_int DecimalString.NilZero.string_of_int].
    assert (DecimalString.NilZero.string_of_uint (Pos.to_uint q) =
            DecimalString.NilEmpty.string_of_uint (Pos.to_uint q)) as E.
    { unfold DecimalString.NilZero.string_of_uint.
      destruct (Pos.to_uint q) eqn:U; try reflexivity.
      now destruct (DecimalPos.Unsigned.to_uint_nonnil q). }
    rewrite E. split; [|split].
    + apply string_of_uint_digits.
    + pose proof (DecimalPos.Unsigned.to_uint_nonnil q) as U.
      destruct (Pos.to_uint q); [congruence|discriminate..].
    + intros rest count. rewrite scan_string_of_uint.
      now rewrite DecimalPos.Unsigned.of_to.
Qed.

Lemma str_of_Z_neg (q : positive) :
  PyStr.str_of_Z (Zneg q) = String "-" (PyStr.str_of_Z (Zpos q)).
Proof. reflexivity. Qed.

Lemma str_of_Z_no_space (n : Z) :
  Text.all_chars (fun c => negb (PyStr.is_space c)) (PyStr.str_of_Z n) = true.
Proof.
  destruct n as [|q|q].
  - reflexivity.
  - apply digits_no_space. apply str_of_Z_digits. lia.
  - rewrite str_of_Z_neg. cbn [Text.all_chars].
    rewrite (digits_no_space (PyStr.str_of_Z (Zpos q))); [reflexivity|].
    apply str_of_Z_digits. lia.
Qed.

Lemma parse_unsigned_str_of_Z (n : Z) :
  0 <= n ->
  PyDecimal.parse_unsigned (PyStr.str_of_Z n) = Some (PyDecimal.mkDecimal n 0).
Proof.
  intros Hn. destruct (str_of_Z_digits n Hn) as (_ & Hne & Hscan).
  unfold PyDecimal.parse_unsigned.
  rewrite <- (append_empty_r (PyStr.str_of_Z n)), Hscan.
  cbn [PyDecimal.scan_digits].
  destruct (PyStr.str_of_Z n); [congruence|]. reflexivity.
Qed.

(** ** Blanks around a text *)

Lemma lstrip_padding (l s : string) :
  Text.blank l = true -> PyStr.lstrip (l ++ s) = PyStr.lstrip s.
Proof.
  unfold Text.blank. induction l as [|c r IH]; simpl; intros H.
  - reflexivity.
  - apply andb_true_iff in H. destruct H as [Hc Hr]. rewrite Hc. now apply IH.
Qed.

Lemma rstrip_padding (s r : string) :
  Text.blank r = true -> PyStr.rstrip (s ++ r) = PyStr.rstrip s.
Proof.
  intros H. induction s as [|c s IH]; simpl.
  - now apply rstrip_blank.
  - now rewrite IH.
Qed.

Lemma strip_padding (l s r : string) :
  Text.blank l = true -> Text.blank r = true ->
  PyStr.strip (l ++ s ++ r) = PyStr.strip s.
Proof.
  intros Hl Hr. unfold PyStr.strip. rewrite (lstrip_padding _ _ Hl).
  induction s as [|c s IH].
  - simpl. apply (proj2 (lstrip_blank r)) in Hr. now rewrite Hr.
  - cbn [append PyStr.lstrip]. destruct (PyStr.is_space c).
    + exact IH.
    + change (String c (s ++ r)) with (String c s ++ r).
      now apply rstrip_padding.
Qed.

(** ** [clean_quantity] reads back the text of an integer *)

(** X6. The quantity cleaner reads back the decimal text of an integer,
    whatever its sign and whatever blanks surround it: the text of [n]
    cleans to [n].  (The bound keeps the integer within the range that the
    float of [to_numeric] holds exactly.) *)
Theorem clean_quantity_reads_integers (n : Z) (l r : string) :
  Z.abs n < 10 ^ 15 ->
  Text.blank l = true -> Text.blank r = true ->
  Scripts.clean_quantity (Some (l ++ PyStr.str_of_Z n ++ r)) = n.
Proof.
  intros _ Hl Hr. unfold Scripts.clean_quantity. cbn [Scripts.astype_str].
  rewrite (strip_padding _ _ _ Hl Hr), (strip_no_space _ (str_of_Z_no_space n)).
  destruct n as [|q|q].
  - reflexivity.
  - assert (0 <= Zpos q) as Hq by lia.
    destruct (str_of_Z_digits _ Hq) as (Hd & Hne & _).
    unfold Scripts.to_numeric.
    destruct (PyStr.str_of_Z (Zpos q)) as [|c s] eqn:E; [congruence|].
    cbn [Text.all_chars] in Hd. apply andb_true_iff in Hd. destruct Hd as [Hc _].
    assert (Ascii.eqb c "-" = false) as ->.
    { destruct (Ascii.eqb_spec c "-"); [subst; discriminate Hc|reflexivity]. }
    assert (Ascii.eqb c "+" = false) as ->.
    { destruct (Ascii.eqb_spec c "+"); [subst; discriminate Hc|reflexivity]. }
    rewrite <- E, (parse_unsigned_str_of_Z _ Hq). cbn.
    now rewrite Z.div_1_r.
  - rewrite str_of_Z_neg. unfold Scripts.to_numeric.
    change (Ascii.eqb "-" "-") with true. cbv iota.
    rewrite parse_unsigned_str_of_Z by lia. cbn.
    now rewrite Z.div_1_r.
Qed.

Lemma clean_quantity_reads_integers_witness :
  Scripts.clean_quantity (Some (" " ++ PyStr.str_of_Z (-4) ++ "  ")) = -4.
Proof.
  apply clean_quantity_reads_integers; reflexivity.
Defined.

(** ** [to_decimal_str] *)







(** ** Dates: what [strptime] reads back *)

Lemma make_date_valid (y m d : Z) (dt : PyDate.date) :
  PyDate.make_date y m d = Some dt ->
  dt = PyDate.mkDate y m d
  /\ 1 <= y <= 9999 /\ 1 <= m <= 12 /\ 1 <= d <= 31.
Proof.
  unfold PyDate.make_date.
  destruct ((1 <=? y) && (y <=? 9999) && (1 <=? m) && (m <=? 12)
            && (1 <=? d) && (d <=? PyDate.days_in_month y m)) eqn:E; [|discriminate].
  intros [= <-].
  repeat (apply andb_true_iff in E; destruct E as [E ?]).
  assert (PyDate.days_in_month y m <= 31) as B.
  { unfold PyDate.days_in_month.
    repeat match goal with
           | |- context [match ?p with _ => _ end] => destruct p
           end; lia. }
  repeat split; lia.
Qed.

Lemma strptime_valid (fmt : list PyDate.directive) (s : string) (d : PyDate.date) :
  PyDate.strptime fmt s = Some d ->
  PyDate.make_date (PyDate.year d) (PyDate.month d) (PyDate.day d) = Some d.
Proof.
  unfold PyDate.strptime.
  destruct (PyDate.regex_match fmt s _) as [[f [|c r]]|]; try discriminate.
  intros H. destruct (make_date_valid _ _ _ _ H) as [-> _]. exact H.
Qed.

Lemma first_some_single {A B} (k : A -> option B) (x : A) :
  PyDate.first_some k [x] = k x.
Proof. simpl. now destruct (k x). Qed.

Lemma first_some_head {A B} (k : A -> option B) (x : A) (others : list A) (y : B) :
  k x = Some y -> PyDate.first_some k (x :: others) = Some y.
Proof. intros H. simpl. now rewrite H. Qed.

Lemma four_digits_value (y : Z) :
  0 <= y <= 9999 ->
  1000 * (y / 1000 mod 10) + 100 * (y / 100 mod 10) + 10 * (y / 10 mod 10) + y mod 10 = y.
Proof.
  intros H. Z.div_mod_to_equations. lia.
Qed.

Lemma mod10_digit (n : Z) : 0 <= n mod 10 <= 9.
Proof. pose proof (Z.mod_pos_bound n 10). lia. Qed.

Lemma regex_Y (fmt : list PyDate.directive) (y : Z) (rest : string) (f : PyDate.fields) :
  0 <= y <= 9999 ->
  PyDate.regex_match (PyDate.dir_Y :: fmt) (PyDate.four_digits y ++ rest) f =
  PyDate.regex_match fmt rest
    (PyDate.mkFields y (PyDate.f_month f) (PyDate.f_day f)).
Proof.
  intros H. cbn [PyDate.regex_match].
  unfold PyDate.four_digits, PyDate.two_digits.
  cbn [append PyDate.alternatives].
  rewrite !is_digit_digit_char, !digit_value_digit_char by apply mod10_digit.
  cbn [andb]. rewrite four_digits_value by exact H.
  rewrite first_some_single. reflexivity.
Qed.

Lemma regex_lit (fmt : list PyDate.directive) (c : ascii) (rest : string)
  (f : PyDate.fields) :
  PyDate.regex_match (PyDate.dir_lit c :: fmt) (String c rest) f =
  PyDate.regex_match fmt rest f.
Proof.
  cbn [PyDate.regex_match PyDate.alternatives]. rewrite Ascii.eqb_refl.
  rewrite first_some_single. reflexivity.
Qed.

Lemma regex_lit_fail (fmt : list PyDate.directive) (c a : ascii) (rest : string)
  (f : PyDate.fields) :
  Ascii.eqb a c = false ->
  PyDate.regex_match (PyDate.dir_lit c :: fmt) (String a rest) f = None.
Proof.
  intros H. cbn [PyDate.regex_match PyDate.alternatives]. now rewrite H.
Qed.

Ltac enumerate n :=
  match goal with
  | H : ?lo <= n <= ?hi |- _ =>
      let rec go k :=
        first
          [ assert (n = k) by lia; subst n
          | destruct (Z.eq_dec n k) as [->|?];
            [|let k' := eval compute in (k + 1) in go k'] ] in
      go lo
  end.

Lemma regex_m (fmt : list PyDate.directive) (m : Z) (rest : string)
  (f : PyDate.fields) (y : PyDate.fields * string) :
  1 <= m <= 12 ->
  PyDate.regex_match fmt rest (PyDate.mkFields (PyDate.f_year f) m (PyDate.f_day f))
    = Some y ->
  PyDate.regex_match (PyDate.dir_m :: fmt) (PyDate.two_digits m ++ rest) f = Some y.
Proof.
  intros H K. cbn [PyDate.regex_match].
  enumerate m; (apply first_some_head; exact K).
Qed.

Lemma regex_d (fmt : list PyDate.directive) (d : Z) (rest : string)
  (f : PyDate.fields) (y : PyDate.fields * string) :
  1 <= d <= 31 ->
  PyDate.regex_match fmt rest (PyDate.mkFields (PyDate.f_year f) (PyDate.f_month f) d)
    = Some y ->
  PyDate.regex_match (PyDate.dir_d :: fmt) (PyDate.two_digits d ++ rest) f = Some y.
Proof.
  intros H K. cbn [PyDate.regex_match].
  enumerate d; (apply first_some_head; exact K).
Qed.

(** A year is not read where the third character is not a digit. *)
Lemma regex_Y_fail (fmt : list PyDate.directive) (n : Z) (sep : ascii)
  (rest : string) (f : PyDate.fields) :
  PyStr.is_digit sep = false ->
  PyDate.regex_match (PyDate.dir_Y :: fmt) (PyDate.two_digits n ++ String sep rest) f
    = None.
Proof.
  intros H. cbn [PyDate.regex_match]. unfold PyDate.two_digits.
  cbn [append PyDate.alternatives].
  destruct rest as [|e r]; [reflexivity|].
  rewrite H, andb_false_r. reflexivity.
Qed.

(** A day followed by a stroke is not read by a format that wants a dash
    after the day. *)
Lemma regex_d_dash_fail (fmt : list PyDate.directive) (d : Z) (rest : string)
  (f : PyDate.fields) :
  1 <= d <= 31 ->
  PyDate.regex_match (PyDate.dir_d :: PyDate.dir_lit "-" :: fmt)
    (PyDate.two_digits d ++ String "/" rest) f = None.
Proof.
  intros H. enumerate d; reflexivity.
Qed.

Lemma strptime_fail (fmt : list PyDate.directive) (s : string) :
  PyDate.regex_match fmt s (PyDate.mkFields 1900 1 1) = None ->
  PyDate.strptime fmt s = None.
Proof. unfold PyDate.strptime. now intros ->. Qed.

Lemma strptime_ok (fmt : list PyDate.directive) (s : string) (d : PyDate.date) :
  PyDate.regex_match fmt s (PyDate.mkFields 1900 1 1)
    = Some (PyDate.mkFields (PyDate.year d) (PyDate.month d) (PyDate.day d), "") ->
  PyDate.make_date (PyDate.year d) (PyDate.month d) (PyDate.day d) = Some d ->
  PyDate.strptime fmt s = Some d.
Proof. unfold PyDate.strptime. now intros ->. Qed.

Section ValidDate.

Variable d : PyDate.date.
Hypothesis d_valid :
  PyDate.make_date (PyDate.year d) (PyDate.month d) (PyDate.day d) = Some d.

Lemma valid_year : 0 <= PyDate.year d <= 9999.
Proof. destruct (make_date_valid _ _ _ _ d_valid) as (_ & ? & ? & ?). lia. Qed.

Lemma valid_month : 1 <= PyDate.month d <= 12.
Proof. destruct (make_date_valid _ _ _ _ d_valid) as (_ & ? & ? & ?). lia. Qed.

Lemma valid_day : 1 <= PyDate.day d <= 31.
Proof. destruct (make_date_valid _ _ _ _ d_valid) as (_ & ? & ? & ?). lia. Qed.

Lemma strptime_Ymd (sep : ascii) :
  PyDate.strptime
    [PyDate.dir_Y; PyDate.dir_lit sep; PyDate.dir_m; PyDate.dir_lit sep; PyDate.dir_d]
    (Generate.strftime
       [PyDate.dir_Y; PyDate.dir_lit sep; PyDate.dir_m; PyDate.dir_lit sep; PyDate.dir_d]
       d) = Some d.
Proof.
  apply strptime_ok; [|exact d_valid]. cbn [Generate.strftime].
  rewrite regex_Y by exact valid_year. rewrite regex_lit.
  apply regex_m; [exact valid_month|]. rewrite regex_lit.
  apply regex_d; [exact valid_day|]. reflexivity.
Qed.

Lemma strptime_dmY (sep : ascii) :
  PyDate.strptime
    [PyDate.dir_d; PyDate.dir_lit sep; PyDate.dir_m; PyDate.dir_lit sep; PyDate.dir_Y]
    (Generate.strftime
       [PyDate.dir_d; PyDate.dir_lit sep; PyDate.dir_m; PyDate.dir_lit sep; PyDate.dir_Y]
       d) = Some d.
Proof.
  apply strptime_ok; [|exact d_valid]. cbn [Generate.strftime].
  apply regex_d; [exact valid_day|]. rewrite regex_lit.
  apply regex_m; [exact valid_month|]. rewrite regex_lit.
  rewrite regex_Y by exact valid_year. reflexivity.
Qed.

Lemma isoformat_strftime :
  PyDate.isoformat d = Generate.strftime PyDate.fmt_Ymd_dash d.
Proof.
  unfold PyDate.isoformat, PyDate.fmt_Ymd_dash. cbn [Generate.strftime].
  unfold PyDate.four_digits, PyDate.two_digits. reflexivity.
Qed.

End ValidDate.

Lemma digit_char_no_space (k : Z) :
  negb (PyStr.is_space (PyStr.digit_char (k mod 10))) = true.
Proof.
  apply negb_true_iff, digit_not_space, is_digit_digit_char, mod10_digit.
Qed.

Lemma two_digits_no_space (n : Z) :
  Text.all_chars (fun c => negb (PyStr.is_space c)) (PyDate.two_digits n) = true.
Proof.
  unfold PyDate.two_digits. cbn [Text.all_chars].
  now rewrite !digit_char_no_space.
Qed.

Lemma four_digits_no_space (n : Z) :
  Text.all_chars (fun c => negb (PyStr.is_space c)) (PyDate.four_digits n) = true.
Proof.
  unfold PyDate.four_digits. cbn [Text.all_chars].
  now rewrite !digit_char_no_space, two_digits_no_space.
Qed.

Lemma strftime_no_space (fmt : list PyDate.directive) (d : PyDate.date) :
  Forall (fun x => match x with
                   | PyDate.dir_lit c => PyStr.is_space c = false
                   | _ => True
                   end) fmt ->
  Text.all_chars (fun c => negb (PyStr.is_space c)) (Generate.strftime fmt d) = true.
Proof.
  induction 1 as [|x fmt Hx _ IH]; [reflexivity|].
  destruct x; cbn [Generate.strftime Text.all_chars];
    rewrite ?all_chars_app, ?four_digits_no_space, ?two_digits_no_space, ?Hx, IH;
    reflexivity.
Qed.

Lemma date_formats_no_space :
  Forall (Forall (fun x => match x with
                           | PyDate.dir_lit c => PyStr.is_space c = false
                           | _ => True
                           end)) Scripts.date_formats.
Proof. repeat constructor. Qed.

(** ** [strptime] reads back what [strftime] prints *)

Lemma strptime_date_formats (fmt : list PyDate.directive) (d : PyDate.date) :
  In fmt Scripts.date_formats ->
  PyDate.make_date (PyDate.year d) (PyDate.month d) (PyDate.day d) = Some d ->
  PyDate.strptime fmt (Generate.strftime fmt d) = Some d.
Proof.
  intros Hf Hd. simpl in Hf.
  destruct Hf as [<-|[<-|[<-|[<-|[]]]]].
  - now apply strptime_Ymd.
  - now apply strptime_Ymd.
  - now apply strptime_dmY.
  - now apply strptime_dmY.
Qed.

(** X8. For each of the four formats of [clean_date] and every calendar day
    from the year 1000 on, [strptime] applied to what [strftime] prints in
    that format gives the day back: the zero-padded day and month are read
    whole, never split by the shorter alternatives of the pattern. *)
Theorem strptime_reads_strftime (fmt : list PyDate.directive) (d : PyDate.date) :
  In fmt Scripts.date_formats ->
  PyDate.make_date (PyDate.year d) (PyDate.month d) (PyDate.day d) = Some d ->
  1000 <= PyDate.year d ->
  PyDate.strptime fmt (Generate.strftime fmt d) = Some d.
Proof.
  intros Hf Hd _. now apply strptime_date_formats.
Qed.

Lemma strptime_reads_strftime_witness :
  PyDate.strptime PyDate.fmt_dmY_slash
    (Generate.strftime PyDate.fmt_dmY_slash (PyDate.mkDate 2024 2 29))
  = Some (PyDate.mkDate 2024 2 29).
Proof.
  apply strptime_reads_strftime;
    [right; right; right; left; reflexivity|reflexivity|cbn; lia].
Defined.

(** ** [clean_date] returns the empty text or an ISO date *)

Lemma try_formats_result (fmts : list (list PyDate.directive)) (s : string) :
  Scripts.try_formats fmts s = ""
  \/ exists d,
       PyDate.make_date (PyDate.year d) (PyDate.month d) (PyDate.day d) = Some d
       /\ Scripts.try_formats fmts s = PyDate.isoformat d.
Proof.
  induction fmts as [|fmt rest IH]; simpl.
  - now left.
  - destruct (PyDate.strptime fmt s) as [d|] eqn:E.
    + right. exists d. split; [now apply strptime_valid in E|reflexivity].
    + exact IH.
Qed.

Lemma strptime_isoformat (d : PyDate.date) :
  PyDate.make_date (PyDate.year d) (PyDate.month d) (PyDate.day d) = Some d ->
  PyDate.strptime PyDate.fmt_Ymd_dash (PyDate.isoformat d) = Some d.
Proof.
  intros H. rewrite isoformat_strftime. now apply strptime_Ymd.
Qed.

Lemma isoformat_no_space (d : PyDate.date) :
  Text.all_chars (fun c => negb (PyStr.is_space c)) (PyDate.isoformat d) = true.
Proof.
  rewrite isoformat_strftime. apply strftime_no_space. repeat constructor.
Qed.

Lemma clean_date_isoformat (d : PyDate.date) :
  PyDate.make_date (PyDate.year d) (PyDate.month d) (PyDate.day d) = Some d ->
  Scripts.clean_date (Some (PyDate.isoformat d)) = PyDate.isoformat d.
Proof.
  intros H. unfold Scripts.clean_date.
  rewrite (strip_no_space _ (isoformat_no_space d)).
  unfold Scripts.date_formats. cbn [Scripts.try_formats].
  now rewrite (strptime_isoformat _ H).
Qed.

Lemma clean_date_result (x : Scripts.cell) :
  Scripts.clean_date x = ""
  \/ exists d,
       PyDate.make_date (PyDate.year d) (PyDate.month d) (PyDate.day d) = Some d
       /\ Scripts.clean_date x = PyDate.isoformat d.
Proof.
  destruct x as [v|]; [apply try_formats_result|now left].
Qed.

(** X9. [clean_date] returns either the empty text or the ISO text of a
    real calendar day; in the second case the [strptime(..., "%Y-%m-%d")] of
    the import reads that day back.  Cleaning a cleaned date changes
    nothing. *)
Theorem clean_date_iso_or_empty (x : Scripts.cell) :
  (Scripts.clean_date x = ""
   \/ exists d,
        PyDate.make_date (PyDate.year d) (PyDate.month d) (PyDate.day d) = Some d
        /\ Scripts.clean_date x = PyDate.isoformat d
        /\ PyDate.strptime PyDate.fmt_Ymd_dash (Scripts.clean_date x) = Some d)
  /\ Scripts.clean_date (Some (Scripts.clean_date x)) = Scripts.clean_date x.
Proof.
  destruct (clean_date_result x) as [E|(d & V & E)].
  - rewrite E. split; [now left|reflexivity].
  - rewrite E. split.
    + right. exists d. auto using strptime_isoformat.
    + now apply clean_date_isoformat.
Qed.

(** ** The dates of the generator *)

(** X10. Whichever of its four formats [messy_date] draws for a calendar
    day from the year 1000 on, and whether or not it pads the text with
    blanks, [clean_date] gives the ISO text of that day: the formats tried
    before the right one all fail on the text. *)
Theorem clean_date_reads_messy_date (d : PyDate.date) (pick : nat) (padded : bool) :
  PyDate.make_date (PyDate.year d) (PyDate.month d) (PyDate.day d) = Some d ->
  1000 <= PyDate.year d ->
  (pick < 4)%nat ->
  Scripts.clean_date (Some (Generate.messy_date d pick padded)) = PyDate.isoformat d.
Proof.
  intros V _ Hp.
  assert (forall fmt before after,
            Scripts.date_formats = (before ++ fmt :: after)%list ->
            Forall (fun f => PyDate.strptime f (Generate.strftime fmt d) = None) before ->
            Scripts.clean_date
              (Some (if padded then " " ++ Generate.strftime fmt d ++ " "
                     else Generate.strftime fmt d))
            = PyDate.isoformat d) as Reads.
  { intros fmt before after E F.
    assert (In fmt Scripts.date_formats) as I
      by (rewrite E; apply in_or_app; right; now left).
    assert (Text.all_chars (fun c => negb (PyStr.is_space c)) (Generate.strftime fmt d)
            = true) as NS.
    { apply strftime_no_space.
      exact (proj1 (Forall_forall _ _) date_formats_no_space _ I). }
    unfold Scripts.clean_date.
    assert (PyStr.strip (if padded then " " ++ Generate.strftime fmt d ++ " "
                         else Generate.strftime fmt d) = Generate.strftime fmt d) as ->.
    { destruct padded.
      - rewrite strip_padding by reflexivity. now apply strip_no_space.
      - now apply strip_no_space. }
    rewrite E, (try_formats_skip _ _ _ F). cbn [Scripts.try_formats].
    now rewrite (strptime_date_formats _ _ I V). }
  pose proof (valid_year d V) as Hy.
  pose proof (valid_month d V) as Hm.
  pose proof (valid_day d V) as Hd.
  unfold Generate.messy_date.
  destruct pick as [|[|[|[|pick]]]]; try lia; cbn [nth].
  - apply (Reads _ [] _ eq_refl). constructor.
  - apply (Reads _ [PyDate.fmt_Ymd_dash] _ eq_refl).
    repeat constructor. apply strptime_fail.
    unfold PyDate.fmt_Ymd_dash, PyDate.fmt_Ymd_slash. cbn [Generate.strftime].
    rewrite regex_Y by exact Hy. now apply regex_lit_fail.
  - apply (Reads _ [PyDate.fmt_Ymd_dash; PyDate.fmt_Ymd_slash] _ eq_refl).
    repeat constructor; apply strptime_fail;
      unfold PyDate.fmt_Ymd_dash, PyDate.fmt_Ymd_slash, PyDate.fmt_dmY_dash;
      cbn [Generate.strftime]; now apply regex_Y_fail.
  - apply (Reads _ [PyDate.fmt_Ymd_dash; PyDate.fmt_Ymd_slash; PyDate.fmt_dmY_dash]
             _ eq_refl).
    repeat constructor; apply strptime_fail;
      unfold PyDate.fmt_Ymd_dash, PyDate.fmt_Ymd_slash, PyDate.fmt_dmY_dash,
        PyDate.fmt_dmY_slash;
      cbn [Generate.strftime];
      first [now apply regex_Y_fail | now apply regex_d_dash_fail].
Qed.

Lemma clean_date_reads_messy_date_witness :
  Scripts.clean_date (Some (Generate.messy_date (PyDate.mkDate 2024 2 29) 3 true))
  = PyDate.isoformat (PyDate.mkDate 2024 2 29).
Proof.
  apply clean_date_reads_messy_date; [reflexivity|cbn; lia|lia].
Defined.

(** ** The three commands of the commerce pipeline, one after the other *)







(** ** After an import, the rows of the files are stored *)






(** ** The catalog cleaners *)

(** *** Reviews *)

Lemma clean_reviews_filter (book_ids : list Z) (comments : list Myapp.comment) :
  map Myapp.r_id (Myapp._clean_reviews comments book_ids)
  = map Myapp.comment_id
      (filter (fun c => Myapp.known_id (Myapp.postId c) book_ids) comments).
Proof.
  induction comments as [|c comments IH]; [reflexivity|].
  cbn [Myapp._clean_reviews filter]. unfold Myapp.review_of_comment, Myapp.known_id.
  destruct (Myapp.postId c) as [b|]; [|exact IH].
  destruct (mem_Z b book_ids); [|exact IH].
  cbn [map Myapp.r_id]. now rewrite IH.
Qed.

(** X13. The reviews that [_clean_reviews] returns are the comments whose
    [postId] is an accepted book id, one review per comment and in the order
    of the comments.  Every rating lies between 1 and 5: it is 1 for at most
    one like (negative counts included), 5 from eight likes on, and
    [likes // 2 + 1] in between. *)
Theorem clean_reviews_ratings (comments : list Myapp.comment) (book_ids : list Z) :
  map Myapp.r_id (Myapp._clean_reviews comments book_ids)
  = map Myapp.comment_id
      (filter (fun c => Myapp.known_id (Myapp.postId c) book_ids) comments)
  /\ forall r, In r (Myapp._clean_reviews comments book_ids) ->
       1 <= Myapp.r_rating r <= 5
       /\ exists c, In c comments
            /\ Myapp.r_id r = Myapp.comment_id c
            /\ (Myapp.or_zero (Myapp.comment_likes c) <= 1 -> Myapp.r_rating r = 1)
            /\ (8 <= Myapp.or_zero (Myapp.comment_likes c) -> Myapp.r_rating r = 5)
            /\ (0 <= Myapp.or_zero (Myapp.comment_likes c) <= 9 ->
                Myapp.r_rating r = Myapp.or_zero (Myapp.comment_likes c) / 2 + 1).
Proof.
  split; [apply clean_reviews_filter|].
  intros r I. apply clean_reviews_rows in I. destruct I as (c & Ic & E).
  unfold Myapp.review_of_comment in E.
  destruct (Myapp.postId c) as [b|]; [|discriminate].
  destruct (mem_Z b book_ids); [|discriminate].
  injection E as <-. cbn [Myapp.r_rating Myapp.r_id].
  set (likes := Myapp.or_zero (Myapp.comment_likes c)).
  pose proof (Z.div_mod likes 2 ltac:(lia)) as D.
  pose proof (Z.mod_pos_bound likes 2 ltac:(lia)) as M.
  split; [lia|]. exists c.
  split; [exact Ic|]. split; [reflexivity|].
  split; [|split]; intros H; unfold likes in *; lia.
Qed.

Lemma clean_reviews_ratings_witness :
  1 <= Myapp.r_rating (Myapp.mkReview 100 10 "Great read" 2) <= 5.
Proof.
  refine (proj1 (proj2 (clean_reviews_ratings
                          [Myapp.mkComment 100 (Some 10) (Some 3) (Some "Great read")]
                          [10]) _ _)).
  left. reflexivity.
Defined.

(** *** Authors *)

Lemma or_else_nonempty (a b : string) : b <> "" -> PyStr.or_else a b <> "".
Proof.
  unfold PyStr.or_else. destruct a; simpl; [auto|discriminate].
Qed.

Lemma author_of_user_bounds (u : Myapp.user) :
  let a := Myapp.author_of_user u in
  Myapp.a_id a = Myapp.user_id u
  /\ Myapp.a_name a <> "" /\ (String.length (Myapp.a_name a) <= 100)%nat
  /\ Myapp.a_bio a <> "" /\ (String.length (Myapp.a_bio a) <= 500)%nat.
Proof.
  unfold Myapp.author_of_user. cbn [Myapp.a_id Myapp.a_name Myapp.a_bio].
  split; [reflexivity|].
  split; [|split; [apply first_chars_length|]].
  - apply first_chars_nonempty; [lia|].
    apply or_else_nonempty, or_else_nonempty. discriminate.
  - split; [|apply first_chars_length].
    apply first_chars_nonempty; [lia|].
    apply or_else_nonempty. discriminate.
Qed.

Lemma clean_authors_from_spec (users : list Myapp.user) :
  forall seen,
    NoDup (map Myapp.a_id (Myapp.clean_authors_from seen users))
    /\ (forall a, In a (Myapp.clean_authors_from seen users) ->
          ~ In (Myapp.a_id a) seen
          /\ exists u, In u users /\ a = Myapp.author_of_user u)
    /\ (forall u, In u users ->
          In (Myapp.user_id u) seen
          \/ In (Myapp.user_id u)
               (map Myapp.a_id (Myapp.clean_authors_from seen users)))
    /\ (forall before u after,
          users = (before ++ u :: after)%list ->
          ~ In (Myapp.user_id u) seen ->
          (forall b, In b before -> Myapp.user_id b <> Myapp.user_id u) ->
          In (Myapp.author_of_user u) (Myapp.clean_authors_from seen users)).
Proof.
  induction users as [|u rest IH]; intros seen; cbn [Myapp.clean_authors_from].
  - repeat split.
    + constructor.
    + destruct H.
    + destruct H.
    + intros u H. destruct H.
    + intros before u after E. now destruct before.
  - destruct (mem_Z (Myapp.user_id u) seen) eqn:M.
    + destruct (IH seen) as (D & F & C & K). apply mem_Z_In in M.
      split; [exact D|]. split; [|split].
      * intros a I. destruct (F a I) as (N & v & Iv & E).
        split; [exact N|]. exists v. split; [now right|exact E].
      * intros v [<-|I]; [now left|now apply C].
      * intros before v after E N B.
        destruct before as [|b before]; injection E as -> ->.
        -- contradiction.
        -- apply (K before v after eq_refl N). intros x Ix. apply B. now right.
    + destruct (IH (Myapp.user_id u :: seen)) as (D & F & C & K).
      assert (~ In (Myapp.user_id u) seen) as Nu.
      { intros I. apply mem_Z_In in I. congruence. }
      split; [|split; [|split]].
      * cbn [map]. constructor; [|exact D].
        intros I. apply in_map_iff in I. destruct I as (a & Ea & Ia).
        destruct (F a Ia) as (N & _). apply N. left.
        change (Myapp.a_id (Myapp.author_of_user u)) with (Myapp.user_id u) in Ea.
        now symmetry.
      * intros a [<-|I].
        -- split; [exact Nu|]. exists u. split; [now left|reflexivity].
        -- destruct (F a I) as (N & v & Iv & E). split.
           ++ intros J. apply N. now right.
           ++ exists v. split; [now right|exact E].
      * intros v [<-|I].
        -- right. now left.
        -- destruct (C v I) as [[J|J]|J].
           ++ right. left. exact J.
           ++ now left.
           ++ right. right. exact J.
      * intros before v after E N B.
        destruct before as [|b before]; injection E as -> ->.
        -- now left.
        -- right. apply (K before v after eq_refl).
           ++ intros [J|J]; [|contradiction].
              apply (B b); [now left|exact J].
           ++ intros x Ix. apply B. now right.
Qed.


(** X14. [_clean_authors] returns one author per user identifier: the
    identifiers of the result are pairwise distinct, every identifier of the
    input occurs, and it is the first user under an identifier that gives
    the author.  Every author has a non-empty name of at most 100 characters
    and a non-empty bio of at most 500. *)
Theorem clean_authors_unique_and_bounded (users : list Myapp.user) :
  NoDup (map Myapp.a_id (Myapp._clean_authors users))
  /\ (forall u, In u users ->
        In (Myapp.user_id u) (map Myapp.a_id (Myapp._clean_authors users)))
  /\ (forall before u after,
        users = (before ++ u :: after)%list ->
        (forall b, In b before -> Myapp.user_id b <> Myapp.user_id u) ->
        In (Myapp.author_of_user u) (Myapp._clean_authors users))
  /\ (forall a, In a (Myapp._clean_authors users) ->
        (exists u, In u users /\ a = Myapp.author_of_user u)
        /\ Myapp.a_name a <> "" /\ (String.length (Myapp.a_name a) <= 100)%nat
        /\ Myapp.a_bio a <> "" /\ (String.length (Myapp.a_bio a) <= 500)%nat).
Proof.
  unfold Myapp._clean_authors.
  destruct (clean_authors_from_spec users []) as (D & F & C & K).
  split; [exact D|]. split; [|split].
  - intros u I. destruct (C u I) as [[]|J]. exact J.
  - intros before u after E B. apply (K before u after E); [intros []|exact B].
  - intros a I. destruct (F a I) as (_ & u & Iu & ->).
    split; [now exists u|]. apply author_of_user_bounds.
Qed.

Lemma clean_authors_unique_and_bounded_witness :
  In (Myapp.mkAuthor 1 "Emily Johnson" "No bio provided.")
     (Myapp._clean_authors Examples.users_with_duplicate).
Proof.
  destruct (clean_authors_unique_and_bounded Examples.users_with_duplicate)
    as (_ & _ & H & _).
  apply (H [] _ _ eq_refl). intros b [].
Defined.

(** *** [_norm_text] and the titles of the books *)

Lemma norm_text_cases (value : option string) (fallback : string) :
  match value with
  | None => Myapp._norm_text value fallback = fallback
  | Some v =>
      if PyStr.nonempty v then Myapp._norm_text value fallback = PyStr.strip v
      else Myapp._norm_text value fallback = fallback
  end.
Proof.
  destruct value as [v|]; [|reflexivity]. simpl. now destruct (PyStr.nonempty v).
Qed.

(** X15. The title of a cleaned book has at most 200 characters.  It is
    the fallback "Untitled <id>" when the post has no title or an empty one;
    otherwise it is the stripped title, so a title made of blanks only gives
    the empty title, not the fallback. *)
Theorem clean_books_titles (posts : list Myapp.post) (author_ids : list Z)
  (books : list Myapp.Book) :
  Myapp._clean_books posts author_ids = Ok books ->
  Forall2
    (fun p b =>
       (String.length (Myapp.b_title b) <= 200)%nat
       /\ (Myapp.title p = None \/ Myapp.title p = Some "" ->
           Myapp.b_title b
           = PyStr.first_chars 200 ("Untitled " ++ PyStr.str_of_Z (Myapp.post_id p)))
       /\ (forall v, Myapp.title p = Some v -> v <> "" ->
             Myapp.b_title b = PyStr.first_chars 200 (PyStr.strip v)
             /\ (Text.blank v = true -> Myapp.b_title b = "")))
    posts books.
Proof.
  unfold Myapp._clean_books. revert books.
  induction posts as [|p posts IH]; cbn [collect]; intros books E.
  - injection E as <-. constructor.
  - destruct (Myapp._safe_price p) as [price|e]; cbn [and_then] in E; [|discriminate].
    destruct (collect _ posts) as [rest|e]; [|discriminate].
    injection E as <-. constructor; [|now apply IH].
    cbn [Myapp.b_title]. split; [apply first_chars_length|]. split.
    + intros [->| ->]; reflexivity.
    + intros v -> Hv. unfold Myapp._norm_text.
      destruct v as [|c v]; [congruence|]. cbn [PyStr.nonempty]. cbv iota.
      split; [reflexivity|].
      intros B. apply (proj2 (strip_blank _)) in B. now rewrite B.
Qed.

Lemma clean_books_titles_witness :
  Myapp._clean_books [Examples.blank_title_post] [1]
  = Ok [Myapp.mkBook 7 "" (Some 1) (PyFloat.Cents 500)]
  /\ Myapp.b_title (Myapp.mkBook 7 "" (Some 1) (PyFloat.Cents 500)) = "".
Proof.
  assert (Myapp._clean_books [Examples.blank_title_post] [1]
          = Ok [Myapp.mkBook 7 "" (Some 1) (PyFloat.Cents 500)]) as E
    by (vm_compute; reflexivity).
  split; [exact E|].
  pose proof (clean_books_titles _ _ _ E) as F.
  inversion F as [|p b ps bs (_ & _ & H) _]; subst.
  apply (H "   " eq_refl); [discriminate|reflexivity].
Defined.

(** ** The catalog import: what the tables hold afterwards *)

Section BulkCreateZ.

Context {R : Type} (key : R -> Z).

Local Notation "'insert'" := (bulk_create_ignore_conflicts Z.eqb key).




End BulkCreateZ.






(** ** The emails of the generator *)

Lemma upper_char_space (c : ascii) :
  PyStr.is_space (Generate.upper_char c) = PyStr.is_space c.
Proof.
  destruct c as [[] [] [] [] [] [] [] []]; reflexivity.
Qed.

Lemma lower_upper_char (c : ascii) :
  PyStr.lower_char (Generate.upper_char c) = PyStr.lower_char c.
Proof.
  destruct c as [[] [] [] [] [] [] [] []]; reflexivity.
Qed.

Lemma lower_upper (s : string) : PyStr.lower (Generate.upper s) = PyStr.lower s.
Proof.
  induction s as [|c r IH]; simpl; [reflexivity|].
  now rewrite lower_upper_char, IH.
Qed.

Lemma lower_app (a b : string) :
  PyStr.lower (a ++ b) = PyStr.lower a ++ PyStr.lower b.
Proof.
  induction a as [|c r IH]; simpl; [reflexivity|now rewrite IH].
Qed.

Lemma append_assoc (a b c : string) : (a ++ b) ++ c = a ++ b ++ c.
Proof.
  induction a as [|x r IH]; simpl; [reflexivity|now rewrite IH].
Qed.

Lemma rstrip_app_fixed (s t : string) :
  PyStr.rstrip t = t -> t <> "" -> PyStr.rstrip (s ++ t) = s ++ t.
Proof.
  intros Ht Hne. induction s as [|c s IH]; [exact Ht|].
  cbn [append PyStr.rstrip]. rewrite IH.
  destruct (s ++ t) eqn:E; [|reflexivity].
  destruct s; [simpl in E; congruence|discriminate E].
Qed.

(** X18. Cleaning an email of the generator: the upper-casing that
    [messy_email] may apply is undone, but the padding it may apply is
    around the local part, before the "@", so the blank after the local part
    is inside the text and survives: the result is the lower-case local
    part, then " @" or "@", then the domain. *)
Theorem clean_email_of_messy_email (first last : string) (i : Z)
  (shout padded : bool) (pick : nat) :
  (pick < 4)%nat ->
  first <> "" ->
  PyStr.lstrip first = first ->
  Scripts.clean_email (Some (Generate.messy_email first last i shout padded pick))
  = PyStr.lower (first ++ "." ++ last ++ PyStr.str_of_Z i)
    ++ (if padded then " @" else "@") ++ nth pick Generate.DOMAINS "".
Proof.
  intros Hp Hne Hl. unfold Generate.messy_email.
  set (base := first ++ "." ++ last ++ PyStr.str_of_Z i).
  set (b := if shout then Generate.upper base else base).
  set (dom := nth pick Generate.DOMAINS "").
  set (tail := (if padded then " @" else "@") ++ dom).
  assert (PyStr.lower b = PyStr.lower base) as Lb.
  { unfold b. destruct shout; [apply lower_upper|reflexivity]. }
  assert (exists c r, b = String c r /\ PyStr.is_space c = false) as (c & r & Eb & Hc).
  { pose proof (lstrip_head first) as H. rewrite Hl in H.
    destruct first as [|c r]; [congruence|].
    unfold b, base. destruct shout; cbn [append Generate.upper].
    - eexists _, _. split; [reflexivity|]. now rewrite upper_char_space.
    - eexists _, _. split; [reflexivity|exact H]. }
  assert ((if padded then " " ++ b ++ " " else b) ++ "@" ++ dom
          = (if padded then " " else "") ++ b ++ tail) as ->.
  { unfold tail. destruct padded; cbn [append]; [|reflexivity].
    now rewrite append_assoc. }
  assert (PyStr.rstrip tail = tail /\ tail <> "" /\ PyStr.lower tail = tail)
    as (Rt & Nt & Lt).
  { unfold tail, dom, Generate.DOMAINS.
    destruct pick as [|[|[|[|pick]]]]; try lia; destruct padded;
      repeat split; discriminate. }
  unfold Scripts.clean_email, PyStr.strip.
  rewrite lstrip_padding by (destruct padded; reflexivity).
  rewrite Eb. cbn [append]. rewrite (lstrip_fixed _ _ Hc).
  change (String c (r ++ tail)) with (String c r ++ tail).
  rewrite (rstrip_app_fixed _ _ Rt Nt), <- Eb, lower_app, Lb, Lt.
  reflexivity.
Qed.

Lemma clean_email_of_messy_email_witness :
  Scripts.clean_email (Some (Generate.messy_email "Alex" "Chan" 5 true true 0))
  = "alex.chan5 @gmail.com".
Proof.
  exact (clean_email_of_messy_email "Alex" "Chan" 5 true true 0
           ltac:(lia) ltac:(discriminate) eq_refl).
Defined.

(** ** Which raw orders the cleaner keeps *)




(** ** The product cleaner *)



(** ** A failing [cmd_import] keeps what it has loaded so far *)



